(** * asciimatics widgets: Frame, Layout and the Widget variants

    A shallow embedding of [asciimatics/widgets.py]: the Python helpers the
    code relies on (indexing with negative indices, slices, [insert], [pop],
    [split]), the six Widget variants with their [reset], [process_event],
    [update] and [required_height], the Layout with its geometry and its focus
    search, and the Frame that routes events.

    Conventions.
    - Python integers are [Z]; strings are lists of characters; a Python
      exception is a [Raise] in the [result] monad.
    - The rendering surface (Canvas), the palette and the event source are
      collaborators that live outside [widgets.py]: what is painted is not
      modelled, only the state the widgets keep.
    - The key codes [Screen.KEY_*] are declared outside [widgets.py]; they are
      taken as a table [ScreenT] that every event handler receives.
    - [x / total_size] and the products with the canvas width are floating
      point computations; a column size is kept as the pair of its operands
      and the two roundings the code performs are taken as a table [FloatT].
    - Every Layout and Widget is registered with its Frame (the back-reference
      [_frame] is set), and no object is owned twice: the ownership tree
      Frame / Layout / Column / Widget is modelled by nested lists. *)

From Stdlib Require Import ZArith Ascii String Lia.
From stdpp Require Import base list sorting.
Open Scope Z_scope.

(** ** Python results and exceptions *)

Inductive failure :=
| IndexError | TypeError | ValueError | ZeroDivisionError | OutOfFuel.

Inductive result (A : Type) :=
| Ok (a : A)
| Raise (e : failure).
Arguments Ok {A} a.
Arguments Raise {A} e.

Definition bind {A B} (m : result A) (k : A -> result B) : result B :=
  match m with
  | Ok a => k a
  | Raise e => Raise e
  end.

Notation "'let*' p ':=' c1 'in' c2" :=
  (bind c1 (fun p => c2))
  (at level 10, p pattern, c1 at level 100, c2 at level 200).

(** The value of a computation that does not raise. *)
Definition from_ok {A} (default : A) (r : result A) : A :=
  match r with
  | Ok a => a
  | Raise _ => default
  end.

(** ** Python sequences *)

Abbreviation str := (list ascii) (only parsing).

Definition len {A} (l : list A) : Z := Z.of_nat (length l).

(** [l[i]] for reading and writing: a negative index counts from the end. *)
Definition py_index {A} (l : list A) (i : Z) : result nat :=
  if (0 <=? i) && (i <? len l) then Ok (Z.to_nat i)
  else if (i <? 0) && (0 <=? i + len l) then Ok (Z.to_nat (i + len l))
  else Raise IndexError.

Definition py_getitem {A} (l : list A) (i : Z) : result A :=
  let* n := py_index l i in
  match l !! n with
  | Some x => Ok x
  | None => Raise IndexError
  end.

Definition py_setitem {A} (l : list A) (i : Z) (x : A) : result (list A) :=
  let* n := py_index l i in
  Ok (<[n:=x]> l).

(** The bound of a slice: negative counts from the end, then clamped. *)
Definition slice_bound {A} (l : list A) (i : Z) : nat :=
  Z.to_nat (if i <? 0 then Z.max 0 (i + len l) else Z.min i (len l)).

(** [l[i:]] and [l[:j]]. *)
Definition py_slice_from {A} (l : list A) (i : Z) : list A :=
  drop (slice_bound l i) l.
Definition py_slice_to {A} (l : list A) (j : Z) : list A :=
  take (slice_bound l j) l.

(** [l.insert(i, x)] never raises: the index is clamped to the list. *)
Definition py_insert {A} (l : list A) (i : Z) (x : A) : list A :=
  take (slice_bound l i) l ++ x :: drop (slice_bound l i) l.

(** [l.pop(i)] returns the element and the shortened list. *)
Definition py_pop {A} (l : list A) (i : Z) : result (A * list A) :=
  let* n := py_index l i in
  match l !! n with
  | Some x => Ok (x, delete n l)
  | None => Raise IndexError
  end.

(** [max(l)] raises ValueError on an empty sequence. *)
Definition py_max (l : list Z) : result Z :=
  match l with
  | [] => Raise ValueError
  | x :: l' => Ok (fold_left Z.max l' x)
  end.

Definition newline : ascii := ascii_of_nat 10.

(** [s.split("\n")]: always at least one piece. *)
Fixpoint split_lines (s : str) : list str :=
  match s with
  | [] => [[]]
  | c :: s' =>
      if Ascii.eqb c newline then [] :: split_lines s'
      else match split_lines s' with
           | l :: ls => (c :: l) :: ls
           | [] => [[c]]
           end
  end.

(** [chr(k)], used by the code for [32 <= k < 256] only. *)
Definition chr (k : Z) : str := [ascii_of_N (Z.to_N k)].

(** ** Values, events and key codes *)

(** The dynamically typed [value] a Widget hands to the application. *)
#[local] Set Warnings "-register-all".
Inductive PyValue :=
| VNone
| VBool (b : bool)
| VInt (z : Z)
| VStr (s : str)
| VList (l : list PyValue)
| VTuple (a b : PyValue).
#[local] Set Warnings "register-all".

(** Modelled from the spec: the event classes of [asciimatics.event], which
    [widgets.py] only imports; a discriminated event, either a KeyboardEvent
    exposing its [key_code] or an event of another kind. *)
Inductive Event :=
| KeyboardEvent (key_code : Z)
| OtherEvent (tag : Z).

(** The control key codes [Screen.KEY_*], declared in [asciimatics.screen]
    and not in [widgets.py]: a parameter of every event handler. *)
Record ScreenT := mkScreen {
  KEY_BACK : Z; KEY_TAB : Z; KEY_BACK_TAB : Z;
  KEY_UP : Z; KEY_DOWN : Z; KEY_LEFT : Z; KEY_RIGHT : Z;
  KEY_HOME : Z; KEY_END : Z }.

Definition control_keys (Screen : ScreenT) : list Z :=
  [KEY_BACK Screen; KEY_TAB Screen; KEY_BACK_TAB Screen;
   KEY_UP Screen; KEY_DOWN Screen; KEY_LEFT Screen; KEY_RIGHT Screen;
   KEY_HOME Screen; KEY_END Screen].

Fixpoint distinct (l : list Z) : bool :=
  match l with
  | [] => true
  | x :: l' => forallb (fun y => negb (x =? y)) l' && distinct l'
  end.

Definition printable (k : Z) : bool := (32 <=? k) && (k <? 256).

(** A key table is sound when the control keys are pairwise distinct, are
    neither CR nor LF, and lie outside the character range. *)
Definition Screen_ok (Screen : ScreenT) : bool :=
  distinct (10 :: 13 :: control_keys Screen)
  && forallb (fun k => negb (printable k)) (control_keys Screen).

(** A key table with negative control codes, used for the examples. *)
Definition curses_keys : ScreenT :=
  {| KEY_BACK := -300; KEY_TAB := -301; KEY_BACK_TAB := -302;
     KEY_UP := -204; KEY_DOWN := -206; KEY_LEFT := -203; KEY_RIGHT := -205;
     KEY_HOME := -200; KEY_END := -201 |}.

(** ** Widgets *)

(** The state each concrete class adds to the base class; [_value] is [None]
    until the first [reset]. *)
Inductive Variant :=
| Label (_text : str)
| Divider (_draw_line : bool) (_required_height : Z)
| Text (_text : str) (_value : option str) (_column _start_column : Z)
| CheckBox (_text : str) (_value : option bool)
| RadioButtons (_options : list (str * PyValue))
    (_value : option (str * PyValue)) (_selection _start_column : Z)
| TextBox (_text : str) (_value : option (list str))
    (_line _column _start_line _start_column _required_height : Z).

(** The attributes of the base class [Widget]. *)
Record Widget := mkWidget {
  _name : option str;
  _label : option str;
  _has_focus : bool;
  _x : Z; _y : Z; _w : Z; _h : Z; _offset : Z;
  is_tab_stop : bool;
  variant : Variant }.

Definition set_variant (self : Widget) (v : Variant) : Widget :=
  {| _name := _name self; _label := _label self;
     _has_focus := _has_focus self;
     _x := _x self; _y := _y self; _w := _w self; _h := _h self;
     _offset := _offset self; is_tab_stop := is_tab_stop self;
     variant := v |}.

Definition set_has_focus (self : Widget) (b : bool) : Widget :=
  {| _name := _name self; _label := _label self; _has_focus := b;
     _x := _x self; _y := _y self; _w := _w self; _h := _h self;
     _offset := _offset self; is_tab_stop := is_tab_stop self;
     variant := variant self |}.

(** [Widget.__init__] followed by the subclass constructor. *)
Definition Widget_init (name label : option str) (tab_stop : bool)
    (v : Variant) : Widget :=
  {| _name := name; _label := label; _has_focus := false;
     _x := 0; _y := 0; _w := 0; _h := 0; _offset := 0;
     is_tab_stop := tab_stop; variant := v |}.

Definition Label_init (label : str) : Widget :=
  Widget_init None None false (Label label).
Definition Divider_init (draw_line : bool) (height : Z) : Widget :=
  Widget_init None None false (Divider draw_line height).
Definition Text_init (text : str) (label name : option str) : Widget :=
  Widget_init name label true (Text text None 0 0).
Definition CheckBox_init (text : str) (label name : option str) : Widget :=
  Widget_init name label true (CheckBox text None).
Definition RadioButtons_init (options : list (str * PyValue))
    (label name : option str) : Widget :=
  Widget_init name label true (RadioButtons options None 0 0).
Definition TextBox_init (text : str) (height : Z) (label name : option str)
    : Widget :=
  Widget_init name label true (TextBox text None 0 0 0 0 height).

Definition set_layout (self : Widget) (x y offset w h : Z) : Widget :=
  {| _name := _name self; _label := _label self;
     _has_focus := _has_focus self;
     _x := x; _y := y; _w := w; _h := h; _offset := offset;
     is_tab_stop := is_tab_stop self; variant := variant self |}.

(** [Widget.focus] and [Widget.blur]; the scrolling of the canvas that
    [focus] may ask for is the canvas' state. *)
Definition Widget_focus (self : Widget) : Widget := set_has_focus self true.
Definition Widget_blur (self : Widget) : Widget := set_has_focus self false.

(** The property [Widget.value]. *)
Definition value (self : Widget) : PyValue :=
  match variant self with
  | Label _ | Divider _ _ => VNone
  | Text _ v _ _ => match v with Some s => VStr s | None => VNone end
  | CheckBox _ v => match v with Some b => VBool b | None => VNone end
  | RadioButtons _ v _ _ =>
      match v with Some (t, x) => VTuple (VStr t) x | None => VNone end
  | TextBox _ v _ _ _ _ _ =>
      match v with Some ls => VList (VStr <$> ls) | None => VNone end
  end.

(** Reading a [_value] that is still [None] as a sequence is a TypeError. *)
Definition expect {A} (v : option A) : result A :=
  match v with
  | Some x => Ok x
  | None => Raise TypeError
  end.

Definition required_height (self : Widget) (offset width : Z) : Z :=
  match variant self with
  | Label _ => 2
  | Divider _ h => h
  | Text _ _ _ _ => 1
  | CheckBox _ _ => 1
  | RadioButtons options _ _ _ => len options
  | TextBox _ _ _ _ _ _ h => h + 2
  end.

(** ** Label and Divider *)

Definition Label_process_event (self : Widget) (event : Event)
    : result (Widget * option Event) :=
  Ok (self, Some event).

Definition Divider_process_event (self : Widget) (event : Event)
    : result (Widget * option Event) :=
  Ok (self, Some event).

(** ** Text: a single line input field *)

Definition Text_reset (self : Widget) (text : str) (start_column : Z)
    : Widget :=
  set_variant self (Text text (Some text) (len text) start_column).

Definition Text_update (self : Widget) (text : str) (value : option str)
    (column start_column : Z) (frame_no : Z) : result Widget :=
  let width := _w self - _offset self in
  let start_column :=
    Z.max 0 (Z.max (column - width + 1) (Z.min start_column column)) in
  (* the visible portion is a slice of the value *)
  let* v := expect value in
  (* the emulated cursor reads the character under it *)
  let* _ :=
    if _has_focus self then
      if column <? len v then
        let* c := py_getitem v column in Ok [c]
      else Ok [" "%char]
    else Ok [] in
  Ok (set_variant self (Text text value column start_column)).

Definition Text_process_event (Screen : ScreenT) (self : Widget)
    (text : str) (value : option str) (column start_column : Z)
    (event : Event) : result (Widget * option Event) :=
  let store value column :=
    Ok (set_variant self (Text text value column start_column), None) in
  match event with
  | KeyboardEvent key_code =>
      if key_code =? KEY_BACK Screen then
        if column >? 0 then
          (* Delete character in front of cursor. *)
          let* v := expect value in
          store (Some (py_slice_to v (column - 1) ++ py_slice_from v column))
                (column - 1)
        else store value column
      else if key_code =? KEY_LEFT Screen then
        store value (Z.max (column - 1) 0)
      else if key_code =? KEY_RIGHT Screen then
        let* v := expect value in
        store value (Z.min (len v) (column + 1))
      else if key_code =? KEY_HOME Screen then
        store value 0
      else if key_code =? KEY_END Screen then
        let* v := expect value in
        store value (len v)
      else if (32 <=? key_code) && (key_code <? 256) then
        (* Insert any visible text at the current cursor position. *)
        let* v := expect value in
        store (Some (py_slice_to v column ++ chr key_code
                     ++ py_slice_from v column))
              (column + 1)
      else
        (* Ignore any other key press. *)
        Ok (self, Some event)
  | _ =>
      (* Ignore non-keyboard events *)
      Ok (self, Some event)
  end.

(** ** CheckBox *)

Definition CheckBox_reset (self : Widget) (text : str) : Widget :=
  set_variant self (CheckBox text (Some false)).

(** [not self._value]: [None] is falsy. *)
Definition py_not (v : option bool) : bool :=
  match v with
  | Some b => negb b
  | None => true
  end.

Definition CheckBox_process_event (self : Widget) (text : str)
    (value : option bool) (event : Event) : result (Widget * option Event) :=
  match event with
  | KeyboardEvent key_code =>
      if (key_code =? 32) || (key_code =? 10) || (key_code =? 13) then
        Ok (set_variant self (CheckBox text (Some (py_not value))), None)
      else
        Ok (self, Some event)
  | _ => Ok (self, Some event)
  end.

(** ** RadioButtons *)

Definition RadioButtons_reset (self : Widget)
    (options : list (str * PyValue)) (start_column : Z) : result Widget :=
  let selection := 0 in
  let* v := py_getitem options selection in
  Ok (set_variant self (RadioButtons options (Some v) selection start_column)).

Definition RadioButtons_process_event (Screen : ScreenT) (self : Widget)
    (options : list (str * PyValue)) (value : option (str * PyValue))
    (selection start_column : Z) (event : Event)
    : result (Widget * option Event) :=
  let store selection :=
    let* v := py_getitem options selection in
    Ok (set_variant self
          (RadioButtons options (Some v) selection start_column), None) in
  match event with
  | KeyboardEvent key_code =>
      if key_code =? KEY_UP Screen then
        store (Z.max (selection - 1) 0)
      else if key_code =? KEY_DOWN Screen then
        store (Z.min (selection + 1) (len options - 1))
      else
        Ok (self, Some event)
  | _ => Ok (self, Some event)
  end.

(** ** TextBox: multi-line input *)

Definition TextBox_reset (self : Widget) (text : str)
    (start_line start_column required_height : Z) : result Widget :=
  (* Reset to original data and move to end of the text. *)
  let v := split_lines text in
  let line := len v - 1 in
  let* cur := py_getitem v line in
  Ok (set_variant self
        (TextBox text (Some v) line (len cur) start_line start_column
           required_height)).

Definition TextBox_process_event (Screen : ScreenT) (self : Widget)
    (text : str) (value : option (list str))
    (line column start_line start_column required_height : Z)
    (event : Event) : result (Widget * option Event) :=
  let store value line column :=
    Ok (set_variant self
          (TextBox text value line column start_line start_column
             required_height), None) in
  match event with
  | KeyboardEvent key_code =>
      if (key_code =? 10) || (key_code =? 13) then
        (* Split and insert line on CR or LF. *)
        let* v := expect value in
        let* cur := py_getitem v line in
        let v := py_insert v (line + 1) (py_slice_from cur column) in
        let* cur := py_getitem v line in
        let* v := py_setitem v line (py_slice_to cur column) in
        store (Some v) (line + 1) 0
      else if key_code =? KEY_BACK Screen then
        if column >? 0 then
          (* Delete character in front of cursor. *)
          let* v := expect value in
          let* cur := py_getitem v line in
          let* v := py_setitem v line
                      (py_slice_to cur (column - 1)
                       ++ py_slice_from cur column) in
          store (Some v) line (column - 1)
        else if line >? 0 then
          (* Join this line with previous *)
          let line := line - 1 in
          let* v := expect value in
          let* cur := py_getitem v line in
          let column := len cur in
          let* (next, v) := py_pop v (line + 1) in
          let* v := py_setitem v line (cur ++ next) in
          store (Some v) line column
        else store value line column
      else if key_code =? KEY_UP Screen then
        (* Move up one line in text *)
        let line := Z.max 0 (line - 1) in
        let* v := expect value in
        let* cur := py_getitem v line in
        store value line (if column >=? len cur then len cur else column)
      else if key_code =? KEY_DOWN Screen then
        (* Move down one line in text *)
        let* v := expect value in
        let line := Z.min (len v - 1) (line + 1) in
        let* cur := py_getitem v line in
        store value line (if column >=? len cur then len cur else column)
      else if key_code =? KEY_LEFT Screen then
        (* Move left one char, wrapping to previous line if needed. *)
        let column := column - 1 in
        if column <? 0 then
          if line >? 0 then
            let line := line - 1 in
            let* v := expect value in
            let* cur := py_getitem v line in
            store value line (len cur)
          else store value line 0
        else store value line column
      else if key_code =? KEY_RIGHT Screen then
        (* Move right one char, wrapping to next line if needed. *)
        let column := column + 1 in
        let* v := expect value in
        let* cur := py_getitem v line in
        if column >? len cur then
          if line <? len v - 1 then store value (line + 1) 0
          else
            let* cur := py_getitem v line in
            store value line (len cur)
        else store value line column
      else if key_code =? KEY_HOME Screen then
        (* Go to the start of this line *)
        store value line 0
      else if key_code =? KEY_END Screen then
        (* Go to the end of this line *)
        let* v := expect value in
        let* cur := py_getitem v line in
        store value line (len cur)
      else if (32 <=? key_code) && (key_code <? 256) then
        (* Insert any visible text at the current cursor position. *)
        let* v := expect value in
        let* cur := py_getitem v line in
        let* v := py_setitem v line
                    (py_slice_to cur column ++ chr key_code
                     ++ py_slice_from cur column) in
        store (Some v) line (column + 1)
      else
        (* Ignore any other key press. *)
        Ok (self, Some event)
  | _ =>
      (* Ignore non-keyboard events *)
      Ok (self, Some event)
  end.

(** ** Dispatch on the concrete class *)

Definition reset (self : Widget) : result Widget :=
  match variant self with
  | Label _ | Divider _ _ => Ok self
  | Text text _ _ start_column => Ok (Text_reset self text start_column)
  | CheckBox text _ => Ok (CheckBox_reset self text)
  | RadioButtons options _ _ start_column =>
      RadioButtons_reset self options start_column
  | TextBox text _ _ _ start_line start_column required_height =>
      TextBox_reset self text start_line start_column required_height
  end.

Definition process_event (Screen : ScreenT) (self : Widget) (event : Event)
    : result (Widget * option Event) :=
  match variant self with
  | Label _ => Label_process_event self event
  | Divider _ _ => Divider_process_event self event
  | Text text value column start_column =>
      Text_process_event Screen self text value column start_column event
  | CheckBox text value => CheckBox_process_event self text value event
  | RadioButtons options value selection start_column =>
      RadioButtons_process_event Screen self options value selection
        start_column event
  | TextBox text value line column start_line start_column required_height =>
      TextBox_process_event Screen self text value line column start_line
        start_column required_height event
  end.

(** [update] paints the widget; the state it changes is the scroll window
    of a Text and of a TextBox, and it reads the value it paints. *)
Definition TextBox_update (self : Widget) (text : str)
    (value : option (list str))
    (line column start_line start_column required_height : Z)
    (frame_no : Z) : result Widget :=
  (* Calculate new visible limits if needed. *)
  let width := _w self - _offset self in
  let start_line :=
    Z.max 0 (Z.max (line - _h self + 3) (Z.min start_line line)) in
  let start_column :=
    Z.max 0 (Z.max (column - width + 3) (Z.min start_column column)) in
  (* the visible portion is a slice of each line of the value *)
  let* v := expect value in
  (* the emulated cursor reads the character under it *)
  let* _ :=
    if _has_focus self then
      if frame_no mod 10 <? 5 then Ok [" "%char]
      else
        let* cur := py_getitem v line in
        if column <? len cur then
          let* c := py_getitem cur column in Ok [c]
        else Ok [" "%char]
    else Ok [] in
  Ok (set_variant self
        (TextBox text value line column start_line start_column
           required_height)).

Definition update (self : Widget) (frame_no : Z) : result Widget :=
  match variant self with
  | Text text value column start_column =>
      Text_update self text value column start_column frame_no
  | TextBox text value line column start_line start_column required_height =>
      TextBox_update self text value line column start_line start_column
        required_height frame_no
  | Label _ | Divider _ _ | CheckBox _ _ | RadioButtons _ _ _ _ => Ok self
  end.

(** The key codes each class handles itself. *)
Definition recognized (Screen : ScreenT) (v : Variant) (k : Z) : bool :=
  match v with
  | Label _ | Divider _ _ => false
  | Text _ _ _ _ =>
      bool_decide (k ∈ [KEY_BACK Screen; KEY_LEFT Screen; KEY_RIGHT Screen;
                        KEY_HOME Screen; KEY_END Screen])
      || printable k
  | CheckBox _ _ => bool_decide (k ∈ [32; 10; 13])
  | RadioButtons _ _ _ _ =>
      bool_decide (k ∈ [KEY_UP Screen; KEY_DOWN Screen])
  | TextBox _ _ _ _ _ _ _ =>
      bool_decide (k ∈ [10; 13; KEY_BACK Screen; KEY_UP Screen;
                        KEY_DOWN Screen; KEY_LEFT Screen; KEY_RIGHT Screen;
                        KEY_HOME Screen; KEY_END Screen])
      || printable k
  end.

(** Feed a sequence of events to one widget, dropping what is handed back. *)
Fixpoint process_events (Screen : ScreenT) (self : Widget)
    (events : list Event) : result Widget :=
  match events with
  | [] => Ok self
  | e :: events =>
      let* (self, _) := process_event Screen self e in
      process_events Screen self events
  end.

(** ** Layout *)

(** The two floating point roundings of [Layout.fix], for a canvas width and
    a column size [x / total_size] kept as [(x, total_size)]:
    [int_of_width width size] is [int(width * size)] and
    [third_of_width width size] is the value of [width * size // 3]. *)
Record FloatT := mkFloat {
  int_of_width : Z -> Z * Z -> Z;
  third_of_width : Z -> Z * Z -> Z }.

(** Modelled from the spec: the Canvas of [asciimatics.screen], the surface
    a Frame owns; the widgets read its dimensions [width] and [height]. *)
Record Canvas := mkCanvas { width : Z; height : Z }.

Record Layout := mkLayout {
  _column_sizes : list (Z * Z);
  _columns : list (list Widget);
  Layout_has_focus : bool;
  _live_col : Z;
  _live_widget : Z }.

Definition set_columns (self : Layout) (columns : list (list Widget))
    : Layout :=
  {| _column_sizes := _column_sizes self; _columns := columns;
     Layout_has_focus := Layout_has_focus self;
     _live_col := _live_col self; _live_widget := _live_widget self |}.

Definition set_live (self : Layout) (live_col live_widget : Z) : Layout :=
  {| _column_sizes := _column_sizes self; _columns := _columns self;
     Layout_has_focus := Layout_has_focus self;
     _live_col := live_col; _live_widget := live_widget |}.

Definition set_Layout_has_focus (self : Layout) (b : bool) : Layout :=
  {| _column_sizes := _column_sizes self; _columns := _columns self;
     Layout_has_focus := b;
     _live_col := _live_col self; _live_widget := _live_widget self |}.

Definition Layout_init (columns : list Z) : result Layout :=
  let total_size := fold_right Z.add 0 columns in
  let* sizes :=
    match columns with
    | [] => Ok []
    | _ => if total_size =? 0 then Raise ZeroDivisionError
           else Ok ((fun x => (x, total_size)) <$> columns)
    end in
  Ok {| _column_sizes := sizes; _columns := (fun _ => []) <$> columns;
        Layout_has_focus := false; _live_col := 0; _live_widget := -1 |}.

Definition add_widget (self : Layout) (widget : Widget) (column : Z)
    : result Layout :=
  let* col := py_getitem (_columns self) column in
  let* columns := py_setitem (_columns self) column (col ++ [widget]) in
  Ok (set_columns self columns).

(** [self._columns[c][w]] and the in-place change of that widget. *)
Definition widget_at (columns : list (list Widget)) (c w : Z)
    : result Widget :=
  let* column := py_getitem columns c in
  py_getitem column w.

Definition modify_widget (columns : list (list Widget)) (c w : Z)
    (f : Widget -> Widget) : result (list (list Widget)) :=
  let* column := py_getitem columns c in
  let* widget := py_getitem column w in
  let* column := py_setitem column w (f widget) in
  py_setitem columns c column.

Definition on_live (self : Layout) (f : Widget -> Widget) : result Layout :=
  let* columns :=
    modify_widget (_columns self) (_live_col self) (_live_widget self) f in
  Ok (set_columns self columns).

(** *** Layout.fix *)

Definition label_width (w : Widget) : Z :=
  match _label w with
  | None => 0
  | Some l => len l + 1
  end.

(** The tab offset for the labels of one column, before it is capped. *)
Definition label_offset (column : list Widget) : result Z :=
  if len column >? 0 then py_max (label_width <$> column)
  else Ok 0.

(** The loop over the widgets of one column: returns the final [y]. *)
Fixpoint fix_widgets (column : list Widget) (x y offset w : Z)
    : list Widget * Z :=
  match column with
  | [] => ([], y)
  | widget :: rest =>
      let h := required_height widget offset w in
      let widget := set_layout widget x y offset w h in
      let '(rest, y) := fix_widgets rest x (y + h) offset w in
      (widget :: rest, y)
  end.

(** The loop over the columns, from column [i] on, with the running [x] and
    [max_y]. *)
Fixpoint fix_columns (F : FloatT) (canvas : Canvas) (sizes : list (Z * Z))
    (columns : list (list Widget)) (i : Z) (x start_y max_y : Z)
    : result (list (list Widget) * Z) :=
  match columns with
  | [] => Ok ([], max_y)
  | column :: rest =>
      let* offset := label_offset column in
      let* size := py_getitem sizes i in
      (* Only allow labels to take up 1/3 of the column. *)
      let offset := Z.min offset (third_of_width F (width canvas) size) in
      let w := int_of_width F (width canvas) size in
      let '(column, y) := fix_widgets column x start_y offset w in
      let max_y := Z.max max_y y in
      let* (rest, max_y) :=
        fix_columns F canvas sizes rest (i + 1) (x + w) start_y max_y in
      Ok (column :: rest, max_y)
  end.

Definition Layout_fix (F : FloatT) (canvas : Canvas) (self : Layout)
    (start_y : Z) : result (Layout * Z) :=
  let* (columns, max_y) :=
    fix_columns F canvas (_column_sizes self) (_columns self) 0 0 start_y
      start_y in
  Ok (set_columns self columns, max_y).

(** *** Layout._find_next_widget *)

Definition in_range {A} (i : Z) (l : list A) : bool :=
  (0 <=? i) && (i <? len l).

(** The inner [while]: skip the widgets that are no tab stop. *)
Fixpoint scan_column (fuel : nat) (column : list Widget)
    (direction live_widget : Z) : result Z :=
  match fuel with
  | O => Raise OutOfFuel
  | S fuel =>
      if in_range live_widget column then
        let* widget := py_getitem column live_widget in
        if is_tab_stop widget then Ok live_widget
        else scan_column fuel column direction (live_widget + direction)
      else Ok live_widget
  end.

(** The outer [while], on the pair [(_live_col, _live_widget)]. *)
Fixpoint find_loop (fuel : nat) (columns : list (list Widget))
    (direction : Z) (stay_in_col : bool)
    (current_widget live_col live_widget : Z) : result (Z * Z) :=
  match fuel with
  | O => Raise OutOfFuel
  | S fuel =>
      if in_range live_col columns then
        let* column := py_getitem columns live_col in
        let* live_widget :=
          scan_column (S (length column)) column direction
            (live_widget + direction) in
        let* found :=
          if in_range live_widget column then
            let* widget := py_getitem column live_widget in
            Ok (is_tab_stop widget)
          else Ok false in
        if found then Ok (live_col, live_widget)
        else if stay_in_col then
          (* Don't move to another column - just stay where we are. *)
          Ok (live_col, current_widget)
        else
          let live_col := live_col + direction in
          let* live_widget :=
            if direction >? 0 then Ok (-1)
            else let* column := py_getitem columns live_col in
                 Ok (len column) in
          find_loop fuel columns direction stay_in_col current_widget
            live_col live_widget
      else Ok (live_col, live_widget)
  end.

(** Both loops move by [direction] inside a finite list, so the fuel given
    here is enough whenever [direction] is not 0. *)
Definition _find_next_widget (self : Layout) (direction : Z)
    (stay_in_col : bool) : result Layout :=
  let current_widget := _live_widget self in
  let* (live_col, live_widget) :=
    find_loop (S (length (_columns self))) (_columns self) direction
      stay_in_col current_widget (_live_col self) (_live_widget self) in
  Ok (set_live self live_col live_widget).

(** *** Layout.focus, blur, process_event, reset *)

Definition Layout_focus (self : Layout) (force_first force_last : bool)
    : result Layout :=
  let self := set_Layout_has_focus self true in
  let* self :=
    if force_first then
      _find_next_widget (set_live self 0 (-1)) 1 false
    else if force_last then
      let live_col := len (_columns self) - 1 in
      let* column := py_getitem (_columns self) live_col in
      _find_next_widget (set_live self live_col (len column)) (-1) false
    else Ok self in
  on_live self Widget_focus.

Definition Layout_blur (self : Layout) : result Layout :=
  let self := set_Layout_has_focus self false in
  on_live self Widget_blur.

(** The second half of [Layout.process_event]: the movement keys, for the
    event the active widget handed back ([None] when it consumed it). *)
Definition Layout_movement (Screen : ScreenT) (self : Layout)
    (event : option Event) : result (Layout * option Event) :=
  match event with
  | Some (KeyboardEvent key_code) =>
      if key_code =? KEY_TAB Screen then
        (* Move on to next widget, unless it is the last in the Layout. *)
        let* self := on_live self Widget_blur in
        let* self := _find_next_widget self 1 false in
        if _live_col self >=? len (_columns self) then
          let self := set_live self 0 (-1) in
          let* self := _find_next_widget self 1 false in
          Ok (self, event)
        else
          (* If we got here, we still should have the focus. *)
          let* self := on_live self Widget_focus in
          Ok (self, None)
      else if key_code =? KEY_BACK_TAB Screen then
        (* Move on to previous widget, unless it is the first in the
           Layout. *)
        let* self := on_live self Widget_blur in
        let* self := _find_next_widget self (-1) false in
        if _live_col self <? 0 then
          let live_col := len (_columns self) - 1 in
          let* column := py_getitem (_columns self) live_col in
          let self := set_live self live_col (len column) in
          let* self := _find_next_widget self (-1) false in
          Ok (self, event)
        else
          (* If we got here, we still should have the focus. *)
          let* self := on_live self Widget_focus in
          Ok (self, None)
      else if key_code =? KEY_DOWN Screen then
        (* Move on to next widget in this column *)
        let* self := on_live self Widget_blur in
        let* self := _find_next_widget self 1 true in
        let* self := on_live self Widget_focus in
        Ok (self, None)
      else if key_code =? KEY_UP Screen then
        let* self := on_live self Widget_blur in
        let* self := _find_next_widget self (-1) true in
        let* self := on_live self Widget_focus in
        Ok (self, None)
      else Ok (self, event)
  | _ => Ok (self, event)
  end.

Definition Layout_process_event (Screen : ScreenT) (self : Layout)
    (event : Event) : result (Layout * option Event) :=
  (* Give the active widget the first refusal for this event. *)
  let* widget :=
    widget_at (_columns self) (_live_col self) (_live_widget self) in
  let* (widget, event) := process_event Screen widget event in
  let* self := on_live self (fun _ => widget) in
  (* Check for any movement keys if the widget refused them. *)
  Layout_movement Screen self event.

(** A loop body applied to every element of a list, in order. *)
Fixpoint for_each {A} (f : A -> result A) (l : list A) : result (list A) :=
  match l with
  | [] => Ok []
  | x :: l =>
      let* x := f x in
      let* l := for_each f l in
      Ok (x :: l)
  end.

Definition Layout_reset (self : Layout) : result Layout :=
  (* Reset all the widgets *)
  let* columns := for_each (for_each reset) (_columns self) in
  let self := set_columns self columns in
  (* Find the focus for the first widget *)
  let self := set_live self (_live_col self) (-1) in
  _find_next_widget self 1 false.

(** ** Frame *)

Record Frame := mkFrame {
  _focus : Z;
  _layouts : list Layout;
  _canvas : Canvas }.

Definition set_layouts (self : Frame) (layouts : list Layout) : Frame :=
  {| _focus := _focus self; _layouts := layouts; _canvas := _canvas self |}.

Definition set_focus (self : Frame) (focus : Z) : Frame :=
  {| _focus := focus; _layouts := _layouts self; _canvas := _canvas self |}.

Definition Frame_init (height width : Z) : Frame :=
  {| _focus := 0; _layouts := [];
     _canvas := {| width := width; height := height |} |}.

Definition add_layout (self : Frame) (layout : Layout) : Frame :=
  set_layouts self (_layouts self ++ [layout]).

(** [self._layouts[i].m(...)] for a method [m] that changes the Layout. *)
Definition on_layout (self : Frame) (i : Z) (m : Layout -> result Layout)
    : result Frame :=
  let* layout := py_getitem (_layouts self) i in
  let* layout := m layout in
  let* layouts := py_setitem (_layouts self) i layout in
  Ok (set_layouts self layouts).

(** The loop of [Frame.fix]: each Layout starts where the last one ended. *)
Fixpoint fix_layouts (F : FloatT) (canvas : Canvas) (layouts : list Layout)
    (y : Z) : result (list Layout) :=
  match layouts with
  | [] => Ok []
  | layout :: rest =>
      let* (layout, y) := Layout_fix F canvas layout y in
      let* rest := fix_layouts F canvas rest y in
      Ok (layout :: rest)
  end.

Definition Frame_fix (F : FloatT) (self : Frame) : result Frame :=
  let* layouts := fix_layouts F (_canvas self) (_layouts self) 0 in
  let self := set_layouts self layouts in
  on_layout self (_focus self) (fun l => Layout_focus l true false).

Definition Frame_reset (self : Frame) : result Frame :=
  let* layouts := for_each Layout_reset (_layouts self) in
  Ok (set_layouts self layouts).

(** The second half of [Frame.process_event]: the keys that move the focus
    to another Layout, for the event the Layout handed back. *)
Definition Frame_movement (Screen : ScreenT) (self : Frame)
    (event : option Event) : result (Frame * option Event) :=
  match event with
  | Some (KeyboardEvent key_code) =>
      if key_code =? KEY_TAB Screen then
        (* Move on to next widget. *)
        let* self := on_layout self (_focus self) Layout_blur in
        let focus := _focus self + 1 in
        let focus := if focus >=? len (_layouts self) then 0 else focus in
        let self := set_focus self focus in
        let* self :=
          on_layout self (_focus self) (fun l => Layout_focus l true false) in
        Ok (self, None)
      else if key_code =? KEY_BACK_TAB Screen then
        (* Move on to previous widget. *)
        let* self := on_layout self (_focus self) Layout_blur in
        let focus := _focus self - 1 in
        let focus := if focus <? 0 then len (_layouts self) - 1 else focus in
        let self := set_focus self focus in
        let* self :=
          on_layout self (_focus self) (fun l => Layout_focus l false true) in
        Ok (self, None)
      else Ok (self, event)
  | _ => Ok (self, event)
  end.

Definition Frame_process_event (Screen : ScreenT) (self : Frame)
    (event : Event) : result (Frame * option Event) :=
  (* Give the current widget in focus first chance to process the event. *)
  let* layout := py_getitem (_layouts self) (_focus self) in
  let* (layout, event) := Layout_process_event Screen layout event in
  let* layouts := py_setitem (_layouts self) (_focus self) layout in
  let self := set_layouts self layouts in
  (* If the underlying widgets did not process the event, try processing
     it now. *)
  Frame_movement Screen self event.

(** A sequence of events delivered to the Frame, one after the other. *)
Fixpoint Frame_process_events (Screen : ScreenT) (self : Frame)
    (events : list Event) : result Frame :=
  match events with
  | [] => Ok self
  | e :: events =>
      let* (self, _) := Frame_process_event Screen self e in
      Frame_process_events Screen self events
  end.

(** What the application does with a Frame once it is fixed. *)
Inductive Call :=
| CallProcessEvent (event : Event)
| CallReset.

Definition Frame_call (Screen : ScreenT) (self : Frame) (c : Call)
    : result Frame :=
  match c with
  | CallProcessEvent event =>
      let* (self, _) := Frame_process_event Screen self event in Ok self
  | CallReset => Frame_reset self
  end.

Fixpoint Frame_calls (Screen : ScreenT) (self : Frame) (cs : list Call)
    : result Frame :=
  match cs with
  | [] => Ok self
  | c :: cs =>
      let* self := Frame_call Screen self c in
      Frame_calls Screen self cs
  end.

(** ** Example data *)

(** Roundings computed on exact fractions. *)
Definition exact_float : FloatT :=
  {| int_of_width := fun width '(x, total) => Z.quot (width * x) total;
     third_of_width := fun width '(x, total) => (width * x) / (total * 3) |}.

Definition s (text : string) : str := list_ascii_of_string text.

(** Build a Frame from its Layouts, each given by the column weights and the
    widgets with their column, using the constructors of the code. *)
Fixpoint add_widgets (layout : Layout) (widgets : list (Widget * Z))
    : result Layout :=
  match widgets with
  | [] => Ok layout
  | (widget, column) :: rest =>
      let* layout := add_widget layout widget column in
      add_widgets layout rest
  end.

Fixpoint add_layouts (frame : Frame)
    (layouts : list (list Z * list (Widget * Z))) : result Frame :=
  match layouts with
  | [] => Ok frame
  | (columns, widgets) :: rest =>
      let* layout := Layout_init columns in
      let* layout := add_widgets layout widgets in
      add_layouts (add_layout frame layout) rest
  end.

(** A Text in one Layout, a CheckBox and RadioButtons in a second one. *)
Definition two_layouts : result Frame :=
  add_layouts (Frame_init 24 80)
    [([1], [(Text_init (s "hello") None None, 0)]);
     ([1], [(CheckBox_init (s "check") None None, 0);
            (RadioButtons_init [(s "A", VInt 1); (s "B", VInt 2)] None None,
             0)])].

(** Three Text widgets in the single column of a single Layout. *)
Definition three_texts : result Frame :=
  add_layouts (Frame_init 24 80)
    [([1], [(Text_init (s "a") None None, 0);
            (Text_init (s "b") None None, 0);
            (Text_init (s "c") None None, 0)])].

(** A TextBox holding the line "hello" with the cursor after "he". *)
Definition hello_box : Widget :=
  set_variant (TextBox_init (s "hello") 3 None None)
    (TextBox (s "hello") (Some [s "hello"]) 0 2 0 0 3).

Definition no_frame : Frame := Frame_init 0 0.

(** The Frame of two Layouts, as constructed and after [fix]. *)
Definition two_layouts_frame : Frame := from_ok no_frame two_layouts.
Definition two_layouts_fixed : Frame :=
  from_ok no_frame (Frame_fix exact_float two_layouts_frame).

(** The Frame of three Text widgets, as constructed. *)
Definition three_texts_frame : Frame := from_ok no_frame three_texts.

(** ** Observations on a Frame *)

(** The [_has_focus] flag of every Widget, Layout by Layout, Column by
    Column. *)
Definition column_flags (column : list Widget) : list bool :=
  _has_focus <$> column.
Definition layout_flags (l : Layout) : list (list bool) :=
  column_flags <$> _columns l.
Definition focus_flags (self : Frame) : list (list (list bool)) :=
  layout_flags <$> _layouts self.

(** How many Widgets of the Frame have [_has_focus] set. *)
Definition count_true (flags : list bool) : nat :=
  length (filter (fun b => b = true) flags).
Definition count_focused (self : Frame) : nat :=
  count_true (concat (concat (focus_flags self))).

(** The position [(layout, column, widget)] the Frame routes events to. *)
Definition cursor (self : Frame) : result (Z * Z * Z) :=
  let* layout := py_getitem (_layouts self) (_focus self) in
  Ok (_focus self, _live_col layout, _live_widget layout).

(** The total number of tab-stop Widgets across all Layouts. *)
Definition count_tab_stops (self : Frame) : nat :=
  length (filter (fun w => is_tab_stop w = true)
            (concat (concat (_columns <$> _layouts self)))).

(** Every Layout holds at least one tab-stop Widget. *)
Definition has_tab_stop (l : Layout) : bool :=
  existsb (existsb is_tab_stop) (_columns l).
Definition all_have_tab_stop (self : Frame) : bool :=
  forallb has_tab_stop (_layouts self).

(** ** Predicates used in the statements *)

(** A keyboard event a widget of the class handles itself. *)
Definition handled_by (Screen : ScreenT) (v : Variant) (event : Event)
    : bool :=
  match event with
  | KeyboardEvent k => recognized Screen v k
  | OtherEvent _ => false
  end.

Definition handled (Screen : ScreenT) (self : Widget) (event : Event)
    : bool :=
  handled_by Screen (variant self) event.

(** The test [a <= b <= c] on the scroll window of a Text. *)
Definition cursor_visible (start_column column w : Z) : Prop :=
  0 <= start_column /\ start_column <= column <= start_column + w - 1.

(** The state of a RadioButtons after [reset]: the selection indexes an
    option and [_value] is that option, text and value together. *)
Definition RadioButtons_ok (options : list (str * PyValue))
    (value : option (str * PyValue)) (selection : Z) : Prop :=
  0 <= selection <= len options - 1
  /\ exists o, value = Some o /\ options !! Z.to_nat selection = Some o.

(** The state of a TextBox after [reset]: the cursor is on a line of the
    value and inside that line or just after its end. *)
Definition TextBox_ok (value : option (list str)) (line column : Z) : Prop :=
  exists ls cur,
    value = Some ls /\ 0 <= line /\ ls !! Z.to_nat line = Some cur
    /\ 0 <= column <= len cur.


(** ** The geometry [Layout.fix] assigns *)

Definition sumZ (l : list Z) : Z := foldr Z.add 0 l.

(** The [x] of column [j]: the widths of the columns before it. *)
Definition x_of_column (F : FloatT) (canvas : Canvas) (sizes : list (Z * Z))
    (j : nat) : Z :=
  sumZ (int_of_width F (width canvas) <$> take j sizes).

(** The [y] below the last widget of a column that starts at [start_y]. *)
Definition column_end (start_y : Z) (column : list Widget) : Z :=
  start_y + sumZ ((fun w => required_height w 0 0) <$> column).

(** [fix] only assigns geometry. *)
Definition placed (wd wd' : Widget) : Prop :=
  exists x y offset w h, wd' = set_layout wd x y offset w h.

Definition is_empty {A} (l : list A) : bool :=
  match l with [] => true | _ => false end.

Definition no_layout : Layout :=
  {| _column_sizes := []; _columns := []; Layout_has_focus := false;
     _live_col := 0; _live_widget := -1 |}.

(** A Layout with one empty column between two columns of widgets. *)
Definition empty_middle_column : Layout :=
  from_ok no_layout
    (let* layout := Layout_init [2; 6; 2] in
     add_widgets layout
       [(Text_init (s "left") (Some (s "name")) None, 0);
        (Text_init (s "right") None None, 2);
        (CheckBox_init (s "check") None None, 2)]).

(** ** Tab stops and the order of traversal *)

(** Which widgets are tab stops: all the focus search looks at. *)
Definition column_shape (column : list Widget) : list bool :=
  is_tab_stop <$> column.
Definition tab_shape (columns : list (list Widget)) : list (list bool) :=
  column_shape <$> columns.
Definition frame_shape (self : Frame) : list (list (list bool)) :=
  (fun l => tab_shape (_columns l)) <$> _layouts self.

(** Index [w] of a column, position [(c, w)] of a Layout and position
    [(i, c, w)] of a Frame hold a tab stop. *)
Definition stop_in (column : list bool) (w : Z) : Prop :=
  0 <= w /\ column !! Z.to_nat w = Some true.
Definition stop_at (shape : list (list bool)) (p : Z * Z) : Prop :=
  0 <= p.1 /\
  exists column, shape !! Z.to_nat p.1 = Some column /\ stop_in column p.2.
Definition frame_stop (shape : list (list (list bool))) (p : Z * Z * Z)
    : Prop :=
  0 <= p.1.1 /\
  exists sh, shape !! Z.to_nat p.1.1 = Some sh /\ stop_at sh (p.1.2, p.2).

(** Declared order: Layout by Layout, Column by Column, top to bottom. *)
Definition lex2 (p q : Z * Z) : Prop :=
  p.1 < q.1 \/ (p.1 = q.1 /\ p.2 < q.2).
Definition lex3 (p q : Z * Z * Z) : Prop :=
  p.1.1 < q.1.1 \/ (p.1.1 = q.1.1 /\ lex2 (p.1.2, p.2) (q.1.2, q.2)).

(** ** The focus state *)

(** Change the entry at position [(c, w)], and at [(i, c, w)]. *)
Definition alter2 {A} (g : A -> A) (p : Z * Z) (m : list (list A))
    : list (list A) :=
  alter (alter g (Z.to_nat p.2)) (Z.to_nat p.1) m.
Definition alter3 {A} (g : A -> A) (p : Z * Z * Z) (m : list (list (list A)))
    : list (list (list A)) :=
  alter (alter2 g (p.1.2, p.2)) (Z.to_nat p.1.1) m.

(** The flags of a Frame where the widget at [p] alone has the focus. *)
Definition clear_column (column : list bool) : list bool :=
  (fun _ => false) <$> column.
Definition clear_layout (shape : list (list bool)) : list (list bool) :=
  clear_column <$> shape.
Definition no_flags (shape : list (list (list bool)))
    : list (list (list bool)) :=
  clear_layout <$> shape.
Definition one_flag (shape : list (list (list bool))) (p : Z * Z * Z)
    : list (list (list bool)) :=
  alter3 (fun _ => true) p (no_flags shape).

(** The live position of a Layout is a tab stop. *)
Definition at_stop (l : Layout) : Prop :=
  stop_at (tab_shape (_columns l)) (_live_col l, _live_widget l).

(** The Frame routes events to the tab stop at [p], and the widget there is
    the one widget with [_has_focus] set. *)
Definition Focused (self : Frame) (p : Z * Z * Z) : Prop :=
  frame_stop (frame_shape self) p
  /\ cursor self = Ok p
  /\ focus_flags self = one_flag (frame_shape self) p.

(** [q] is the tab stop after [p] in the cyclic order of the Frame: the
    least tab stop after [p], or, when [p] is the last one, the first. *)
Definition next_stop (shape : list (list (list bool))) (p q : Z * Z * Z)
    : Prop :=
  frame_stop shape q
  /\ ((lex3 p q
       /\ forall r, frame_stop shape r -> lex3 p r -> ~ lex3 r q)
      \/ ((forall r, frame_stop shape r -> ~ lex3 p r)
          /\ forall r, frame_stop shape r -> ~ lex3 r q)).

(** Every Layout has a tab stop, on the shape of the Frame. *)
Definition shape_ok (shape : list (list (list bool))) : Prop :=
  forall j sh, shape !! j = Some sh -> exists r, stop_at sh r.

(** The event is one of the two keys that leave a Layout. *)
Definition traversal (Screen : ScreenT) (event : Event) : bool :=
  match event with
  | KeyboardEvent k => (k =? KEY_TAB Screen) || (k =? KEY_BACK_TAB Screen)
  | OtherEvent _ => false
  end.

(** ** A Frame as the constructors leave it *)

(** No widget has the focus yet. *)
Definition unfocused (self : Frame) : bool :=
  forallb (forallb (forallb negb)) (focus_flags self).

(** [_column_sizes] and [_columns] have one entry per column. *)
Definition sizes_match (l : Layout) : bool :=
  Nat.eqb (length (_column_sizes l)) (length (_columns l)).

(** The Frame has Layouts, points to the first one, and holds widgets that
    were never focused: the state [Frame.fix] is meant for. *)
Definition ready_to_fix (self : Frame) : bool :=
  (_focus self =? 0) && negb (is_empty (_layouts self))
  && forallb sizes_match (_layouts self) && unfocused self.

(** ** The tab stops in traversal order *)

(** The tab stops of a column from index [w] on, of a Layout from column [c]
    on and of a Frame from Layout [i] on, in declared order. *)
Fixpoint col_stops (w : Z) (column : list bool) : list Z :=
  match column with
  | [] => []
  | b :: column => (if b then [w] else []) ++ col_stops (w + 1) column
  end.

Fixpoint layout_stops (c : Z) (shape : list (list bool)) : list (Z * Z) :=
  match shape with
  | [] => []
  | column :: shape =>
      (pair c <$> col_stops 0 column) ++ layout_stops (c + 1) shape
  end.

Fixpoint shape_stops (i : Z) (shape : list (list (list bool)))
    : list (Z * Z * Z) :=
  match shape with
  | [] => []
  | sh :: shape =>
      ((fun q : Z * Z => (i, q.1, q.2)) <$> layout_stops 0 sh)
      ++ shape_stops (i + 1) shape
  end.

Definition tab_order (self : Frame) : list (Z * Z * Z) :=
  shape_stops 0 (frame_shape self).

(** [n] presses of TAB. *)
Definition tabs (Screen : ScreenT) (n : nat) : list Event :=
  replicate n (KeyboardEvent (KEY_TAB Screen)).

(** The class of the widget at a position of the Frame. *)
Inductive Kind :=
| KLabel | KDivider | KText | KCheckBox | KRadioButtons | KTextBox.

Definition kind_of (wd : Widget) : Kind :=
  match variant wd with
  | Label _ => KLabel
  | Divider _ _ => KDivider
  | Text _ _ _ _ => KText
  | CheckBox _ _ => KCheckBox
  | RadioButtons _ _ _ _ => KRadioButtons
  | TextBox _ _ _ _ _ _ _ => KTextBox
  end.

Definition kind_at (self : Frame) (p : Z * Z * Z) : result Kind :=
  let* layout := py_getitem (_layouts self) p.1.1 in
  let* wd := widget_at (_columns layout) p.1.2 p.2 in
  Ok (kind_of wd).

(** ** The widgets, one class at a time *)

(** The state of a Text after [reset]: the value is a string and the cursor
    is inside it or just after its end. *)
Definition Text_ok (value : option str) (column : Z) : Prop :=
  exists v, value = Some v /\ 0 <= column <= len v.

(** The state every class reaches with [reset] and keeps afterwards. *)
Definition Widget_ok (self : Widget) : Prop :=
  match variant self with
  | Label _ | Divider _ _ => True
  | Text _ value column _ => Text_ok value column
  | CheckBox _ value => exists b, value = Some b
  | RadioButtons options value selection _ =>
      RadioButtons_ok options value selection
  | TextBox _ value line column _ _ _ => TextBox_ok value line column
  end.

(** Keyboard events for a list of key codes, and the characters the key
    codes stand for. *)
Definition keys (ks : list Z) : list Event := KeyboardEvent <$> ks.
Definition chars (ks : list Z) : str := concat (chr <$> ks).

(** The keys a CheckBox toggles on: [ord(" ")], LF and CR. *)
Definition toggle_key (k : Z) : bool := bool_decide (k ∈ [32; 10; 13]).

(** ["\n".join(ls)]. *)
Fixpoint join_lines (ls : list str) : str :=
  match ls with
  | [] => []
  | l :: ls' =>
      match ls' with
      | [] => l
      | _ => l ++ newline :: join_lines ls'
      end
  end.

(** ** Construction *)

(** The widgets handed to [add_widget] were never focused, and each Layout
    is given at least one widget that is a tab stop. *)
Definition fresh (layouts : list (list Z * list (Widget * Z))) : bool :=
  forallb (fun spec : list Z * list (Widget * Z) =>
             forallb (fun wc : Widget * Z => negb (_has_focus wc.1)) spec.2)
    layouts.
Definition with_tab_stops (layouts : list (list Z * list (Widget * Z)))
    : bool :=
  forallb (fun spec : list Z * list (Widget * Z) =>
             existsb (fun wc : Widget * Z => is_tab_stop wc.1) spec.2)
    layouts.

(** The first Layout of the Frame holds a tab stop. *)
Definition first_has_tab_stop (self : Frame) : bool :=
  match _layouts self with
  | [] => false
  | l :: _ => has_tab_stop l
  end.

(** A Frame whose only Layout holds a Label and a Divider. *)
Definition labels_only_frame : Frame :=
  from_ok no_frame
    (add_layouts (Frame_init 24 80)
       [([1], [(Label_init (s "title"), 0); (Divider_init true 1, 0)])]).

(** ** Routing *)

(** The widget [Frame.process_event] hands an event to: the live widget of
    the Layout the Frame points to. *)
Definition focused_widget (self : Frame) : result Widget :=
  let* layout := py_getitem (_layouts self) (_focus self) in
  widget_at (_columns layout) (_live_col layout) (_live_widget layout).

(** How far a key moves the focus in the tab order, and how far a sequence
    of events does. *)
Definition tab_step (Screen : ScreenT) (event : Event) : Z :=
  match event with
  | KeyboardEvent k =>
      if k =? KEY_TAB Screen then 1
      else if k =? KEY_BACK_TAB Screen then -1
      else 0
  | OtherEvent _ => 0
  end.
Definition net_tabs (Screen : ScreenT) (events : list Event) : Z :=
  sumZ (tab_step Screen <$> events).

(** The event is one of the four keys a Layout moves the focus on. *)
Definition movement_key (Screen : ScreenT) (event : Event) : bool :=
  match event with
  | KeyboardEvent k =>
      bool_decide (k ∈ [KEY_TAB Screen; KEY_BACK_TAB Screen;
                        KEY_DOWN Screen; KEY_UP Screen])
  | OtherEvent _ => false
  end.

(** In a column of tab-stop flags, [w'] is the tab stop next below [w], or
    [w] itself when no tab stop is below it; and the same upwards. *)
Definition next_below (column : list bool) (w w' : Z) : Prop :=
  stop_in column w'
  /\ ((w < w' /\ forall k, w < k < w' -> ~ stop_in column k)
      \/ (w' = w /\ forall k, w < k -> ~ stop_in column k)).
Definition next_above (column : list bool) (w w' : Z) : Prop :=
  stop_in column w'
  /\ ((w' < w /\ forall k, w' < k < w -> ~ stop_in column k)
      \/ (w' = w /\ forall k, k < w -> ~ stop_in column k)).

(** The first Layout of the Frame of three Text widgets after [fix]: the
    live widget is the first Text. *)
Definition three_texts_layout : Layout :=
  from_ok no_layout
    (let* f := Frame_fix exact_float three_texts_frame in
     py_getitem (_layouts f) 0).

(** ** Reset *)


(** ** Redrawing *)

(** [Layout.update]: every widget is redrawn, column by column. *)
Definition Layout_update (self : Layout) (frame_no : Z) : result Layout :=
  let* columns :=
    for_each (for_each (fun widget => update widget frame_no))
      (_columns self) in
  Ok (set_columns self columns).

(** [Frame._update]: every Layout is redrawn; pushing the canvas to the
    screen and clearing it afterwards is the canvas' state. *)
Definition Frame_update (self : Frame) (frame_no : Z) : result Frame :=
  let* layouts :=
    for_each (fun layout => Layout_update layout frame_no)
      (_layouts self) in
  Ok (set_layouts self layouts).

(** Every widget of the Layout, and of the Frame, is in the state [reset]
    leaves it in. *)
Definition Layout_ok (self : Layout) : Prop :=
  Forall (Forall Widget_ok) (_columns self).
Definition Frame_ok (self : Frame) : Prop :=
  Forall Layout_ok (_layouts self).

(** The [value] of every Widget, Layout by Layout, Column by Column. *)
Definition column_values (column : list Widget) : list PyValue :=
  value <$> column.
Definition layout_values (l : Layout) : list (list PyValue) :=
  column_values <$> _columns l.
Definition values (self : Frame) : list (list (list PyValue)) :=
  layout_values <$> _layouts self.

(** The live position of every Layout. *)
Definition live (l : Layout) : Z * Z := (_live_col l, _live_widget l).
Definition live_positions (self : Frame) : list (Z * Z) :=
  live <$> _layouts self.

(** ** Typing a text *)

(** The key that types a character: LF for a line break, the character
    code otherwise; and the characters that can be typed. *)
Definition key_of (c : ascii) : Z :=
  if Ascii.eqb c newline then 10 else Z.of_N (N_of_ascii c).
Definition typeable (c : ascii) : bool :=
  Ascii.eqb c newline || printable (Z.of_N (N_of_ascii c)).

(** A character added at the end of the last line. *)
Fixpoint append_char (ls : list str) (c : ascii) : list str :=
  match ls with
  | [] => []
  | l :: ls' =>
      match ls' with
      | [] => [l ++ [c]]
      | _ => l :: append_char ls' c
      end
  end.

(** ** The Layouts of a Frame, one below the other *)

(** The line below the last widget of a Layout that starts at [start_y],
    and the line each Layout of a list starts at. *)
Definition layout_end (start_y : Z) (l : Layout) : Z :=
  fold_left Z.max (column_end start_y <$> _columns l) start_y.
Fixpoint layout_starts (y : Z) (layouts : list Layout) : list Z :=
  match layouts with
  | [] => []
  | l :: layouts => y :: layout_starts (layout_end y l) layouts
  end.
(** * Properties *)

(** ** Python helpers *)

Lemma len_nonneg {A} (l : list A) : 0 <= len l.
Proof. unfold len. lia. Qed.

Lemma len_app {A} (l k : list A) : len (l ++ k) = len l + len k.
Proof. unfold len. rewrite length_app. lia. Qed.

Lemma lookup_len {A} (l : list A) (i : Z) (x : A) :
  0 <= i -> l !! Z.to_nat i = Some x -> i < len l.
Proof. intros Hi Hl. apply lookup_lt_Some in Hl. unfold len. lia. Qed.

Lemma py_index_ok {A} (l : list A) (i : Z) :
  0 <= i < len l -> py_index l i = Ok (Z.to_nat i).
Proof.
  intros Hi. unfold py_index.
  destruct (Z.leb_spec 0 i), (Z.ltb_spec i (len l)); simpl; try lia.
  reflexivity.
Qed.

Lemma py_getitem_ok {A} (l : list A) (i : Z) (x : A) :
  0 <= i -> l !! Z.to_nat i = Some x -> py_getitem l i = Ok x.
Proof.
  intros Hi Hl. unfold py_getitem.
  rewrite py_index_ok by eauto using lookup_len. simpl. now rewrite Hl.
Qed.

Lemma py_getitem_in_range {A} (l : list A) (i : Z) :
  0 <= i < len l ->
  exists x, l !! Z.to_nat i = Some x /\ py_getitem l i = Ok x.
Proof.
  intros Hi. destruct (lookup_lt_is_Some_2 l (Z.to_nat i)) as [x Hx].
  { unfold len in Hi. lia. }
  exists x. split; [assumption|]. apply py_getitem_ok; [lia|assumption].
Qed.

Lemma py_setitem_ok {A} (l : list A) (i : Z) (x : A) :
  0 <= i < len l -> py_setitem l i x = Ok (<[Z.to_nat i:=x]> l).
Proof. intros Hi. unfold py_setitem. now rewrite py_index_ok. Qed.

Lemma py_pop_ok {A} (l : list A) (i : Z) (x : A) :
  0 <= i -> l !! Z.to_nat i = Some x ->
  py_pop l i = Ok (x, delete (Z.to_nat i) l).
Proof.
  intros Hi Hl. unfold py_pop.
  rewrite py_index_ok by eauto using lookup_len. simpl. now rewrite Hl.
Qed.

Lemma slice_bound_ok {A} (l : list A) (i : Z) :
  0 <= i <= len l -> slice_bound l i = Z.to_nat i.
Proof.
  intros Hi. unfold slice_bound.
  destruct (Z.ltb_spec i 0); [lia|]. f_equal. lia.
Qed.

Lemma len_slice_to {A} (l : list A) (i : Z) :
  0 <= i <= len l -> len (py_slice_to l i) = i.
Proof.
  intros Hi. unfold py_slice_to. rewrite slice_bound_ok by assumption.
  unfold len in *. rewrite length_take. lia.
Qed.

Lemma slice_to_from {A} (l : list A) (i : Z) :
  py_slice_to l i ++ py_slice_from l i = l.
Proof. unfold py_slice_to, py_slice_from. apply take_drop. Qed.

Lemma split_lines_nonempty (text : str) : split_lines text <> [].
Proof.
  destruct text as [|c text]; simpl; [discriminate|].
  destruct (Ascii.eqb c newline); [discriminate|].
  destruct (split_lines text); discriminate.
Qed.

(** ** The base class *)

Lemma set_variant_twice (self : Widget) (v v' : Variant) :
  set_variant (set_variant self v) v' = set_variant self v'.
Proof. reflexivity. Qed.

Lemma set_variant_same (self : Widget) :
  set_variant self (variant self) = self.
Proof. now destruct self. Qed.

Ltac key_cases :=
  repeat match goal with
    | |- context [?a =? ?b] => destruct (Z.eqb_spec a b); simpl
    end.

Ltac not_handled H :=
  unfold handled_by, recognized in H;
  repeat match type of H with
    | (_ || _) = false => apply orb_false_iff in H; destruct H as [H ?]
    end;
  try (apply bool_decide_eq_false in H; rewrite !not_elem_of_cons in H).

(** ** Widgets hand back what they do not handle *)

Lemma Text_not_handled (Screen : ScreenT) (self : Widget) (text : str)
    (value : option str) (column start_column : Z) (event : Event) :
  handled_by Screen (Text text value column start_column) event = false ->
  Text_process_event Screen self text value column start_column event
  = Ok (self, Some event).
Proof.
  intros H. destruct event as [k|tag]; [|reflexivity].
  not_handled H. unfold Text_process_event. unfold printable in *.
  key_cases; try tauto. now rewrite H0.
Qed.

Lemma CheckBox_not_handled (Screen : ScreenT) (self : Widget) (text : str)
    (value : option bool) (event : Event) :
  handled_by Screen (CheckBox text value) event = false ->
  CheckBox_process_event self text value event = Ok (self, Some event).
Proof.
  intros H. destruct event as [k|tag]; [|reflexivity].
  not_handled H. unfold CheckBox_process_event.
  key_cases; tauto || reflexivity.
Qed.

Lemma RadioButtons_not_handled (Screen : ScreenT) (self : Widget)
    (options : list (str * PyValue)) (value : option (str * PyValue))
    (selection start_column : Z) (event : Event) :
  handled_by Screen (RadioButtons options value selection start_column)
    event = false ->
  RadioButtons_process_event Screen self options value selection
    start_column event = Ok (self, Some event).
Proof.
  intros H. destruct event as [k|tag]; [|reflexivity].
  not_handled H. unfold RadioButtons_process_event.
  key_cases; tauto || reflexivity.
Qed.

Lemma TextBox_not_handled (Screen : ScreenT) (self : Widget) (text : str)
    (value : option (list str))
    (line column start_line start_column required_height : Z)
    (event : Event) :
  handled_by Screen
    (TextBox text value line column start_line start_column required_height)
    event = false ->
  TextBox_process_event Screen self text value line column start_line
    start_column required_height event = Ok (self, Some event).
Proof.
  intros H. destruct event as [k|tag]; [|reflexivity].
  not_handled H. unfold TextBox_process_event. unfold printable in *.
  key_cases; try tauto. now rewrite H0.
Qed.

(** C7: for each of the six Widget variants, an event that is not a keyboard
    event, or whose key code the variant does not handle, is returned as it
    is and the widget (value, cursor, scroll offsets, selection and every
    other attribute) is left as it was. *)
Theorem process_event_not_handled (Screen : ScreenT) (self : Widget)
    (event : Event) :
  handled Screen self event = false ->
  process_event Screen self event = Ok (self, Some event).
Proof.
  unfold handled, process_event. intros H.
  destruct (variant self).
  - reflexivity.
  - reflexivity.
  - now apply Text_not_handled.
  - now apply (CheckBox_not_handled Screen).
  - now apply RadioButtons_not_handled.
  - now apply TextBox_not_handled.
Qed.

Lemma process_event_not_handled_witness :
  handled curses_keys (Text_init (s "hello") None None)
    (KeyboardEvent (KEY_TAB curses_keys)) = false
  /\ process_event curses_keys (Text_init (s "hello") None None)
       (KeyboardEvent (KEY_TAB curses_keys))
     = Ok (Text_init (s "hello") None None,
           Some (KeyboardEvent (KEY_TAB curses_keys))).
Proof.
  split; [reflexivity|].
  apply (process_event_not_handled curses_keys). reflexivity.
Defined.

(** ** Text *)

(** C10: a Text whose cursor column is 0 keeps its value and its column on
    Backspace, and still consumes the event: [process_event] returns None. *)
Theorem Text_backspace_at_column_0 (Screen : ScreenT) (base : Widget)
    (text : str) (value : option str) (start_column : Z) :
  let self := set_variant base (Text text value 0 start_column) in
  process_event Screen self (KeyboardEvent (KEY_BACK Screen))
  = Ok (self, None).
Proof.
  intros self. unfold process_event, self. simpl.
  unfold Text_process_event. now rewrite Z.eqb_refl.
Qed.

(** The scroll offset [update] stores is never negative. *)
Lemma Text_update_start_column (self : Widget) (text : str)
    (value : option str) (column start_column frame_no : Z) (self' : Widget) :
  Text_update self text value column start_column frame_no = Ok self' ->
  exists start, variant self' = Text text value column start /\ 0 <= start.
Proof.
  unfold Text_update. intros H.
  destruct value as [v|]; simpl in H; [|discriminate].
  destruct (_ : result str) in H; simpl in H; [|discriminate].
  injection H as <-. eexists. split; [reflexivity|]. lia.
Qed.

(** C6: for a Text of visible width [w = _w - _offset >= 1] whose cursor
    column lies in [0, len value], [update] stores
    [max(0, max(column - w + 1, min(start_column, column)))] as the new
    start column; afterwards the cursor is inside the visible slice, and a
    cursor that was already visible leaves the start column as it was. *)
Theorem Text_update_scroll (base : Widget) (text v : str)
    (column start_column frame_no : Z) :
  let self := set_variant base (Text text (Some v) column start_column) in
  let w := _w self - _offset self in
  let start :=
    Z.max 0 (Z.max (column - w + 1) (Z.min start_column column)) in
  1 <= w ->
  0 <= column <= len v ->
  update self frame_no
  = Ok (set_variant base (Text text (Some v) column start))
  /\ start <= column <= start + w - 1
  /\ (cursor_visible start_column column w -> start = start_column).
Proof.
  intros self w start Hw Hc. split; [|split].
  - unfold update, self. simpl. unfold Text_update. simpl.
    destruct (_has_focus base); [|reflexivity].
    destruct (Z.ltb_spec column (len v)); [|reflexivity].
    destruct (py_getitem_in_range v column) as (c & _ & ->); [lia|].
    reflexivity.
  - subst start. lia.
  - unfold cursor_visible. subst start. lia.
Qed.

Lemma Text_update_scroll_witness :
  let self :=
    set_layout (set_variant (Text_init (s "hello") None None)
                  (Text (s "hello") (Some (s "hello")) 5 0)) 0 0 0 3 1 in
  update self 0
  = Ok (set_variant self (Text (s "hello") (Some (s "hello")) 5 3))
  /\ 3 <= 5 <= 3 + 3 - 1
  /\ (cursor_visible 0 5 3 -> 3 = 0).
Proof.
  apply (Text_update_scroll
           (set_layout (Text_init (s "hello") None None) 0 0 0 3 1)
           (s "hello") (s "hello") 5 0 0).
  - simpl. lia.
  - simpl. vm_compute. split; discriminate.
Defined.

(** ** RadioButtons *)

(** A tuple is never one of its own components. *)
Lemma VTuple_not_second (b a : PyValue) : VTuple a b <> b.
Proof.
  revert a. induction b; intros a' H; try discriminate.
  injection H as _ H. now apply (IHb2 b1).
Qed.

Lemma RadioButtons_reset_ok (base : Widget) (options : list (str * PyValue))
    (value : option (str * PyValue)) (selection start_column : Z) :
  options <> [] ->
  exists value',
    reset (set_variant base
             (RadioButtons options value selection start_column))
    = Ok (set_variant base (RadioButtons options value' 0 start_column))
    /\ RadioButtons_ok options value' 0.
Proof.
  intros Hne. destruct options as [|o options]; [congruence|].
  exists (Some o). split; [reflexivity|].
  split; [unfold len; simpl; lia|]. now exists o.
Qed.

Lemma RadioButtons_step_ok (Screen : ScreenT) (base : Widget)
    (options : list (str * PyValue)) (value : option (str * PyValue))
    (selection start_column : Z) (event : Event) :
  RadioButtons_ok options value selection ->
  exists value' selection' back,
    process_event Screen
      (set_variant base (RadioButtons options value selection start_column))
      event
    = Ok (set_variant base
            (RadioButtons options value' selection' start_column), back)
    /\ RadioButtons_ok options value' selection'.
Proof.
  intros Hok. pose proof Hok as (Hs & o & -> & Ho).
  unfold process_event. simpl. unfold RadioButtons_process_event.
  destruct event as [k|tag]; [|eauto 6].
  destruct (Z.eqb_spec k (KEY_UP Screen)).
  - destruct (py_getitem_in_range options (Z.max (selection - 1) 0))
      as (o' & Ho' & ->); [lia|].
    simpl. do 3 eexists. split; [reflexivity|].
    split; [lia|eauto].
  - destruct (Z.eqb_spec k (KEY_DOWN Screen)); [|eauto 6].
    destruct (py_getitem_in_range options
                (Z.min (selection + 1) (len options - 1)))
      as (o' & Ho' & ->); [lia|].
    simpl. do 3 eexists. split; [reflexivity|].
    split; [lia|eauto].
Qed.

Lemma RadioButtons_steps_ok (Screen : ScreenT) (base : Widget)
    (options : list (str * PyValue)) (start_column : Z)
    (events : list Event) :
  forall value selection,
  RadioButtons_ok options value selection ->
  exists value' selection',
    process_events Screen
      (set_variant base (RadioButtons options value selection start_column))
      events
    = Ok (set_variant base
            (RadioButtons options value' selection' start_column))
    /\ RadioButtons_ok options value' selection'.
Proof.
  induction events as [|e events IH]; intros value selection Hok.
  - simpl. eauto.
  - destruct (RadioButtons_step_ok Screen base options value selection
                start_column e Hok) as (v1 & s1 & back & Hstep & Hok1).
    simpl. rewrite Hstep. simpl. now apply IH.
Qed.

(** C1: after [reset] and any sequence of events (Up and Down among them),
    the selection of a RadioButtons with a non-empty option list lies in
    [0, number of options - 1]; the [value] accessor however returns the
    whole option at the selection index, the pair of the display text and
    the underlying value, which is never the underlying value itself. *)
Theorem RadioButtons_value_is_whole_option (Screen : ScreenT)
    (base : Widget) (options : list (str * PyValue))
    (value0 : option (str * PyValue)) (selection0 start_column : Z)
    (events : list Event) :
  options <> [] ->
  exists self' selection text v,
    (let* self :=
       reset (set_variant base
                (RadioButtons options value0 selection0 start_column)) in
     process_events Screen self events) = Ok self'
    /\ variant self'
       = RadioButtons options (Some (text, v)) selection start_column
    /\ 0 <= selection <= len options - 1
    /\ options !! Z.to_nat selection = Some (text, v)
    /\ value self' = VTuple (VStr text) v
    /\ value self' <> v.
Proof.
  intros Hne.
  destruct (RadioButtons_reset_ok base options value0 selection0
              start_column Hne) as (v1 & -> & Hok1).
  destruct (RadioButtons_steps_ok Screen base options start_column events
              v1 0 Hok1) as (v2 & s2 & Hrun & Hs & [text v] & -> & Ho).
  simpl. rewrite Hrun.
  eexists _, s2, text, v. split; [reflexivity|].
  repeat split; try assumption; try lia.
  unfold value. simpl. apply VTuple_not_second.
Qed.

Lemma RadioButtons_value_is_whole_option_witness :
  exists self' selection text v,
    (let* self :=
       reset (RadioButtons_init [(s "A", VInt 1); (s "B", VInt 2)]
                None None) in
     process_events curses_keys self
       [KeyboardEvent (KEY_DOWN curses_keys)]) = Ok self'
    /\ variant self'
       = RadioButtons [(s "A", VInt 1); (s "B", VInt 2)] (Some (text, v))
           selection 0
    /\ 0 <= selection <= len [(s "A", VInt 1); (s "B", VInt 2)] - 1
    /\ [(s "A", VInt 1); (s "B", VInt 2)] !! Z.to_nat selection
       = Some (text, v)
    /\ value self' = VTuple (VStr text) v
    /\ value self' <> v.
Proof.
  apply (RadioButtons_value_is_whole_option curses_keys
           (RadioButtons_init [(s "A", VInt 1); (s "B", VInt 2)] None None)
           [(s "A", VInt 1); (s "B", VInt 2)] None 0 0
           [KeyboardEvent (KEY_DOWN curses_keys)]).
  discriminate.
Defined.

(** ** TextBox *)

Lemma py_insert_ok {A} (l : list A) (i : Z) (x : A) :
  0 <= i <= len l ->
  py_insert l i x = take (Z.to_nat i) l ++ x :: drop (Z.to_nat i) l.
Proof. intros Hi. unfold py_insert. now rewrite slice_bound_ok. Qed.

Lemma py_insert_lookup_lt {A} (l : list A) (i : Z) (x : A) (j : nat) :
  0 <= i <= len l -> (j < Z.to_nat i)%nat ->
  py_insert l i x !! j = l !! j.
Proof.
  intros Hi Hj. rewrite py_insert_ok by assumption.
  rewrite lookup_app_l by (rewrite length_take; unfold len in Hi; lia).
  now apply lookup_take_lt.
Qed.

Lemma py_insert_lookup_eq {A} (l : list A) (i : Z) (x : A) :
  0 <= i <= len l -> py_insert l i x !! Z.to_nat i = Some x.
Proof.
  intros Hi. rewrite py_insert_ok by assumption.
  rewrite lookup_app_r by (rewrite length_take; lia).
  rewrite length_take. unfold len in Hi.
  replace (Z.to_nat i - Z.to_nat i `min` length l)%nat with 0%nat by lia.
  reflexivity.
Qed.

Lemma len_py_insert {A} (l : list A) (i : Z) (x : A) :
  len (py_insert l i x) = len l + 1.
Proof.
  unfold py_insert. rewrite len_app. unfold len. simpl.
  rewrite length_take, length_drop. lia.
Qed.

Lemma len_insert {A} (l : list A) (i : nat) (x : A) :
  len (<[i:=x]> l) = len l.
Proof. unfold len. now rewrite length_insert. Qed.

Ltac getitem l i :=
  let x := fresh "x" in
  let Hx := fresh "Hx" in
  let E := fresh "E" in
  destruct (py_getitem_in_range l i) as (x & Hx & E);
  [try lia | rewrite E; clear E; cbn [bind]].

Ltac setitem l i :=
  rewrite (py_setitem_ok l i)
    by (try rewrite len_py_insert; try rewrite len_insert; lia);
  cbn [bind].

Lemma TextBox_step_ok (Screen : ScreenT) (base : Widget) (text : str)
    (value : option (list str))
    (line column start_line start_column required_height : Z)
    (event : Event) :
  TextBox_ok value line column ->
  exists value' line' column' back,
    process_event Screen
      (set_variant base
         (TextBox text value line column start_line start_column
            required_height)) event
    = Ok (set_variant base
            (TextBox text value' line' column' start_line start_column
               required_height), back)
    /\ TextBox_ok value' line' column'.
Proof.
  intros Hok. pose proof Hok as (ls & cur & -> & Hl & Hcur & Hc).
  pose proof (lookup_len _ _ _ Hl Hcur) as Hlen.
  unfold process_event. cbn [variant set_variant].
  unfold TextBox_process_event.
  destruct event as [k|tag]; [|eauto 8].
  destruct ((k =? 10) || (k =? 13)).
  { (* Enter *)
    cbn [expect bind].
    rewrite (py_getitem_ok ls line cur) by assumption. cbn [bind].
    rewrite (py_getitem_ok _ line cur); [cbn [bind]| lia |].
    2:{ rewrite py_insert_lookup_lt by lia. assumption. }
    setitem (py_insert ls (line + 1) (py_slice_from cur column)) line.
    do 4 eexists. split; [reflexivity|].
    do 2 eexists. split; [reflexivity|]. split; [lia|]. split.
    - rewrite list_lookup_insert_ne by lia.
      apply py_insert_lookup_eq. lia.
    - pose proof (len_nonneg (py_slice_from cur column)). lia. }
  destruct (Z.eqb_spec k (KEY_BACK Screen)).
  { destruct (Z.gtb_spec column 0).
    - (* Delete character in front of cursor. *)
      cbn [expect bind].
      rewrite (py_getitem_ok ls line cur) by assumption. cbn [bind].
      setitem ls line.
      do 4 eexists. split; [reflexivity|].
      do 2 eexists. split; [reflexivity|]. split; [lia|]. split.
      + apply list_lookup_insert_eq. unfold len in Hlen. lia.
      + rewrite len_app, len_slice_to by lia.
        pose proof (len_nonneg (py_slice_from cur column)). lia.
    - destruct (Z.gtb_spec line 0); [|eauto 8].
      (* Join this line with previous *)
      cbn [expect bind].
      getitem ls (line - 1).
      replace (line - 1 + 1) with line by lia.
      rewrite (py_pop_ok ls line cur) by assumption. cbn [bind].
      rewrite (py_setitem_ok (delete (Z.to_nat line) ls) (line - 1)).
      2:{ unfold len in *. rewrite length_delete by eauto. lia. }
      cbn [bind].
      do 4 eexists. split; [reflexivity|].
      do 2 eexists. split; [reflexivity|]. split; [lia|]. split.
      + apply list_lookup_insert_eq.
        rewrite length_delete by eauto. unfold len in Hlen. lia.
      + rewrite len_app. pose proof (len_nonneg x).
        pose proof (len_nonneg cur). lia. }
  assert (Hmove : forall l' c' x (back : option Event),
            0 <= l' -> ls !! Z.to_nat l' = Some x -> 0 <= c' <= len x ->
            exists value' line' column' back',
              Ok (set_variant
                    (set_variant base
                       (TextBox text (Some ls) line column start_line
                          start_column required_height))
                    (TextBox text (Some ls) l' c' start_line start_column
                       required_height), back)
              = Ok (set_variant base
                      (TextBox text value' line' column' start_line
                         start_column required_height), back')
              /\ TextBox_ok value' line' column').
  { intros l' c' x back Hl' Hx Hc'. do 4 eexists. split; [reflexivity|].
    now exists ls, x. }
  destruct (Z.eqb_spec k (KEY_UP Screen)).
  { cbn [expect bind]. getitem ls (Z.max 0 (line - 1)).
    apply (Hmove _ _ x); [lia|assumption|].
    pose proof (len_nonneg x). destruct (Z.geb_spec column (len x)); lia. }
  destruct (Z.eqb_spec k (KEY_DOWN Screen)).
  { cbn [expect bind]. getitem ls (Z.min (len ls - 1) (line + 1)).
    apply (Hmove _ _ x); [lia|assumption|].
    pose proof (len_nonneg x). destruct (Z.geb_spec column (len x)); lia. }
  destruct (Z.eqb_spec k (KEY_LEFT Screen)).
  { destruct (Z.ltb_spec (column - 1) 0).
    - destruct (Z.gtb_spec line 0).
      + cbn [expect bind]. getitem ls (line - 1).
        apply (Hmove _ _ x); [lia|assumption|].
        pose proof (len_nonneg x). lia.
      + apply (Hmove _ _ cur); [lia|assumption|lia].
    - apply (Hmove _ _ cur); [lia|assumption|lia]. }
  destruct (Z.eqb_spec k (KEY_RIGHT Screen)).
  { cbn [expect bind].
    rewrite (py_getitem_ok ls line cur) by assumption. cbn [bind].
    destruct (Z.gtb_spec (column + 1) (len cur)).
    - destruct (Z.ltb_spec line (len ls - 1)).
      + destruct (py_getitem_in_range ls (line + 1)) as (x & Hx & _);
          [lia|].
        apply (Hmove _ _ x); [lia|assumption|].
        pose proof (len_nonneg x). lia.
      + apply (Hmove _ _ cur); [lia|assumption|lia].
    - apply (Hmove _ _ cur); [lia|assumption|lia]. }
  destruct (Z.eqb_spec k (KEY_HOME Screen)).
  { apply (Hmove _ _ cur); [lia|assumption|lia]. }
  destruct (Z.eqb_spec k (KEY_END Screen)).
  { cbn [expect bind].
    rewrite (py_getitem_ok ls line cur) by assumption. cbn [bind].
    apply (Hmove _ _ cur); [lia|assumption|lia]. }
  destruct ((32 <=? k) && (k <? 256)); [|eauto 8].
  (* Insert any visible text at the current cursor position. *)
  cbn [expect bind].
  rewrite (py_getitem_ok ls line cur) by assumption. cbn [bind].
  setitem ls line.
  do 4 eexists. split; [reflexivity|].
  do 2 eexists. split; [reflexivity|]. split; [lia|]. split.
  - apply list_lookup_insert_eq. unfold len in Hlen. lia.
  - rewrite !len_app, len_slice_to by lia. unfold chr.
    pose proof (len_nonneg (py_slice_from cur column)).
    unfold len at 1. simpl. lia.
Qed.

Lemma TextBox_reset_ok (base : Widget) (text : str)
    (value : option (list str))
    (line column start_line start_column required_height : Z) :
  exists value' line' column',
    reset (set_variant base
             (TextBox text value line column start_line start_column
                required_height))
    = Ok (set_variant base
            (TextBox text value' line' column' start_line start_column
               required_height))
    /\ TextBox_ok value' line' column'.
Proof.
  unfold reset. cbn [variant set_variant]. unfold TextBox_reset.
  pose proof (split_lines_nonempty text) as Hne.
  assert (0 < len (split_lines text)).
  { unfold len. destruct (split_lines text); [congruence|simpl; lia]. }
  getitem (split_lines text) (len (split_lines text) - 1).
  do 3 eexists. split; [reflexivity|].
  do 2 eexists. split; [reflexivity|].
  split; [lia|]. split; [eassumption|]. pose proof (len_nonneg x). lia.
Qed.

Lemma TextBox_steps_ok (Screen : ScreenT) (base : Widget) (text : str)
    (start_line start_column required_height : Z) (events : list Event) :
  forall value line column,
  TextBox_ok value line column ->
  exists value' line' column',
    process_events Screen
      (set_variant base
         (TextBox text value line column start_line start_column
            required_height)) events
    = Ok (set_variant base
            (TextBox text value' line' column' start_line start_column
               required_height))
    /\ TextBox_ok value' line' column'.
Proof.
  induction events as [|e events IH]; intros value line column Hok.
  - simpl. eauto.
  - destruct (TextBox_step_ok Screen base text value line column start_line
                start_column required_height e Hok)
      as (v1 & l1 & c1 & back & Hstep & Hok1).
    cbn [process_events]. rewrite Hstep. cbn [bind]. now apply IH.
Qed.

(** C9: after [reset] and any sequence of events fed to [process_event], the
    value of a TextBox is a non-empty list of lines, [0 <= line < number of
    lines], and [0 <= column <= length of the line at the cursor]; no event
    of the sequence raises. *)
Theorem TextBox_cursor_in_text (Screen : ScreenT) (base : Widget)
    (text : str) (value0 : option (list str))
    (line0 column0 start_line start_column required_height : Z)
    (events : list Event) :
  exists self' ls line column cur,
    (let* self :=
       reset (set_variant base
                (TextBox text value0 line0 column0 start_line start_column
                   required_height)) in
     process_events Screen self events) = Ok self'
    /\ variant self'
       = TextBox text (Some ls) line column start_line start_column
           required_height
    /\ ls <> []
    /\ 0 <= line < len ls
    /\ ls !! Z.to_nat line = Some cur
    /\ 0 <= column <= len cur.
Proof.
  destruct (TextBox_reset_ok base text value0 line0 column0 start_line
              start_column required_height) as (v1 & l1 & c1 & -> & Hok1).
  destruct (TextBox_steps_ok Screen base text start_line start_column
              required_height events v1 l1 c1 Hok1)
    as (v2 & l2 & c2 & Hrun & ls & cur & -> & Hl & Hcur & Hc).
  cbn [bind]. rewrite Hrun.
  exists (set_variant base
            (TextBox text (Some ls) l2 c2 start_line start_column
               required_height)), ls, l2, c2, cur.
  split; [reflexivity|]. split; [reflexivity|].
  pose proof (lookup_len _ _ _ Hl Hcur).
  repeat split; try assumption; try lia.
  intros ->. discriminate.
Qed.

(** What [Screen_ok] says, key by key. *)
Ltac screen_facts H :=
  unfold Screen_ok, control_keys in H; cbn [distinct forallb] in H;
  repeat match goal with
    | H : _ && _ = true |- _ => apply andb_prop in H; destruct H
    | H : negb (_ =? _) = true |- _ =>
        apply negb_true_iff, Z.eqb_neq in H
    | H : negb (printable _) = true |- _ => apply negb_true_iff in H
    | H : true = true |- _ => clear H
    end.

Lemma Screen_ok_BACK_HOME (Screen : ScreenT) :
  Screen_ok Screen = true ->
  (KEY_BACK Screen <> 10 /\ KEY_BACK Screen <> 13)
  /\ (KEY_HOME Screen <> 10 /\ KEY_HOME Screen <> 13
      /\ KEY_HOME Screen <> KEY_BACK Screen
      /\ KEY_HOME Screen <> KEY_UP Screen
      /\ KEY_HOME Screen <> KEY_DOWN Screen
      /\ KEY_HOME Screen <> KEY_LEFT Screen
      /\ KEY_HOME Screen <> KEY_RIGHT Screen).
Proof.
  intros HS. screen_facts HS. repeat split; congruence.
Qed.

Lemma split_then_join {A} (ls : list A) (n : nat) (cur a b : A) :
  ls !! n = Some cur ->
  <[n:=cur]> (delete (S n) (<[n:=a]> (take (S n) ls ++ b :: drop (S n) ls)))
  = ls.
Proof.
  revert n. induction ls as [|x ls IH]; intros [|n] H; try discriminate.
  - injection H as ->. simpl. now rewrite drop_0.
  - simpl in H. simpl. f_equal. now apply IH.
Qed.

(** C5: Enter (CR or LF) followed by Backspace gives back the TextBox as it
    was: the list of lines, the cursor line and the cursor column, for every
    cursor [(line, column)] with [0 <= column <= length of the line]; and a
    TextBox initialised with "one", newline, "two", its cursor brought to the
    start of "two", holds the single line "onetwo" with the cursor at line
    0, column 3 after one Backspace. *)
Theorem TextBox_enter_then_backspace (Screen : ScreenT) (base : Widget)
    (text : str) (ls : list str) (cur : str)
    (line column start_line start_column required_height k height : Z) :
  Screen_ok Screen = true ->
  k = 10 \/ k = 13 ->
  0 <= line -> ls !! Z.to_nat line = Some cur -> 0 <= column <= len cur ->
  let self :=
    set_variant base
      (TextBox text (Some ls) line column start_line start_column
         required_height) in
  let one_two := s "one" ++ [newline] ++ s "two" in
  (exists self1,
     process_event Screen self (KeyboardEvent k) = Ok (self1, None)
     /\ process_event Screen self1 (KeyboardEvent (KEY_BACK Screen))
        = Ok (self, None))
  /\ (exists box1 box2 box3,
        reset (TextBox_init one_two height None None) = Ok box1
        /\ process_event Screen box1 (KeyboardEvent (KEY_HOME Screen))
           = Ok (box2, None)
        /\ variant box2
           = TextBox one_two (Some [s "one"; s "two"]) 1 0 0 0 height
        /\ process_event Screen box2 (KeyboardEvent (KEY_BACK Screen))
           = Ok (box3, None)
        /\ variant box3 = TextBox one_two (Some [s "onetwo"]) 0 3 0 0 height).
Proof.
  intros HS Hk Hl Hcur Hc self one_two.
  apply Screen_ok_BACK_HOME in HS. destruct HS as [[Hb1 Hb2] HS].
  pose proof (lookup_len _ _ _ Hl Hcur) as Hlen.
  split.
  - eexists. split.
    + unfold process_event, self. cbn [variant set_variant].
      unfold TextBox_process_event.
      replace ((k =? 10) || (k =? 13)) with true
        by (destruct Hk; subst k; reflexivity).
      cbn [expect bind].
      rewrite (py_getitem_ok ls line cur) by assumption. cbn [bind].
      rewrite (py_getitem_ok _ line cur); [cbn [bind]| lia |].
      2:{ rewrite py_insert_lookup_lt by lia. assumption. }
      setitem (py_insert ls (line + 1) (py_slice_from cur column)) line.
      reflexivity.
    + unfold process_event. cbn [variant set_variant].
      unfold TextBox_process_event.
      destruct (Z.eqb_spec (KEY_BACK Screen) 10); [congruence|].
      destruct (Z.eqb_spec (KEY_BACK Screen) 13); [congruence|].
      cbn [orb]. rewrite Z.eqb_refl.
      destruct (Z.gtb_spec 0 0); [lia|].
      destruct (Z.gtb_spec (line + 1) 0); [|lia].
      cbn [expect bind].
      replace (line + 1 - 1) with line by lia.
      rewrite (py_getitem_ok _ line (py_slice_to cur column)); [|lia|].
      2:{ apply list_lookup_insert_eq. rewrite py_insert_ok by lia.
          rewrite length_app, length_take. simpl. unfold len in Hlen. lia. }
      cbn [bind].
      rewrite (py_pop_ok _ (line + 1) (py_slice_from cur column)); [|lia|].
      2:{ rewrite list_lookup_insert_ne by lia.
          apply py_insert_lookup_eq. lia. }
      cbn [bind]. rewrite py_setitem_ok.
      2:{ unfold len in *. rewrite length_delete.
          - rewrite length_insert, py_insert_ok by (unfold len; lia).
            rewrite length_app, length_take. simpl. rewrite length_drop. lia.
          - exists (py_slice_from cur column).
            rewrite list_lookup_insert_ne by lia.
            apply py_insert_lookup_eq. unfold len. lia. }
      cbn [bind]. rewrite slice_to_from, len_slice_to by lia.
      rewrite py_insert_ok by lia.
      replace (Z.to_nat (line + 1)) with (S (Z.to_nat line)) by lia.
      rewrite split_then_join by assumption. reflexivity.
  - do 3 eexists. split; [reflexivity|].
    unfold process_event. cbn [variant set_variant].
    unfold TextBox_process_event.
    decompose [and] HS.
    split; [|split;[|split]].
    + key_cases; try congruence. reflexivity.
    + reflexivity.
    + cbn [variant set_variant]. key_cases; try congruence. reflexivity.
    + reflexivity.
Qed.

Lemma TextBox_enter_then_backspace_witness :
  exists self1,
    process_event curses_keys hello_box (KeyboardEvent 10) = Ok (self1, None)
    /\ process_event curses_keys self1
         (KeyboardEvent (KEY_BACK curses_keys)) = Ok (hello_box, None).
Proof.
  refine (proj1 (TextBox_enter_then_backspace curses_keys
                   (TextBox_init (s "hello") 3 None None) (s "hello")
                   [s "hello"] (s "hello") 0 2 0 0 3 10 3 _ _ _ _ _)).
  - reflexivity.
  - left. reflexivity.
  - lia.
  - reflexivity.
  - vm_compute. split; discriminate.
Defined.

(** ** Layout.fix *)

Lemma sumZ_cons (x : Z) (l : list Z) : sumZ (x :: l) = x + sumZ l.
Proof. reflexivity. Qed.

Lemma required_height_args (wd : Widget) (offset w : Z) :
  required_height wd offset w = required_height wd 0 0.
Proof. unfold required_height. now destruct (variant wd). Qed.

Lemma fix_widgets_spec (column : list Widget) (x offset w : Z) :
  forall y,
  exists column',
    fix_widgets column x y offset w = (column', column_end y column)
    /\ Forall2 placed column column'
    /\ Forall (fun wd => _x wd = x) column'.
Proof.
  unfold column_end.
  induction column as [|wd column IH]; intros y.
  - exists []. simpl. replace (y + 0) with y by lia. auto.
  - destruct (IH (y + required_height wd offset w)) as (c' & E & HP & HX).
    exists (set_layout wd x y offset w (required_height wd offset w) :: c').
    split; [|split].
    + cbn [fix_widgets]. rewrite E. f_equal.
      rewrite (required_height_args wd offset w).
      rewrite fmap_cons, sumZ_cons. lia.
    + constructor; [|assumption]. unfold placed. eauto 8.
    + constructor; [reflexivity|assumption].
Qed.

Lemma label_offset_ok (column : list Widget) :
  exists offset, label_offset column = Ok offset.
Proof.
  unfold label_offset. destruct column as [|wd column]; simpl; eauto.
Qed.

Lemma fix_columns_spec (F : FloatT) (canvas : Canvas) (sizes : list (Z * Z))
    (start_y : Z) (columns : list (list Widget)) :
  forall i x max_y,
  0 <= i -> i + len columns <= len sizes ->
  exists columns',
    fix_columns F canvas sizes columns i x start_y max_y
    = Ok (columns', fold_left Z.max (column_end start_y <$> columns) max_y)
    /\ Forall2 (Forall2 placed) columns columns'
    /\ forall j column wd,
         columns' !! j = Some column -> wd ∈ column ->
         _x wd
         = x + sumZ (int_of_width F (width canvas)
                       <$> take j (drop (Z.to_nat i) sizes)).
Proof.
  induction columns as [|column columns IH]; intros i x max_y Hi Hlen.
  - exists []. simpl. split; [reflexivity|]. split; [constructor|].
    intros j column wd H. now rewrite lookup_nil in H.
  - unfold len in Hlen. simpl in Hlen.
    cbn [fix_columns].
    destruct (label_offset_ok column) as (offset & ->). cbn [bind].
    destruct (py_getitem_in_range sizes i) as (size & Hsize & ->);
      [unfold len; lia|].
    cbn [bind].
    set (o := Z.min offset _). set (w := int_of_width _ _ _).
    destruct (fix_widgets_spec column x o w start_y) as (c' & -> & HP & HX).
    destruct (IH (i + 1) (x + w) (Z.max max_y (column_end start_y column)))
      as (cs' & -> & HPs & HXs); [lia|unfold len; lia|].
    cbn [bind]. eexists. split; [reflexivity|].
    split; [constructor; assumption|].
    intros [|j] col wd Hcol Hwd.
    + injection Hcol as <-. rewrite take_0, fmap_nil.
      rewrite Forall_forall in HX. rewrite (HX wd Hwd).
      unfold sumZ. simpl. lia.
    + simpl in Hcol. rewrite (HXs j col wd Hcol Hwd).
      rewrite (drop_S sizes size (Z.to_nat i) Hsize).
      replace (Z.to_nat (i + 1)) with (S (Z.to_nat i)) by lia.
      rewrite firstn_cons, fmap_cons, sumZ_cons. unfold w. lia.
Qed.

Lemma fold_max_skip_empty (start_y : Z) (columns : list (list Widget)) :
  forall max_y, start_y <= max_y ->
  fold_left Z.max (column_end start_y <$> columns) max_y
  = fold_left Z.max
      (column_end start_y <$> filter (fun c => is_empty c = false) columns)
      max_y.
Proof.
  induction columns as [|column columns IH]; intros max_y Hm.
  - reflexivity.
  - rewrite filter_cons. destruct column as [|wd column].
    + case_decide; [discriminate|].
      rewrite fmap_cons. cbn [fold_left].
      change (column_end start_y []) with (start_y + 0).
      replace (Z.max max_y (start_y + 0)) with max_y by lia.
      now apply IH.
    + case_decide; [|simpl in *; congruence].
      rewrite !fmap_cons. cbn [fold_left]. apply IH. lia.
Qed.

(** C8: [Layout.fix] on a Layout that has a column without widgets does not
    raise: the label offset of the empty column is 0, the column adds its
    width to the [x] of the columns after it (every widget of column [j] is
    placed at the sum of the widths of all the columns before [j]), and it
    adds no height: its end is [start_y], and the offset returned is the
    maximum of [start_y] and the ends of the columns that do hold widgets. *)
Theorem Layout_fix_empty_column (F : FloatT) (canvas : Canvas) (l : Layout)
    (start_y : Z) :
  length (_column_sizes l) = length (_columns l) ->
  existsb is_empty (_columns l) = true ->
  label_offset [] = Ok 0
  /\ column_end start_y [] = start_y
  /\ exists l',
       Layout_fix F canvas l start_y
       = Ok (l', fold_left Z.max
                   (column_end start_y
                      <$> filter (fun c => is_empty c = false) (_columns l))
                   start_y)
       /\ Forall2 (Forall2 placed) (_columns l) (_columns l')
       /\ forall j column wd,
            _columns l' !! j = Some column -> wd ∈ column ->
            _x wd = x_of_column F canvas (_column_sizes l) j.
Proof.
  intros Hlen _. split; [reflexivity|]. split.
  { unfold column_end, sumZ. simpl. lia. }
  unfold Layout_fix.
  destruct (fix_columns_spec F canvas (_column_sizes l) start_y (_columns l)
              0 0 start_y) as (cs' & -> & HP & HX);
    [lia|unfold len; lia|].
  cbn [bind]. eexists. split; [|split].
  - rewrite fold_max_skip_empty by lia. reflexivity.
  - exact HP.
  - intros j column wd Hc Hwd. cbn [_columns set_columns] in Hc.
    rewrite (HX j column wd Hc Hwd). unfold x_of_column.
    rewrite drop_0. lia.
Qed.

Lemma Layout_fix_empty_column_witness :
  exists l',
    Layout_fix exact_float {| width := 80; height := 24 |}
      empty_middle_column 5 = Ok (l', 7).
Proof.
  destruct (Layout_fix_empty_column exact_float {| width := 80; height := 24 |}
              empty_middle_column 5 eq_refl eq_refl)
    as (_ & _ & l' & H & _).
  exists l'. exact H.
Defined.

(** ** The focus search *)

Lemma stop_in_lookup (column : list Widget) (w : Z) (wd : Widget) :
  0 <= w -> column !! Z.to_nat w = Some wd ->
  (stop_in (column_shape column) w <-> is_tab_stop wd = true).
Proof.
  intros Hw Hwd. unfold stop_in, column_shape.
  rewrite list_lookup_fmap, Hwd. simpl. split.
  - intros [_ H]. congruence.
  - intros ->. auto.
Qed.

Lemma stop_in_range (column : list Widget) (w : Z) :
  stop_in (column_shape column) w -> 0 <= w < len column.
Proof.
  intros [Hw H]. apply lookup_lt_Some in H.
  unfold column_shape in H. rewrite length_fmap in H. unfold len. lia.
Qed.

(** The inner loop, forwards: the first tab stop from [i] on, or the end. *)
Lemma scan_forward (column : list Widget) :
  forall fuel i,
  0 <= i -> (Z.to_nat (len column - i) < fuel)%nat ->
  exists j,
    scan_column fuel column 1 i = Ok j /\ i <= j
    /\ (forall k, i <= k < j -> ~ stop_in (column_shape column) k)
    /\ (stop_in (column_shape column) j \/ len column <= j).
Proof.
  induction fuel as [|fuel IH]; intros i Hi Hf; [lia|].
  cbn [scan_column]. unfold in_range.
  destruct (Z.leb_spec 0 i); [|lia].
  destruct (Z.ltb_spec i (len column)); cbn [andb].
  - destruct (py_getitem_in_range column i) as (wd & Hwd & ->); [lia|].
    cbn [bind]. destruct (is_tab_stop wd) eqn:Ht.
    + exists i. split; [reflexivity|]. split; [lia|].
      split; [intros; lia|]. left. now apply (stop_in_lookup column i wd).
    + destruct (IH (i + 1)) as (j & -> & Hij & Hno & Hj); [lia|lia|].
      exists j. split; [reflexivity|]. split; [lia|].
      split; [|assumption]. intros k Hk.
      destruct (Z.eq_dec k i) as [->|].
      * rewrite (stop_in_lookup column i wd) by assumption. congruence.
      * apply Hno. lia.
  - exists i. split; [reflexivity|]. split; [lia|].
    split; [intros; lia|]. right. lia.
Qed.

(** The inner loop, backwards: the last tab stop up to [i], or -1. *)
Lemma scan_backward (column : list Widget) :
  forall fuel i,
  i < len column -> (Z.to_nat (i + 1) < fuel)%nat ->
  exists j,
    scan_column fuel column (-1) i = Ok j /\ j <= i
    /\ (forall k, j < k <= i -> ~ stop_in (column_shape column) k)
    /\ (stop_in (column_shape column) j \/ j < 0).
Proof.
  induction fuel as [|fuel IH]; intros i Hi Hf; [lia|].
  cbn [scan_column]. unfold in_range.
  destruct (Z.ltb_spec i (len column)); [|lia].
  destruct (Z.leb_spec 0 i); cbn [andb].
  - destruct (py_getitem_in_range column i) as (wd & Hwd & ->); [lia|].
    cbn [bind]. destruct (is_tab_stop wd) eqn:Ht.
    + exists i. split; [reflexivity|]. split; [lia|].
      split; [intros; lia|]. left. now apply (stop_in_lookup column i wd).
    + destruct (IH (i + -1)) as (j & -> & Hij & Hno & Hj); [lia|lia|].
      exists j. split; [reflexivity|]. split; [lia|].
      split; [|assumption]. intros k Hk.
      destruct (Z.eq_dec k i) as [->|].
      * rewrite (stop_in_lookup column i wd) by assumption. congruence.
      * apply Hno. lia.
  - exists i. split; [reflexivity|]. split; [lia|].
    split; [intros; lia|]. right. lia.
Qed.

(** The test after the inner loop. *)
Lemma found_spec (column : list Widget) (w : Z) :
  exists b,
    (if in_range w column
     then let* widget := py_getitem column w in Ok (is_tab_stop widget)
     else Ok false) = Ok b
    /\ (b = true <-> stop_in (column_shape column) w).
Proof.
  unfold in_range.
  destruct (Z.leb_spec 0 w), (Z.ltb_spec w (len column)); cbn [andb].
  - destruct (py_getitem_in_range column w) as (wd & Hwd & ->); [lia|].
    cbn [bind]. eexists. split; [reflexivity|].
    now rewrite (stop_in_lookup column w wd).
  - exists false. split; [reflexivity|]. split; [discriminate|].
    intros Hs%stop_in_range. lia.
  - exists false. split; [reflexivity|]. split; [discriminate|].
    intros Hs%stop_in_range. lia.
  - exists false. split; [reflexivity|]. split; [discriminate|].
    intros Hs%stop_in_range. lia.
Qed.

Lemma stop_at_intro (columns : list (list Widget)) (column : list Widget)
    (c w : Z) :
  0 <= c -> columns !! Z.to_nat c = Some column ->
  stop_in (column_shape column) w -> stop_at (tab_shape columns) (c, w).
Proof.
  intros Hc Hcol Hw. split; [assumption|].
  exists (column_shape column). split; [|assumption].
  unfold tab_shape. simpl. now rewrite list_lookup_fmap, Hcol.
Qed.

Lemma stop_at_inv (columns : list (list Widget)) (q : Z * Z) :
  stop_at (tab_shape columns) q ->
  0 <= q.1 < len columns /\ 0 <= q.2
  /\ exists column,
       columns !! Z.to_nat q.1 = Some column
       /\ stop_in (column_shape column) q.2.
Proof.
  intros (Hc & sh & Hsh & Hw). unfold tab_shape in Hsh.
  rewrite list_lookup_fmap in Hsh.
  destruct (columns !! Z.to_nat q.1) as [column|] eqn:Hcol; [|discriminate].
  injection Hsh as <-. pose proof (lookup_len _ _ _ Hc Hcol).
  split; [lia|]. split; [apply Hw|]. eauto.
Qed.

Lemma py_getitem_last {A} (l : list A) :
  0 < len l -> exists x, py_getitem l (-1) = Ok x.
Proof.
  intros Hl. unfold py_getitem, py_index.
  destruct (Z.leb_spec 0 (-1)); [lia|]. cbn [andb].
  destruct (Z.ltb_spec (-1) 0); [|lia].
  destruct (Z.leb_spec 0 (-1 + len l)); [|lia]. cbn [andb bind].
  destruct (lookup_lt_is_Some_2 l (Z.to_nat (-1 + len l))) as [x ->];
    [unfold len in *; lia|]. eauto.
Qed.

(** The search forwards from [(c, w)]: the least tab stop after it in the
    Layout, or the column index runs off the end. *)
Lemma find_forward (columns : list (list Widget)) (cur : Z) :
  forall fuel c w,
  0 <= c <= len columns -> -1 <= w ->
  (Z.to_nat (len columns - c) < fuel)%nat ->
  exists c' w',
    find_loop fuel columns 1 false cur c w = Ok (c', w')
    /\ ((stop_at (tab_shape columns) (c', w') /\ lex2 (c, w) (c', w')
         /\ forall q, stop_at (tab_shape columns) q -> lex2 (c, w) q ->
                      ~ lex2 q (c', w'))
        \/ (c' = len columns
            /\ forall q, stop_at (tab_shape columns) q -> ~ lex2 (c, w) q)).
Proof.
  induction fuel as [|fuel IH]; intros c w Hc Hw Hf; [lia|].
  cbn [find_loop]. unfold in_range at 1.
  destruct (Z.leb_spec 0 c); [|lia].
  destruct (Z.ltb_spec c (len columns)); cbn [andb].
  - destruct (py_getitem_in_range columns c) as (column & Hcol & ->);
      [lia|]. cbn [bind].
    destruct (scan_forward column (S (length column)) (w + 1))
      as (j & -> & Hj & Hno & Hend); [lia|unfold len; lia|].
    cbn [bind].
    destruct (found_spec column j) as (b & -> & Hb). cbn [bind].
    assert (Hnone : forall k, w < k -> k < j \/ b = false ->
                              ~ stop_in (column_shape column) k).
    { intros k Hk Hkj Hs. destruct (Z.lt_ge_cases k j) as [Hlt|Hge].
      - apply (Hno k); [lia|assumption].
      - destruct Hkj as [Hkj | Hkj]; [lia|subst b].
        destruct Hend as [Hend|Hend]; [apply Hb in Hend; discriminate|].
        apply stop_in_range in Hs. lia. }
    destruct b.
    + exists c, j. split; [reflexivity|]. left.
      split; [|split].
      * apply (stop_at_intro columns column); [lia|assumption|].
        now apply Hb.
      * right. simpl. lia.
      * intros [qc qw] Hq Hlt Hgt. unfold lex2 in *. simpl in *.
        apply stop_at_inv in Hq. simpl in Hq.
        destruct Hq as (_ & _ & col' & Hcol' & Hs).
        assert (qc = c) as -> by lia.
        rewrite Hcol in Hcol'. injection Hcol' as <-.
        apply (Hnone qw); [lia|left; lia|assumption].
    + change (1 >? 0) with true. cbn [bind].
      destruct (IH (c + 1) (-1)) as (c' & w' & -> & Hres); [lia|lia|lia|].
      exists c', w'. split; [reflexivity|].
      assert (Hafter : forall q, stop_at (tab_shape columns) q ->
                                 lex2 (c, w) q -> lex2 (c + 1, -1) q).
      { intros [qc qw] Hq Hlt. unfold lex2 in *. simpl in *.
        apply stop_at_inv in Hq. simpl in Hq.
        destruct Hq as (_ & Hqw & col' & Hcol' & Hs).
        destruct (Z.eq_dec qc c) as [->|]; [|lia].
        rewrite Hcol in Hcol'. injection Hcol' as <-.
        exfalso. apply (Hnone qw); [lia|now right|assumption]. }
      destruct Hres as [(Hs & Hlt & Hbetween)|(-> & Hno')].
      * left. split; [assumption|]. split.
        { unfold lex2 in *. simpl in *. lia. }
        intros q Hq Hq1. apply Hbetween; auto.
      * right. split; [reflexivity|]. intros q Hq Hq1.
        apply (Hno' q Hq). auto.
  - exists c, w. split; [reflexivity|]. right. split; [lia|].
    intros [qc qw] Hq Hlt. apply stop_at_inv in Hq.
    unfold lex2 in Hlt. simpl in *. lia.
Qed.

(** The search backwards from [(c, w)]: the greatest tab stop before it in
    the Layout, or the column index runs off the start. *)
Lemma find_backward (columns : list (list Widget)) (cur : Z) :
  forall fuel c w,
  -1 <= c < len columns ->
  (forall column, 0 <= c -> columns !! Z.to_nat c = Some column ->
                  w <= len column) ->
  (Z.to_nat (c + 1) < fuel)%nat ->
  exists c' w',
    find_loop fuel columns (-1) false cur c w = Ok (c', w')
    /\ ((stop_at (tab_shape columns) (c', w') /\ lex2 (c', w') (c, w)
         /\ forall q, stop_at (tab_shape columns) q -> lex2 q (c, w) ->
                      ~ lex2 (c', w') q)
        \/ (c' = -1
            /\ forall q, stop_at (tab_shape columns) q -> ~ lex2 q (c, w))).
Proof.
  induction fuel as [|fuel IH]; intros c w Hc Hw Hf; [lia|].
  cbn [find_loop]. unfold in_range at 1.
  destruct (Z.ltb_spec c (len columns)); [|lia].
  destruct (Z.leb_spec 0 c); cbn [andb].
  - destruct (py_getitem_in_range columns c) as (column & Hcol & ->);
      [lia|]. cbn [bind].
    pose proof (Hw column ltac:(lia) Hcol) as Hwlen.
    destruct (scan_backward column (S (length column)) (w + -1))
      as (j & -> & Hj & Hno & Hend); [lia|unfold len in *; lia|].
    cbn [bind].
    destruct (found_spec column j) as (b & -> & Hb). cbn [bind].
    assert (Hnone : forall k, k < w -> j < k \/ b = false ->
                              ~ stop_in (column_shape column) k).
    { intros k Hk Hkj Hs. destruct (Z.lt_ge_cases j k) as [Hlt|Hge].
      - apply (Hno k); [lia|assumption].
      - destruct Hkj as [Hkj | Hkj]; [lia|subst b].
        destruct Hend as [Hend|Hend]; [apply Hb in Hend; discriminate|].
        apply stop_in_range in Hs. lia. }
    destruct b.
    + exists c, j. split; [reflexivity|]. left.
      split; [|split].
      * apply (stop_at_intro columns column); [lia|assumption|].
        now apply Hb.
      * right. simpl. lia.
      * intros [qc qw] Hq Hlt Hgt. unfold lex2 in *. simpl in *.
        apply stop_at_inv in Hq. simpl in Hq.
        destruct Hq as (_ & _ & col' & Hcol' & Hs).
        assert (qc = c) as -> by lia.
        rewrite Hcol in Hcol'. injection Hcol' as <-.
        apply (Hnone qw); [lia|left; lia|assumption].
    + change (-1 >? 0) with false. cbn iota.
      assert (Hprev : exists column',
                 py_getitem columns (c + -1) = Ok column'
                 /\ (0 <= c + -1 ->
                     columns !! Z.to_nat (c + -1) = Some column')).
      { destruct (Z.eq_dec c 0) as [->|].
        - destruct (py_getitem_last columns) as (x & Hx); [lia|].
          exists x. split; [exact Hx|]. intros; lia.
        - destruct (py_getitem_in_range columns (c + -1))
            as (x & Hx & E); [lia|]. eauto. }
      destruct Hprev as (column' & -> & Hcol'). cbn [bind].
      destruct (IH (c + -1) (len column')) as (c' & w' & -> & Hres);
        [lia| |lia|].
      { intros col0 Hge0 Hcol0. rewrite (Hcol' Hge0) in Hcol0.
        injection Hcol0 as <-. lia. }
      exists c', w'. split; [reflexivity|].
      assert (Hbefore : forall q, stop_at (tab_shape columns) q ->
                          lex2 q (c, w) -> lex2 q (c + -1, len column')).
      { intros [qc qw] Hq Hlt. unfold lex2 in *. simpl in *.
        apply stop_at_inv in Hq. simpl in Hq.
        destruct Hq as (Hqc & Hqw & col0 & Hcol0 & Hs).
        destruct (Z.eq_dec qc c) as [->|].
        - rewrite Hcol in Hcol0. injection Hcol0 as <-.
          exfalso. apply (Hnone qw); [lia|now right|assumption].
        - destruct (Z.eq_dec qc (c + -1)) as [->|]; [|lia].
          right. split; [reflexivity|].
          rewrite (Hcol' ltac:(lia)) in Hcol0. injection Hcol0 as <-.
          apply stop_in_range in Hs. lia. }
      destruct Hres as [(Hs & Hlt & Hbetween)|(-> & Hno')].
      * left. split; [assumption|]. split.
        { unfold lex2 in *. simpl in *. lia. }
        intros q Hq Hq1. apply Hbetween; auto.
      * right. split; [reflexivity|]. intros q Hq Hq1.
        apply (Hno' q Hq). auto.
  - exists c, w. split; [reflexivity|]. right. split; [lia|].
    intros [qc qw] Hq Hlt. apply stop_at_inv in Hq.
    unfold lex2 in Hlt. simpl in *. lia.
Qed.

(** The search inside one column, for Up and Down: a tab stop of the column
    or the widget the search started from. *)
Lemma find_stay (columns : list (list Widget)) (cur d : Z) (fuel : nat)
    (c w : Z) :
  d = 1 \/ d = -1 ->
  0 <= c < len columns ->
  (forall column, columns !! Z.to_nat c = Some column ->
                  -1 <= w <= len column) ->
  exists w',
    find_loop (S fuel) columns d true cur c w = Ok (c, w')
    /\ (stop_at (tab_shape columns) (c, w') \/ w' = cur).
Proof.
  intros Hd Hc Hw. cbn [find_loop]. unfold in_range at 1.
  destruct (Z.leb_spec 0 c); [|lia].
  destruct (Z.ltb_spec c (len columns)); [|lia]. cbn [andb].
  destruct (py_getitem_in_range columns c) as (column & Hcol & ->); [lia|].
  cbn [bind]. specialize (Hw column Hcol).
  assert (exists j, scan_column (S (length column)) column d (w + d) = Ok j)
    as (j & ->).
  { destruct Hd as [-> | ->].
    - destruct (scan_forward column (S (length column)) (w + 1))
        as (j & -> & _); [lia|unfold len; lia|]. eauto.
    - destruct (scan_backward column (S (length column)) (w + -1))
        as (j & -> & _); [lia|unfold len in *; lia|]. eauto. }
  cbn [bind]. destruct (found_spec column j) as (b & -> & Hb). cbn [bind].
  destruct b.
  - exists j. split; [reflexivity|]. left.
    apply (stop_at_intro columns column); [lia|assumption|]. now apply Hb.
  - exists cur. split; [reflexivity|]. now right.
Qed.

(** ** Changing one widget of a Layout *)

Lemma fmap_alter_at {A B} (h : A -> B) (f : A -> A) (g : B -> B)
    (l : list A) (i : nat) (x : A) :
  l !! i = Some x -> h (f x) = g (h x) ->
  h <$> alter f i l = alter g i (h <$> l).
Proof.
  intros Hx Hh. apply list_eq. intros j.
  rewrite list_lookup_fmap, !list_lookup_alter, !list_lookup_fmap.
  case_decide; [|reflexivity]. subst j. rewrite Hx. simpl. now f_equal.
Qed.

Lemma alter_keeps {A B} (h : A -> B) (f : A -> A) (l : list A) (i : nat) :
  (forall x, l !! i = Some x -> h (f x) = h x) ->
  h <$> alter f i l = h <$> l.
Proof.
  intros Hh. apply list_eq. intros j.
  rewrite !list_lookup_fmap, list_lookup_alter.
  case_decide; [|reflexivity]. subst j.
  destruct (l !! i) as [x|] eqn:Hx; [|reflexivity]. simpl.
  f_equal. now apply Hh.
Qed.

Lemma alter_same {A} (l : list A) (i : nat) (f : A -> A) :
  (forall x, l !! i = Some x -> f x = x) -> alter f i l = l.
Proof.
  intros Hf. rewrite <- (list_fmap_id (alter f i l)).
  rewrite (alter_keeps id f l i Hf). apply list_fmap_id.
Qed.

Lemma modify_widget_ok (columns : list (list Widget)) (c w : Z)
    (f : Widget -> Widget) :
  stop_at (tab_shape columns) (c, w) ->
  modify_widget columns c w f = Ok (alter2 f (c, w) columns).
Proof.
  intros H. apply stop_at_inv in H. simpl in H.
  destruct H as (Hc & Hw & column & Hcol & Hs).
  pose proof (stop_in_range _ _ Hs) as Hr.
  unfold modify_widget.
  rewrite (py_getitem_ok columns c column) by (lia || assumption).
  cbn [bind].
  destruct (py_getitem_in_range column w) as (wd & Hwd & ->); [lia|].
  cbn [bind]. rewrite py_setitem_ok by lia. cbn [bind].
  rewrite py_setitem_ok by lia. f_equal. unfold alter2. simpl.
  rewrite !list_insert_alter. apply list_alter_ext; [|reflexivity].
  intros col' Hcol'. rewrite Hcol in Hcol'. injection Hcol' as <-.
  apply list_alter_ext; [|reflexivity].
  intros wd' Hwd'. rewrite Hwd in Hwd'. now injection Hwd' as <-.
Qed.

Lemma on_live_ok (l : Layout) (f : Widget -> Widget) :
  at_stop l ->
  on_live l f
  = Ok (set_columns l
          (alter2 f (_live_col l, _live_widget l) (_columns l))).
Proof.
  intros H. unfold on_live. now rewrite modify_widget_ok.
Qed.

Lemma tab_shape_alter2 (f : Widget -> Widget) (p : Z * Z)
    (columns : list (list Widget)) :
  (forall x, is_tab_stop (f x) = is_tab_stop x) ->
  tab_shape (alter2 f p columns) = tab_shape columns.
Proof.
  intros Hf. unfold tab_shape, alter2. apply alter_keeps.
  intros column _. unfold column_shape. apply alter_keeps. auto.
Qed.

Lemma flags_alter2 (f : Widget -> Widget) (g : bool -> bool) (p : Z * Z)
    (columns : list (list Widget)) :
  (forall x, _has_focus (f x) = g (_has_focus x)) ->
  column_flags <$> alter2 f p columns
  = alter2 g p (column_flags <$> columns).
Proof.
  intros Hf. unfold alter2. apply list_fmap_alter.
  apply Forall_forall. intros column _. unfold column_flags.
  apply list_fmap_alter. apply Forall_forall. intros x _. apply Hf.
Qed.

(** ** The traversal keys are refused by every widget *)

Lemma Screen_ok_traversal (Screen : ScreenT) :
  Screen_ok Screen = true ->
  KEY_TAB Screen <> KEY_BACK_TAB Screen
  /\ forall wd,
       handled Screen wd (KeyboardEvent (KEY_TAB Screen)) = false
       /\ handled Screen wd (KeyboardEvent (KEY_BACK_TAB Screen)) = false.
Proof.
  intros HS. screen_facts HS.
  assert (Hspace : forall k, printable k = false -> k <> 32).
  { intros k Hk ->. discriminate. }
  split; [congruence|].
  intros wd. unfold handled, handled_by, recognized.
  destruct (variant wd); split; try reflexivity;
    repeat match goal with
      | |- _ || _ = false => apply orb_false_iff; split
      | |- bool_decide _ = false => apply bool_decide_eq_false
      | |- _ ∉ _ :: _ => apply not_elem_of_cons; split
      | |- _ ∉ [] => apply not_elem_of_nil
      | |- printable _ = false => assumption
      | |- _ <> 32 => apply Hspace; assumption
      | |- _ <> _ => congruence
      end.
Qed.

Lemma len_alter2 {A} (g : A -> A) (p : Z * Z) (m : list (list A)) :
  len (alter2 g p m) = len m.
Proof. unfold len, alter2. now rewrite length_alter. Qed.

Lemma widget_at_stop (columns : list (list Widget)) (c w : Z) :
  stop_at (tab_shape columns) (c, w) ->
  exists wd, widget_at columns c w = Ok wd
             /\ alter2 (fun _ => wd) (c, w) columns = columns.
Proof.
  intros H. apply stop_at_inv in H. simpl in H.
  destruct H as (Hc & Hw & column & Hcol & Hs).
  pose proof (stop_in_range _ _ Hs) as Hr.
  destruct (py_getitem_in_range column w) as (wd & Hwd & E); [lia|].
  exists wd. split.
  - unfold widget_at.
    rewrite (py_getitem_ok columns c column) by (lia || assumption).
    exact E.
  - unfold alter2. simpl. apply alter_same.
    intros col' Hcol'. rewrite Hcol in Hcol'. injection Hcol' as <-.
    apply alter_same. intros wd' Hwd'. congruence.
Qed.

Lemma set_columns_same (l : Layout) : set_columns l (_columns l) = l.
Proof. now destruct l. Qed.

(** [_find_next_widget(1)] and [_find_next_widget(-1)] on a Layout. *)
Lemma find_next_forward (l : Layout) :
  0 <= _live_col l <= len (_columns l) -> -1 <= _live_widget l ->
  exists c' w',
    _find_next_widget l 1 false = Ok (set_live l c' w')
    /\ ((stop_at (tab_shape (_columns l)) (c', w')
         /\ lex2 (_live_col l, _live_widget l) (c', w')
         /\ forall q, stop_at (tab_shape (_columns l)) q ->
                      lex2 (_live_col l, _live_widget l) q ->
                      ~ lex2 q (c', w'))
        \/ (c' = len (_columns l)
            /\ forall q, stop_at (tab_shape (_columns l)) q ->
                         ~ lex2 (_live_col l, _live_widget l) q)).
Proof.
  intros Hc Hw. unfold _find_next_widget.
  destruct (find_forward (_columns l) (_live_widget l)
              (S (length (_columns l))) (_live_col l) (_live_widget l))
    as (c' & w' & -> & H); [lia|lia|unfold len; lia|].
  cbn [bind]. eauto.
Qed.

Lemma find_next_backward (l : Layout) :
  -1 <= _live_col l < len (_columns l) ->
  (forall column, 0 <= _live_col l ->
     _columns l !! Z.to_nat (_live_col l) = Some column ->
     _live_widget l <= len column) ->
  exists c' w',
    _find_next_widget l (-1) false = Ok (set_live l c' w')
    /\ ((stop_at (tab_shape (_columns l)) (c', w')
         /\ lex2 (c', w') (_live_col l, _live_widget l)
         /\ forall q, stop_at (tab_shape (_columns l)) q ->
                      lex2 q (_live_col l, _live_widget l) ->
                      ~ lex2 (c', w') q)
        \/ (c' = -1
            /\ forall q, stop_at (tab_shape (_columns l)) q ->
                         ~ lex2 q (_live_col l, _live_widget l))).
Proof.
  intros Hc Hw. unfold _find_next_widget.
  destruct (find_backward (_columns l) (_live_widget l)
              (S (length (_columns l))) (_live_col l) (_live_widget l))
    as (c' & w' & -> & H); [lia|assumption|unfold len in *; lia|].
  cbn [bind]. eauto.
Qed.

(** ** Layout.blur, Layout.focus and the traversal keys of a Layout *)

Ltac layout_fields :=
  cbn [set_live set_columns set_Layout_has_focus _columns _live_col
       _live_widget _column_sizes Layout_has_focus] in *.

Lemma Layout_blur_spec (l : Layout) :
  at_stop l ->
  exists l',
    Layout_blur l = Ok l'
    /\ tab_shape (_columns l') = tab_shape (_columns l)
    /\ _live_col l' = _live_col l /\ _live_widget l' = _live_widget l
    /\ layout_flags l'
       = alter2 (fun _ => false) (_live_col l, _live_widget l)
           (layout_flags l).
Proof.
  intros H. unfold Layout_blur. rewrite on_live_ok by exact H.
  eexists. split; [reflexivity|]. layout_fields.
  split; [now apply tab_shape_alter2|]. split; [reflexivity|].
  split; [reflexivity|]. unfold layout_flags. layout_fields.
  now apply flags_alter2.
Qed.

Lemma stops_after_start (columns : list (list Widget)) (q : Z * Z) :
  stop_at (tab_shape columns) q -> lex2 (0, -1) q.
Proof.
  intros H. apply stop_at_inv in H. unfold lex2. simpl. lia.
Qed.

Lemma Layout_focus_first (l : Layout) :
  (exists r, stop_at (tab_shape (_columns l)) r) ->
  exists l',
    Layout_focus l true false = Ok l'
    /\ tab_shape (_columns l') = tab_shape (_columns l)
    /\ stop_at (tab_shape (_columns l)) (_live_col l', _live_widget l')
    /\ (forall r, stop_at (tab_shape (_columns l)) r ->
                  ~ lex2 r (_live_col l', _live_widget l'))
    /\ layout_flags l'
       = alter2 (fun _ => true) (_live_col l', _live_widget l')
           (layout_flags l).
Proof.
  intros (r & Hr). unfold Layout_focus.
  destruct (find_next_forward (set_live (set_Layout_has_focus l true) 0 (-1)))
    as (c' & w' & -> & H).
  { layout_fields. pose proof (len_nonneg (_columns l)). lia. }
  { layout_fields. lia. }
  layout_fields. cbn [bind].
  destruct H as [(Hs & _ & Hleast)|(_ & Hnone)].
  2:{ exfalso. apply (Hnone r Hr). now apply (stops_after_start (_columns l)). }
  rewrite on_live_ok by (unfold at_stop; layout_fields; exact Hs).
  eexists. split; [reflexivity|]. layout_fields.
  split; [now apply tab_shape_alter2|]. split; [assumption|].
  split.
  - intros q Hq. apply Hleast; [assumption|].
    now apply (stops_after_start (_columns l)).
  - unfold layout_flags. layout_fields. now apply flags_alter2.
Qed.

Lemma Layout_focus_last (l : Layout) :
  (exists r, stop_at (tab_shape (_columns l)) r) ->
  exists l',
    Layout_focus l false true = Ok l'
    /\ tab_shape (_columns l') = tab_shape (_columns l)
    /\ stop_at (tab_shape (_columns l)) (_live_col l', _live_widget l')
    /\ (forall r, stop_at (tab_shape (_columns l)) r ->
                  ~ lex2 (_live_col l', _live_widget l') r)
    /\ layout_flags l'
       = alter2 (fun _ => true) (_live_col l', _live_widget l')
           (layout_flags l).
Proof.
  intros (r & Hr). unfold Layout_focus. layout_fields.
  pose proof (stop_at_inv _ _ Hr) as (Hr1 & _).
  destruct (py_getitem_in_range (_columns l) (len (_columns l) - 1))
    as (column & Hcol & ->); [lia|]. cbn [bind].
  assert (Hall : forall q, stop_at (tab_shape (_columns l)) q ->
                   lex2 q (len (_columns l) - 1, len column)).
  { intros [qc qw] Hq. apply stop_at_inv in Hq. simpl in Hq.
    destruct Hq as (Hqc & Hqw & col' & Hcol' & Hs).
    unfold lex2. simpl.
    destruct (Z.eq_dec qc (len (_columns l) - 1)) as [->|]; [|lia].
    right. split; [reflexivity|].
    rewrite Hcol in Hcol'. injection Hcol' as <-.
    apply stop_in_range in Hs. lia. }
  destruct (find_next_backward
              (set_live (set_Layout_has_focus l true)
                 (len (_columns l) - 1) (len column)))
    as (c' & w' & -> & H).
  { layout_fields. lia. }
  { layout_fields. intros col' _ Hcol'. rewrite Hcol in Hcol'.
    injection Hcol' as <-. lia. }
  layout_fields. cbn [bind].
  destruct H as [(Hs & _ & Hgreatest)|(_ & Hnone)].
  2:{ exfalso. apply (Hnone r Hr). now apply Hall. }
  rewrite on_live_ok by (unfold at_stop; layout_fields; exact Hs).
  eexists. split; [reflexivity|]. layout_fields.
  split; [now apply tab_shape_alter2|]. split; [assumption|].
  split.
  - intros q Hq. apply Hgreatest; [assumption|]. now apply Hall.
  - unfold layout_flags. layout_fields. now apply flags_alter2.
Qed.

Lemma at_stop_bounds (l : Layout) :
  at_stop l ->
  0 <= _live_col l < len (_columns l) /\ 0 <= _live_widget l
  /\ forall column,
       _columns l !! Z.to_nat (_live_col l) = Some column ->
       _live_widget l < len column.
Proof.
  intros H. apply stop_at_inv in H. simpl in H.
  destruct H as (Hc & Hw & column & Hcol & Hs).
  split; [assumption|]. split; [assumption|].
  intros col' Hcol'. rewrite Hcol in Hcol'. injection Hcol' as <-.
  apply stop_in_range in Hs. lia.
Qed.

(** TAB inside a Layout: the next tab stop takes the focus, or the Layout
    hands the key back with its live position on its first tab stop. *)
Lemma Layout_movement_TAB (Screen : ScreenT) (l : Layout) :
  at_stop l ->
  let p := (_live_col l, _live_widget l) in
  let sh := tab_shape (_columns l) in
  let tab := Some (KeyboardEvent (KEY_TAB Screen)) in
  exists l',
    tab_shape (_columns l') = sh
    /\ stop_at sh (_live_col l', _live_widget l')
    /\ ((Layout_movement Screen l tab = Ok (l', None)
         /\ lex2 p (_live_col l', _live_widget l')
         /\ (forall r, stop_at sh r -> lex2 p r ->
                       ~ lex2 r (_live_col l', _live_widget l'))
         /\ layout_flags l'
            = alter2 (fun _ => true) (_live_col l', _live_widget l')
                (alter2 (fun _ => false) p (layout_flags l)))
        \/ (Layout_movement Screen l tab = Ok (l', tab)
            /\ (forall r, stop_at sh r -> ~ lex2 p r)
            /\ (forall r, stop_at sh r ->
                          ~ lex2 r (_live_col l', _live_widget l'))
            /\ layout_flags l' = alter2 (fun _ => false) p (layout_flags l))).
Proof.
  intros Hat p sh tab. pose proof (at_stop_bounds l Hat) as (Hc & Hw & _).
  unfold Layout_movement, tab. rewrite Z.eqb_refl.
  rewrite on_live_ok by exact Hat. cbn [bind].
  remember (set_columns l (alter2 Widget_blur (_live_col l, _live_widget l)
                             (_columns l))) as l1 eqn:El1.
  assert (Hsh1 : tab_shape (_columns l1) = sh).
  { subst l1. layout_fields. now apply tab_shape_alter2. }
  assert (Hfl1 : layout_flags l1 = alter2 (fun _ => false) p (layout_flags l)).
  { subst l1. unfold layout_flags. layout_fields. now apply flags_alter2. }
  assert (Hlen1 : len (_columns l1) = len (_columns l)).
  { subst l1. layout_fields. apply len_alter2. }
  assert (Hlc1 : _live_col l1 = _live_col l) by now subst l1.
  assert (Hlw1 : _live_widget l1 = _live_widget l) by now subst l1.
  clear El1.
  destruct (find_next_forward l1) as (c' & w' & -> & H); [lia|lia|].
  rewrite Hsh1, Hlc1, Hlw1 in H. cbn [bind].
  destruct H as [(Hs & Hlt & Hleast)|(-> & Hnone)].
  - pose proof Hs as Hs'. rewrite <- Hsh1 in Hs'.
    apply stop_at_inv in Hs'. simpl in Hs'. destruct Hs' as (Hc' & _).
    layout_fields.
    destruct (Z.geb_spec c' (len (_columns l1))); [lia|].
    rewrite on_live_ok
      by (unfold at_stop; layout_fields; rewrite Hsh1; exact Hs).
    eexists. split; [|split; [|left; split; [reflexivity|]]];
      layout_fields.
    + rewrite tab_shape_alter2 by reflexivity. exact Hsh1.
    + exact Hs.
    + split; [exact Hlt|]. split; [exact Hleast|].
      unfold layout_flags. layout_fields.
      rewrite (flags_alter2 _ (fun _ => true)) by reflexivity.
      f_equal. exact Hfl1.
  - layout_fields.
    destruct (Z.geb_spec (len (_columns l1)) (len (_columns l1))); [|lia].
    destruct (find_next_forward (set_live (set_live l1 (len (_columns l1)) w')
                                   0 (-1)))
      as (c0 & w0 & -> & H0).
    { layout_fields. pose proof (len_nonneg (_columns l1)). lia. }
    { layout_fields. lia. }
    layout_fields. rewrite Hsh1 in H0. cbn [bind].
    destruct H0 as [(Hs0 & _ & Hleast0)|(_ & Hnone0)].
    2:{ exfalso. apply (Hnone0 _ Hat).
        now apply (stops_after_start (_columns l)). }
    eexists. split; [|split; [|right; split; [reflexivity|]]];
      layout_fields.
    + exact Hsh1.
    + exact Hs0.
    + split; [exact Hnone|]. split; [|exact Hfl1].
      intros r Hr. apply Hleast0; [assumption|].
      now apply (stops_after_start (_columns l)).
Qed.

Lemma stops_before_end (columns : list (list Widget)) (column : list Widget)
    (q : Z * Z) :
  columns !! Z.to_nat (len columns - 1) = Some column ->
  stop_at (tab_shape columns) q -> lex2 q (len columns - 1, len column).
Proof.
  intros Hcol Hq. destruct q as [qc qw]. apply stop_at_inv in Hq.
  simpl in Hq. destruct Hq as (Hqc & Hqw & col' & Hcol' & Hs).
  unfold lex2. simpl.
  destruct (Z.eq_dec qc (len columns - 1)) as [->|]; [|lia].
  right. split; [reflexivity|].
  rewrite Hcol in Hcol'. injection Hcol' as <-.
  apply stop_in_range in Hs. lia.
Qed.

(** BACK_TAB inside a Layout: the previous tab stop takes the focus, or the
    Layout hands the key back with its live position on its last tab stop. *)
Lemma Layout_movement_BACK_TAB (Screen : ScreenT) (l : Layout) :
  KEY_TAB Screen <> KEY_BACK_TAB Screen ->
  at_stop l ->
  let p := (_live_col l, _live_widget l) in
  let sh := tab_shape (_columns l) in
  let back_tab := Some (KeyboardEvent (KEY_BACK_TAB Screen)) in
  exists l',
    tab_shape (_columns l') = sh
    /\ stop_at sh (_live_col l', _live_widget l')
    /\ ((Layout_movement Screen l back_tab = Ok (l', None)
         /\ lex2 (_live_col l', _live_widget l') p
         /\ (forall r, stop_at sh r -> lex2 r p ->
                       ~ lex2 (_live_col l', _live_widget l') r)
         /\ layout_flags l'
            = alter2 (fun _ => true) (_live_col l', _live_widget l')
                (alter2 (fun _ => false) p (layout_flags l)))
        \/ (Layout_movement Screen l back_tab = Ok (l', back_tab)
            /\ (forall r, stop_at sh r -> ~ lex2 r p)
            /\ (forall r, stop_at sh r ->
                          ~ lex2 (_live_col l', _live_widget l') r)
            /\ layout_flags l' = alter2 (fun _ => false) p (layout_flags l))).
Proof.
  intros Hne Hat p sh back_tab.
  pose proof (at_stop_bounds l Hat) as (Hc & Hw & Hwl).
  unfold Layout_movement, back_tab.
  destruct (Z.eqb_spec (KEY_BACK_TAB Screen) (KEY_TAB Screen));
    [congruence|].
  rewrite Z.eqb_refl.
  rewrite on_live_ok by exact Hat. cbn [bind].
  remember (set_columns l (alter2 Widget_blur (_live_col l, _live_widget l)
                             (_columns l))) as l1 eqn:El1.
  assert (Hsh1 : tab_shape (_columns l1) = sh).
  { subst l1. layout_fields. now apply tab_shape_alter2. }
  assert (Hfl1 : layout_flags l1 = alter2 (fun _ => false) p (layout_flags l)).
  { subst l1. unfold layout_flags. layout_fields. now apply flags_alter2. }
  assert (Hlen1 : len (_columns l1) = len (_columns l)).
  { subst l1. layout_fields. apply len_alter2. }
  assert (Hlc1 : _live_col l1 = _live_col l) by now subst l1.
  assert (Hlw1 : _live_widget l1 = _live_widget l) by now subst l1.
  assert (Hwl1 : forall column,
             _columns l1 !! Z.to_nat (_live_col l1) = Some column ->
             _live_widget l1 <= len column).
  { intros column Hcol.
    assert (Hs1 : at_stop l1).
    { unfold at_stop. rewrite Hsh1, Hlc1, Hlw1. exact Hat. }
    apply at_stop_bounds in Hs1. destruct Hs1 as (_ & _ & Hb).
    specialize (Hb column Hcol). lia. }
  clear El1.
  destruct (find_next_backward l1) as (c' & w' & -> & H); [lia|auto|].
  rewrite Hsh1, Hlc1, Hlw1 in H. cbn [bind].
  destruct H as [(Hs & Hlt & Hgreatest)|(-> & Hnone)].
  - pose proof Hs as Hs'. rewrite <- Hsh1 in Hs'.
    apply stop_at_inv in Hs'. simpl in Hs'. destruct Hs' as (Hc' & _).
    layout_fields.
    destruct (Z.ltb_spec c' 0); [lia|].
    rewrite on_live_ok
      by (unfold at_stop; layout_fields; rewrite Hsh1; exact Hs).
    eexists. split; [|split; [|left; split; [reflexivity|]]];
      layout_fields.
    + rewrite tab_shape_alter2 by reflexivity. exact Hsh1.
    + exact Hs.
    + split; [exact Hlt|]. split; [exact Hgreatest|].
      unfold layout_flags. layout_fields.
      rewrite (flags_alter2 _ (fun _ => true)) by reflexivity.
      f_equal. exact Hfl1.
  - layout_fields.
    destruct (Z.ltb_spec (-1) 0); [|lia].
    destruct (py_getitem_in_range (_columns l1) (len (_columns l1) - 1))
      as (column & Hcol & ->); [lia|]. cbn [bind].
    destruct (find_next_backward
                (set_live (set_live l1 (-1) w') (len (_columns l1) - 1)
                   (len column)))
      as (c0 & w0 & -> & H0).
    { layout_fields. lia. }
    { layout_fields. intros col' _ Hcol'. rewrite Hcol in Hcol'.
      injection Hcol' as <-. lia. }
    layout_fields. cbn [bind].
    assert (Hall : forall q, stop_at sh q ->
                     lex2 q (len (_columns l1) - 1, len column)).
    { intros q Hq. rewrite <- Hsh1 in Hq.
      now apply (stops_before_end (_columns l1)). }
    rewrite Hsh1 in H0.
    destruct H0 as [(Hs0 & _ & Hgreatest0)|(_ & Hnone0)].
    2:{ exfalso. apply (Hnone0 _ Hat). now apply Hall. }
    eexists. split; [|split; [|right; split; [reflexivity|]]];
      layout_fields.
    + exact Hsh1.
    + exact Hs0.
    + split; [exact Hnone|]. split; [|exact Hfl1].
      intros r Hr. apply Hgreatest0; [assumption|]. now apply Hall.
Qed.

(** ** The flags of a Frame *)

Lemma clear_alter2 (g : bool -> bool) (p : Z * Z) (sh : list (list bool)) :
  alter2 (fun _ => false) p (alter2 g p (clear_layout sh)) = clear_layout sh.
Proof.
  unfold alter2. rewrite list_alter_alter_eq. apply alter_same.
  intros col Hcol. simpl. rewrite list_alter_alter_eq. apply alter_same.
  intros b Hb. simpl. unfold clear_layout in Hcol.
  rewrite list_lookup_fmap in Hcol.
  destruct (sh !! Z.to_nat p.1) as [col0|]; [|discriminate].
  injection Hcol as <-. unfold clear_column in Hb.
  rewrite list_lookup_fmap in Hb.
  destruct (col0 !! Z.to_nat p.2); [|discriminate]. now injection Hb.
Qed.

Lemma clear_alter2_false (p : Z * Z) (sh : list (list bool)) :
  alter2 (fun _ => false) p (clear_layout sh) = clear_layout sh.
Proof.
  rewrite <- (clear_alter2 id p sh) at 2. f_equal.
  unfold alter2. symmetry. apply alter_same. intros col _.
  apply alter_same. reflexivity.
Qed.

Lemma one_flag_lookup (shape : list (list (list bool))) (i c w : Z)
    (sh : list (list bool)) :
  shape !! Z.to_nat i = Some sh ->
  one_flag shape (i, c, w) !! Z.to_nat i
  = Some (alter2 (fun _ => true) (c, w) (clear_layout sh)).
Proof.
  intros Hsh. unfold one_flag, alter3, no_flags. simpl.
  now rewrite list_lookup_alter_eq, list_lookup_fmap, Hsh.
Qed.

Lemma one_flag_lookup_ne (shape : list (list (list bool))) (i c w : Z)
    (j : nat) :
  Z.to_nat i <> j ->
  one_flag shape (i, c, w) !! j = no_flags shape !! j.
Proof.
  intros Hne. unfold one_flag, alter3. simpl.
  now rewrite list_lookup_alter_ne.
Qed.

Lemma no_flags_lookup (shape : list (list (list bool))) (j : nat)
    (sh : list (list bool)) :
  shape !! j = Some sh -> no_flags shape !! j = Some (clear_layout sh).
Proof. intros H. unfold no_flags. now rewrite list_lookup_fmap, H. Qed.

Lemma insert_no_flags (shape : list (list (list bool))) (j c w : Z)
    (sh : list (list bool)) :
  shape !! Z.to_nat j = Some sh ->
  <[Z.to_nat j:=alter2 (fun _ => true) (c, w) (clear_layout sh)]>
    (no_flags shape)
  = one_flag shape (j, c, w).
Proof.
  intros Hsh. unfold one_flag, alter3. simpl.
  rewrite list_insert_alter. apply list_alter_ext; [|reflexivity].
  intros x Hx. rewrite (no_flags_lookup _ _ _ Hsh) in Hx. congruence.
Qed.

Lemma insert_one_flag (shape : list (list (list bool))) (i c w : Z)
    (x : list (list bool)) :
  <[Z.to_nat i:=x]> (one_flag shape (i, c, w))
  = <[Z.to_nat i:=x]> (no_flags shape).
Proof.
  unfold one_flag, alter3. simpl. rewrite !list_insert_alter.
  rewrite list_alter_alter_eq. reflexivity.
Qed.

Lemma insert_clear (shape : list (list (list bool))) (j : nat)
    (sh : list (list bool)) :
  shape !! j = Some sh -> <[j:=clear_layout sh]> (no_flags shape)
                          = no_flags shape.
Proof. intros H. apply list_insert_id. now apply no_flags_lookup. Qed.

(** ** Replacing a Layout of the Frame *)

Lemma frame_shape_insert (f : Frame) (n : nat) (l' : Layout)
    (sh : list (list bool)) :
  frame_shape f !! n = Some sh -> tab_shape (_columns l') = sh ->
  frame_shape (set_layouts f (<[n:=l']> (_layouts f))) = frame_shape f.
Proof.
  intros Hsh Hl'. unfold frame_shape. cbn [set_layouts _layouts].
  rewrite list_fmap_insert, Hl'. now apply list_insert_id.
Qed.

Lemma focus_flags_insert (f : Frame) (n : nat) (l' : Layout) :
  focus_flags (set_layouts f (<[n:=l']> (_layouts f)))
  = <[n:=layout_flags l']> (focus_flags f).
Proof.
  unfold focus_flags. cbn [set_layouts _layouts].
  apply list_fmap_insert.
Qed.

Lemma frame_shape_lookup (f : Frame) (n : nat) (sh : list (list bool)) :
  frame_shape f !! n = Some sh ->
  exists l, _layouts f !! n = Some l /\ tab_shape (_columns l) = sh.
Proof.
  unfold frame_shape. rewrite list_lookup_fmap.
  destruct (_layouts f !! n) as [l|]; [|discriminate].
  intros [= <-]. eauto.
Qed.

Lemma focus_flags_lookup (f : Frame) (n : nat) (l : Layout) :
  _layouts f !! n = Some l -> focus_flags f !! n = Some (layout_flags l).
Proof.
  intros H. unfold focus_flags. now rewrite list_lookup_fmap, H.
Qed.

Lemma on_layout_ok (f : Frame) (i : Z) (m : Layout -> result Layout)
    (l l' : Layout) :
  0 <= i -> _layouts f !! Z.to_nat i = Some l -> m l = Ok l' ->
  on_layout f i m
  = Ok (set_layouts f (<[Z.to_nat i:=l']> (_layouts f))).
Proof.
  intros Hi Hl Hm. unfold on_layout.
  rewrite (py_getitem_ok _ i l) by assumption. cbn [bind].
  rewrite Hm. cbn [bind].
  rewrite py_setitem_ok
    by (split; [lia|apply (lookup_len _ _ l); [lia|assumption]]).
  reflexivity.
Qed.

(** ** The cyclic order of the tab stops of a Frame *)

Lemma frame_stop_inv (shape : list (list (list bool))) (j c w : Z) :
  frame_stop shape (j, c, w) ->
  0 <= j < len shape
  /\ exists sh, shape !! Z.to_nat j = Some sh /\ stop_at sh (c, w).
Proof.
  intros (Hj & sh & Hsh & Hs). simpl in *.
  split; [|eauto]. split; [assumption|eauto using lookup_len].
Qed.

Lemma frame_stop_intro (shape : list (list (list bool))) (j c w : Z)
    (sh : list (list bool)) :
  0 <= j -> shape !! Z.to_nat j = Some sh -> stop_at sh (c, w) ->
  frame_stop shape (j, c, w).
Proof. intros Hj Hsh Hs. split; [assumption|]. simpl. eauto. Qed.

Ltac same_layout Hsh Hr :=
  let sh' := fresh "sh" in
  let Hsh' := fresh "Hsh" in
  apply frame_stop_inv in Hr; destruct Hr as (? & sh' & Hsh' & Hr);
  try (rewrite Hsh in Hsh'; injection Hsh' as <-).

(** A step inside one Layout. *)
Lemma next_stop_inside (shape : list (list (list bool))) (i : Z)
    (sh : list (list bool)) (p q : Z * Z) :
  0 <= i -> shape !! Z.to_nat i = Some sh ->
  stop_at sh q -> lex2 p q ->
  (forall r, stop_at sh r -> lex2 p r -> ~ lex2 r q) ->
  next_stop shape (i, p.1, p.2) (i, q.1, q.2).
Proof.
  intros Hi Hsh Hq Hlt Hbetween. destruct p as [c w], q as [c' w'].
  split; [now apply (frame_stop_intro shape i c' w' sh)|].
  left. split; [right; split; [reflexivity|exact Hlt]|].
  intros [[rj rc] rw] Hr H1 H2. unfold lex3 in H1, H2. simpl in H1, H2.
  assert (rj = i) as -> by lia.
  same_layout Hsh Hr.
  destruct H1 as [H1|[_ H1]]; [lia|]. destruct H2 as [H2|[_ H2]]; [lia|].
  now apply (Hbetween (rc, rw) Hr).
Qed.

(** A step from the last tab stop of a Layout to the first tab stop of the
    next Layout, the first Layout coming after the last. *)
Lemma next_stop_across (shape : list (list (list bool))) (i : Z)
    (sh sh' : list (list bool)) (p q : Z * Z) :
  0 <= i < len shape -> shape !! Z.to_nat i = Some sh ->
  let j := if i + 1 >=? len shape then 0 else i + 1 in
  shape !! Z.to_nat j = Some sh' ->
  (forall r, stop_at sh r -> ~ lex2 p r) ->
  stop_at sh' q ->
  (forall r, stop_at sh' r -> ~ lex2 r q) ->
  next_stop shape (i, p.1, p.2) (j, q.1, q.2).
Proof.
  intros Hi Hsh j Hsh' Hlast Hq Hfirst. destruct p as [c w], q as [c' w'].
  assert (Hj : 0 <= j) by (subst j; destruct (_ >=? _); lia).
  split; [now apply (frame_stop_intro shape j c' w' sh')|].
  subst j. destruct (Z.geb_spec (i + 1) (len shape)).
  - right. split.
    + intros [[rj rc] rw] Hr H1. unfold lex3 in H1. simpl in H1.
      pose proof (frame_stop_inv _ _ _ _ Hr) as (Hrj & _).
      assert (rj = i) as -> by lia.
      same_layout Hsh Hr. destruct H1 as [H1|[_ H1]]; [lia|].
      now apply (Hlast (rc, rw) Hr).
    + intros [[rj rc] rw] Hr H1. unfold lex3 in H1. simpl in H1.
      pose proof (frame_stop_inv _ _ _ _ Hr) as (Hrj & _).
      assert (rj = 0) as -> by lia.
      same_layout Hsh' Hr. destruct H1 as [H1|[_ H1]]; [lia|].
      now apply (Hfirst (rc, rw) Hr).
  - left. split; [left; simpl; lia|].
    intros [[rj rc] rw] Hr H1 H2. unfold lex3 in H1, H2. simpl in H1, H2.
    destruct (Z.eq_dec rj i) as [->|].
    + same_layout Hsh Hr. destruct H1 as [H1|[_ H1]]; [lia|].
      now apply (Hlast (rc, rw) Hr).
    + assert (rj = i + 1) as -> by lia.
      same_layout Hsh' Hr. destruct H2 as [H2|[_ H2]]; [lia|].
      now apply (Hfirst (rc, rw) Hr).
Qed.

(** ** The focus state of a Frame *)

Lemma Focused_inv (f : Frame) (i c w : Z) :
  Focused f (i, c, w) ->
  0 <= i < len (_layouts f) /\ _focus f = i
  /\ exists l,
       _layouts f !! Z.to_nat i = Some l
       /\ _live_col l = c /\ _live_widget l = w /\ at_stop l
       /\ frame_shape f !! Z.to_nat i = Some (tab_shape (_columns l))
       /\ layout_flags l
          = alter2 (fun _ => true) (c, w)
              (clear_layout (tab_shape (_columns l))).
Proof.
  intros (Hstop & Hcur & Hfl).
  apply frame_stop_inv in Hstop. destruct Hstop as (Hi & sh & Hsh & Hs).
  destruct (frame_shape_lookup f _ sh Hsh) as (l & Hl & Hshl).
  unfold cursor in Hcur.
  destruct (py_getitem (_layouts f) (_focus f)) as [l0|] eqn:Hget;
    [|discriminate].
  cbn [bind] in Hcur. injection Hcur as Hfocus Hc Hw.
  rewrite Hfocus in Hget.
  rewrite (py_getitem_ok _ i l) in Hget by (lia || assumption).
  injection Hget as <-.
  split; [split; [lia|apply (lookup_len _ _ l); [lia|assumption]]|].
  split; [assumption|].
  exists l. split; [assumption|]. split; [assumption|].
  split; [assumption|]. split; [|split].
  - unfold at_stop. now rewrite Hshl, Hc, Hw.
  - now rewrite Hshl.
  - pose proof (focus_flags_lookup f _ l Hl) as Hfl'.
    rewrite Hfl, (one_flag_lookup _ _ _ _ sh Hsh) in Hfl'.
    rewrite Hshl. congruence.
Qed.

Lemma Focused_intro (f : Frame) (l : Layout) :
  0 <= _focus f -> _layouts f !! Z.to_nat (_focus f) = Some l ->
  at_stop l ->
  focus_flags f
  = one_flag (frame_shape f) (_focus f, _live_col l, _live_widget l) ->
  Focused f (_focus f, _live_col l, _live_widget l).
Proof.
  intros Hi Hl Hat Hfl. split; [|split; [|assumption]].
  - apply (frame_stop_intro _ _ _ _ (tab_shape (_columns l)));
      [assumption| |exact Hat].
    unfold frame_shape. now rewrite list_lookup_fmap, Hl.
  - unfold cursor. now rewrite (py_getitem_ok _ _ l).
Qed.

(** A widget that does not handle the event leaves the Layout to its
    movement keys. *)
Lemma Layout_first_refusal (Screen : ScreenT) (l : Layout) (event : Event) :
  at_stop l ->
  (forall wd, handled Screen wd event = false) ->
  Layout_process_event Screen l event
  = Layout_movement Screen l (Some event).
Proof.
  intros Hat Hno. unfold Layout_process_event.
  destruct (widget_at_stop _ _ _ Hat) as (wd & -> & Hsame). cbn [bind].
  assert (process_event Screen wd event = Ok (wd, Some event)) as ->.
  { specialize (Hno wd). unfold handled in Hno. unfold process_event.
    destruct (variant wd);
      [reflexivity|reflexivity|now apply Text_not_handled
      |now apply (CheckBox_not_handled Screen)
      |now apply RadioButtons_not_handled|now apply TextBox_not_handled]. }
  cbn [bind].
  rewrite on_live_ok by exact Hat. rewrite Hsame, set_columns_same.
  reflexivity.
Qed.

Lemma py_setitem_layouts (f : Frame) (i : Z) (l l' : Layout) :
  0 <= i -> _layouts f !! Z.to_nat i = Some l ->
  py_setitem (_layouts f) i l' = Ok (<[Z.to_nat i:=l']> (_layouts f)).
Proof.
  intros Hi Hl. apply py_setitem_ok.
  split; [lia|apply (lookup_len _ _ l); [lia|assumption]].
Qed.

Ltac frame_fields :=
  cbn [set_layouts set_focus _layouts _focus _canvas] in *.

(** The Frame takes the focus from the Layout it points to. *)
Lemma Frame_blur_layout (f : Frame) (l : Layout) :
  0 <= _focus f -> _layouts f !! Z.to_nat (_focus f) = Some l ->
  at_stop l ->
  focus_flags f = no_flags (frame_shape f) ->
  exists f',
    on_layout f (_focus f) Layout_blur = Ok f'
    /\ frame_shape f' = frame_shape f
    /\ focus_flags f' = no_flags (frame_shape f)
    /\ _focus f' = _focus f
    /\ len (_layouts f') = len (_layouts f).
Proof.
  intros Hi Hl Hat Hfl.
  destruct (Layout_blur_spec l Hat) as (l' & Hblur & Hsh & _ & _ & Hfl').
  rewrite (on_layout_ok f _ _ l l' Hi Hl Hblur).
  assert (Hshl : frame_shape f !! Z.to_nat (_focus f)
                 = Some (tab_shape (_columns l))).
  { unfold frame_shape. now rewrite list_lookup_fmap, Hl. }
  eexists. split; [reflexivity|]. split; [|split; [|split]].
  - now apply (frame_shape_insert f _ l' _ Hshl).
  - rewrite focus_flags_insert, Hfl', Hfl.
    pose proof (focus_flags_lookup f _ l Hl) as Hfll.
    rewrite Hfl, (no_flags_lookup _ _ _ Hshl) in Hfll.
    injection Hfll as <-. rewrite clear_alter2_false.
    now apply insert_clear.
  - reflexivity.
  - frame_fields. unfold len. now rewrite length_insert.
Qed.

(** The Frame gives the focus to the Layout it points to, on its first tab
    stop ([first = true]) or on its last one. *)
Lemma Frame_focus_layout (first : bool) (f : Frame) :
  shape_ok (frame_shape f) ->
  0 <= _focus f < len (_layouts f) ->
  focus_flags f = no_flags (frame_shape f) ->
  exists f' sh q,
    on_layout f (_focus f) (fun l => Layout_focus l first (negb first))
    = Ok f'
    /\ frame_shape f' = frame_shape f
    /\ frame_shape f !! Z.to_nat (_focus f) = Some sh
    /\ stop_at sh q
    /\ (forall r, stop_at sh r ->
                  if first then ~ lex2 r q else ~ lex2 q r)
    /\ Focused f' (_focus f, q.1, q.2).
Proof.
  intros Hok Hi Hfl.
  destruct (lookup_lt_is_Some_2 (_layouts f) (Z.to_nat (_focus f)))
    as (l & Hl); [unfold len in Hi; lia|].
  assert (Hshl : frame_shape f !! Z.to_nat (_focus f)
                 = Some (tab_shape (_columns l))).
  { unfold frame_shape. now rewrite list_lookup_fmap, Hl. }
  pose proof (Hok _ _ Hshl) as Hstop.
  assert (Hfll : layout_flags l = clear_layout (tab_shape (_columns l))).
  { pose proof (focus_flags_lookup f _ l Hl) as Hfll.
    rewrite Hfl, (no_flags_lookup _ _ _ Hshl) in Hfll. congruence. }
  assert (exists l',
            Layout_focus l first (negb first) = Ok l'
            /\ tab_shape (_columns l') = tab_shape (_columns l)
            /\ stop_at (tab_shape (_columns l)) (_live_col l', _live_widget l')
            /\ (forall r, stop_at (tab_shape (_columns l)) r ->
                  if first then ~ lex2 r (_live_col l', _live_widget l')
                  else ~ lex2 (_live_col l', _live_widget l') r)
            /\ layout_flags l'
               = alter2 (fun _ => true) (_live_col l', _live_widget l')
                   (layout_flags l))
    as (l' & Hfocus & Hsh' & Hs' & Hext & Hfl').
  { destruct first; [apply Layout_focus_first|apply Layout_focus_last];
      exact Hstop. }
  rewrite (on_layout_ok f _ _ l l' (proj1 Hi) Hl Hfocus).
  pose proof (frame_shape_insert f _ l' _ Hshl Hsh') as Hshape.
  exists (set_layouts f (<[Z.to_nat (_focus f):=l']> (_layouts f))),
    (tab_shape (_columns l)), (_live_col l', _live_widget l').
  split; [reflexivity|]. split; [exact Hshape|]. split; [exact Hshl|].
  split; [exact Hs'|]. split; [exact Hext|].
  apply (Focused_intro
           (set_layouts f (<[Z.to_nat (_focus f):=l']> (_layouts f))) l').
  - frame_fields. lia.
  - frame_fields. apply list_lookup_insert_eq. unfold len in Hi. lia.
  - unfold at_stop. rewrite Hsh'. exact Hs'.
  - rewrite Hshape, focus_flags_insert, Hfl', Hfll, Hfl. frame_fields.
    now apply insert_no_flags.
Qed.

Lemma len_frame_shape (f : Frame) : len (frame_shape f) = len (_layouts f).
Proof. unfold len, frame_shape. now rewrite length_fmap. Qed.

(** TAB on a Frame: the focus moves to the next tab stop of the Frame. *)
Lemma Frame_TAB (Screen : ScreenT) (f : Frame) (p : Z * Z * Z) :
  Screen_ok Screen = true ->
  shape_ok (frame_shape f) ->
  Focused f p ->
  exists f' q,
    Frame_process_event Screen f (KeyboardEvent (KEY_TAB Screen))
    = Ok (f', None)
    /\ frame_shape f' = frame_shape f
    /\ Focused f' q
    /\ next_stop (frame_shape f) p q.
Proof.
  intros HS Hok HF. destruct p as [[i c] w].
  pose proof (Focused_inv f i c w HF)
    as (Hi & Hfocus & l & Hl & Hc & Hw & Hat & Hshl & Hfll).
  pose proof HF as (_ & _ & Hfl). subst c w.
  apply Screen_ok_traversal in HS. destruct HS as (Hne & Hno).
  unfold Frame_process_event. rewrite Hfocus.
  rewrite (py_getitem_ok _ i l) by (lia || assumption). cbn [bind].
  rewrite Layout_first_refusal by (assumption || apply Hno).
  destruct (Layout_movement_TAB Screen l Hat)
    as (l' & Hsh' & Hs' & [(E & Hlt & Hleast & Hfl')
                          |(E & Hlast & Hfirst & Hfl')]);
    rewrite E; cbn [bind];
    rewrite (py_setitem_layouts f i l l') by (lia || assumption);
    cbn [bind];
    pose proof (frame_shape_insert f _ l' _ Hshl Hsh') as Hshape;
    set (f1 := set_layouts f (<[Z.to_nat i:=l']> (_layouts f))) in *;
    assert (Hl1 : _layouts f1 !! Z.to_nat i = Some l')
      by (unfold f1; frame_fields; apply list_lookup_insert_eq;
          unfold len in Hi; lia);
    assert (Hat' : at_stop l') by (unfold at_stop; rewrite Hsh'; exact Hs');
    assert (Hfocus1 : _focus f1 = i) by exact Hfocus.
  - exists f1, (i, _live_col l', _live_widget l').
    split; [reflexivity|]. split; [exact Hshape|]. split.
    + rewrite <- Hfocus1. apply (Focused_intro f1 l').
      * lia.
      * now rewrite Hfocus1.
      * exact Hat'.
      * rewrite Hshape, Hfocus1. unfold f1.
        rewrite focus_flags_insert, Hfl', Hfll, clear_alter2, Hfl.
        rewrite insert_one_flag. now apply insert_no_flags.
    + apply (next_stop_inside (frame_shape f) i (tab_shape (_columns l))
               (_live_col l, _live_widget l)
               (_live_col l', _live_widget l')); try assumption. lia.
  - unfold Frame_movement. rewrite Z.eqb_refl.
    destruct (Frame_blur_layout f1 l')
      as (f2 & -> & Hshape2 & Hfl2 & Hfocus2 & Hlen2).
    { lia. }
    { now rewrite Hfocus1. }
    { exact Hat'. }
    { rewrite Hshape. unfold f1.
      rewrite focus_flags_insert, Hfl', Hfll, clear_alter2, Hfl.
      rewrite insert_one_flag. now apply insert_clear. }
    cbn [bind]. rewrite Hfocus2, Hfocus1, Hlen2.
    assert (Hlen1 : len (_layouts f1) = len (_layouts f)).
    { unfold f1. frame_fields. unfold len. now rewrite length_insert. }
    rewrite Hlen1.
    set (j := if i + 1 >=? len (_layouts f) then 0 else i + 1).
    assert (Hj : 0 <= j < len (_layouts f)).
    { subst j. destruct (Z.geb_spec (i + 1) (len (_layouts f))); lia. }
    destruct (Frame_focus_layout true (set_focus f2 j))
      as (f3 & sh' & q & E3 & Hshape3 & Hshj & Hq & Hfirst' & HF3).
    { change (frame_shape (set_focus f2 j)) with (frame_shape f2).
      now rewrite Hshape2, Hshape. }
    { frame_fields. lia. }
    { change (frame_shape (set_focus f2 j)) with (frame_shape f2).
      change (focus_flags (set_focus f2 j)) with (focus_flags f2).
      now rewrite Hshape2. }
    cbn [negb] in E3. rewrite E3. cbn [bind].
    change (frame_shape (set_focus f2 j)) with (frame_shape f2)
      in Hshape3, Hshj.
    change (_focus (set_focus f2 j)) with j in HF3, Hshj.
    rewrite Hshape2, Hshape in Hshape3, Hshj.
    exists f3, (j, q.1, q.2).
    split; [reflexivity|]. split; [exact Hshape3|]. split; [exact HF3|].
    subst j. rewrite <- len_frame_shape in *.
    apply (next_stop_across (frame_shape f) i (tab_shape (_columns l)) sh'
             (_live_col l, _live_widget l) q); assumption.
Qed.

(** BACK_TAB on a Frame: the focus moves to the tab stop before. *)
Lemma Frame_BACK_TAB (Screen : ScreenT) (f : Frame) (p : Z * Z * Z) :
  Screen_ok Screen = true ->
  shape_ok (frame_shape f) ->
  Focused f p ->
  exists f' q,
    Frame_process_event Screen f (KeyboardEvent (KEY_BACK_TAB Screen))
    = Ok (f', None)
    /\ frame_shape f' = frame_shape f
    /\ Focused f' q
    /\ next_stop (frame_shape f) q p.
Proof.
  intros HS Hok HF. destruct p as [[i c] w].
  pose proof (Focused_inv f i c w HF)
    as (Hi & Hfocus & l & Hl & Hc & Hw & Hat & Hshl & Hfll).
  pose proof HF as (_ & _ & Hfl). subst c w.
  apply Screen_ok_traversal in HS. destruct HS as (Hne & Hno).
  unfold Frame_process_event. rewrite Hfocus.
  rewrite (py_getitem_ok _ i l) by (lia || assumption). cbn [bind].
  rewrite Layout_first_refusal by (assumption || apply Hno).
  destruct (Layout_movement_BACK_TAB Screen l Hne Hat)
    as (l' & Hsh' & Hs' & [(E & Hlt & Hgreatest & Hfl')
                          |(E & Hfirst & Hlast & Hfl')]);
    rewrite E; cbn [bind];
    rewrite (py_setitem_layouts f i l l') by (lia || assumption);
    cbn [bind];
    pose proof (frame_shape_insert f _ l' _ Hshl Hsh') as Hshape;
    set (f1 := set_layouts f (<[Z.to_nat i:=l']> (_layouts f))) in *;
    assert (Hl1 : _layouts f1 !! Z.to_nat i = Some l')
      by (unfold f1; frame_fields; apply list_lookup_insert_eq;
          unfold len in Hi; lia);
    assert (Hat' : at_stop l') by (unfold at_stop; rewrite Hsh'; exact Hs');
    assert (Hfocus1 : _focus f1 = i) by exact Hfocus.
  - exists f1, (i, _live_col l', _live_widget l').
    split; [reflexivity|]. split; [exact Hshape|]. split.
    + rewrite <- Hfocus1. apply (Focused_intro f1 l').
      * lia.
      * now rewrite Hfocus1.
      * exact Hat'.
      * rewrite Hshape, Hfocus1. unfold f1.
        rewrite focus_flags_insert, Hfl', Hfll, clear_alter2, Hfl.
        rewrite insert_one_flag. now apply insert_no_flags.
    + apply (next_stop_inside (frame_shape f) i (tab_shape (_columns l))
               (_live_col l', _live_widget l')
               (_live_col l, _live_widget l)); try assumption; [lia|].
      intros r Hr H1 H2. now apply (Hgreatest r Hr H2).
  - unfold Frame_movement.
    destruct (Z.eqb_spec (KEY_BACK_TAB Screen) (KEY_TAB Screen));
      [congruence|].
    rewrite Z.eqb_refl.
    destruct (Frame_blur_layout f1 l')
      as (f2 & -> & Hshape2 & Hfl2 & Hfocus2 & Hlen2).
    { lia. }
    { now rewrite Hfocus1. }
    { exact Hat'. }
    { rewrite Hshape. unfold f1.
      rewrite focus_flags_insert, Hfl', Hfll, clear_alter2, Hfl.
      rewrite insert_one_flag. now apply insert_clear. }
    cbn [bind]. rewrite Hfocus2, Hfocus1, Hlen2.
    assert (Hlen1 : len (_layouts f1) = len (_layouts f)).
    { unfold f1. frame_fields. unfold len. now rewrite length_insert. }
    rewrite Hlen1.
    set (j := if i - 1 <? 0 then len (_layouts f) - 1 else i - 1).
    assert (Hj : 0 <= j < len (_layouts f)).
    { subst j. destruct (Z.ltb_spec (i - 1) 0); lia. }
    assert (Hj' : (if j + 1 >=? len (frame_shape f) then 0 else j + 1) = i).
    { rewrite len_frame_shape. subst j.
      destruct (Z.ltb_spec (i - 1) 0);
        match goal with
        | |- context [?a >=? ?b] => destruct (Z.geb_spec a b)
        end; lia. }
    destruct (Frame_focus_layout false (set_focus f2 j))
      as (f3 & sh' & q & E3 & Hshape3 & Hshj & Hq & Hlast' & HF3).
    { change (frame_shape (set_focus f2 j)) with (frame_shape f2).
      now rewrite Hshape2, Hshape. }
    { frame_fields. lia. }
    { change (frame_shape (set_focus f2 j)) with (frame_shape f2).
      change (focus_flags (set_focus f2 j)) with (focus_flags f2).
      now rewrite Hshape2. }
    cbn [negb] in E3. rewrite E3. cbn [bind].
    change (frame_shape (set_focus f2 j)) with (frame_shape f2)
      in Hshape3, Hshj.
    change (_focus (set_focus f2 j)) with j in HF3, Hshj.
    rewrite Hshape2, Hshape in Hshape3, Hshj.
    exists f3, (j, q.1, q.2).
    split; [reflexivity|]. split; [exact Hshape3|]. split; [exact HF3|].
    pose proof (next_stop_across (frame_shape f) j sh'
                  (tab_shape (_columns l)) q
                  (_live_col l, _live_widget l)) as Hnext.
    cbv zeta in Hnext. rewrite Hj' in Hnext.
    rewrite len_frame_shape in Hnext.
    now apply Hnext.
Qed.

(** ** Any event leaves the base attributes of a widget alone *)

Ltac result_inv H :=
  repeat match type of H with
    | bind ?m _ = Ok _ =>
        let E := fresh "E" in
        destruct m eqn:E; cbn [bind] in H; [|discriminate H]
    | (if ?b then _ else _) = Ok _ => destruct b
    | match ?x with (_, _) => _ end = Ok _ => destruct x
    | Raise _ = Ok _ => discriminate H
    end.

Lemma process_event_result (Screen : ScreenT) (wd wd' : Widget)
    (event : Event) (back : option Event) :
  process_event Screen wd event = Ok (wd', back) ->
  is_tab_stop wd' = is_tab_stop wd /\ _has_focus wd' = _has_focus wd
  /\ (back = None \/ back = Some event).
Proof.
  unfold process_event. intros H.
  destruct (variant wd);
    [unfold Label_process_event in H
    |unfold Divider_process_event in H
    |unfold Text_process_event in H
    |unfold CheckBox_process_event in H
    |unfold RadioButtons_process_event in H
    |unfold TextBox_process_event in H];
    destruct event; result_inv H;
    injection H as <- <-; auto.
Qed.

(** ** Events other than TAB and BACK_TAB *)

Lemma find_next_stay (l : Layout) (d : Z) :
  d = 1 \/ d = -1 -> at_stop l ->
  exists w',
    _find_next_widget l d true = Ok (set_live l (_live_col l) w')
    /\ stop_at (tab_shape (_columns l)) (_live_col l, w').
Proof.
  intros Hd Hat. pose proof (at_stop_bounds l Hat) as (Hc & Hw & Hwl).
  unfold _find_next_widget.
  destruct (find_stay (_columns l) (_live_widget l) d (length (_columns l))
              (_live_col l) (_live_widget l) Hd Hc)
    as (w' & -> & Hres).
  { intros column Hcol. specialize (Hwl column Hcol). lia. }
  cbn [bind]. exists w'. split; [reflexivity|].
  destruct Hres as [Hs| ->]; [exact Hs|exact Hat].
Qed.

(** Up and Down inside a Layout: the focus moves inside the column, or
    stays. *)
Lemma Layout_move_in_column (l : Layout) (d : Z) :
  d = 1 \/ d = -1 -> at_stop l ->
  exists l',
    (let* self := on_live l Widget_blur in
     let* self := _find_next_widget self d true in
     let* self := on_live self Widget_focus in
     Ok (self, @None Event)) = Ok (l', None)
    /\ tab_shape (_columns l') = tab_shape (_columns l)
    /\ at_stop l'
    /\ layout_flags l'
       = alter2 (fun _ => true) (_live_col l', _live_widget l')
           (alter2 (fun _ => false) (_live_col l, _live_widget l)
              (layout_flags l)).
Proof.
  intros Hd Hat. rewrite on_live_ok by exact Hat. cbn [bind].
  remember (set_columns l (alter2 Widget_blur (_live_col l, _live_widget l)
                             (_columns l))) as l1 eqn:El1.
  assert (Hsh1 : tab_shape (_columns l1) = tab_shape (_columns l)).
  { subst l1. layout_fields. now apply tab_shape_alter2. }
  assert (Hfl1 : layout_flags l1
                 = alter2 (fun _ => false) (_live_col l, _live_widget l)
                     (layout_flags l)).
  { subst l1. unfold layout_flags. layout_fields. now apply flags_alter2. }
  assert (Hat1 : at_stop l1).
  { subst l1. unfold at_stop in *. layout_fields.
    now rewrite tab_shape_alter2. }
  clear El1.
  destruct (find_next_stay l1 d Hd Hat1) as (w' & -> & Hs). cbn [bind].
  rewrite on_live_ok by (unfold at_stop; layout_fields; exact Hs).
  cbn [bind]. eexists. split; [reflexivity|]. layout_fields.
  split; [|split].
  - rewrite tab_shape_alter2 by reflexivity. exact Hsh1.
  - unfold at_stop. layout_fields.
    rewrite tab_shape_alter2 by reflexivity. exact Hs.
  - unfold layout_flags. layout_fields.
    rewrite (flags_alter2 _ (fun _ => true)) by reflexivity.
    f_equal. exact Hfl1.
Qed.

Lemma Layout_movement_other (Screen : ScreenT) (l : Layout) (event : Event)
    (back : option Event) :
  at_stop l -> traversal Screen event = false ->
  back = None \/ back = Some event ->
  exists l' back',
    Layout_movement Screen l back = Ok (l', back')
    /\ (back' = None \/ back' = Some event)
    /\ tab_shape (_columns l') = tab_shape (_columns l)
    /\ at_stop l'
    /\ (layout_flags l'
        = alter2 (fun _ => true) (_live_col l', _live_widget l')
            (alter2 (fun _ => false) (_live_col l, _live_widget l)
               (layout_flags l))
        \/ (layout_flags l' = layout_flags l
            /\ _live_col l' = _live_col l
            /\ _live_widget l' = _live_widget l)).
Proof.
  intros Hat Htr Hback.
  assert (Hsame : exists l' back',
             Ok (l, back) = Ok (l', back')
             /\ (back' = None \/ back' = Some event)
             /\ tab_shape (_columns l') = tab_shape (_columns l)
             /\ at_stop l'
             /\ (layout_flags l'
                 = alter2 (fun _ => true) (_live_col l', _live_widget l')
                     (alter2 (fun _ => false) (_live_col l, _live_widget l)
                        (layout_flags l))
                 \/ (layout_flags l' = layout_flags l
                     /\ _live_col l' = _live_col l
                     /\ _live_widget l' = _live_widget l))).
  { exists l, back. auto 10. }
  destruct Hback as [-> | ->]; [exact Hsame|].
  destruct event as [k|tag]; [|exact Hsame].
  unfold Layout_movement. simpl in Htr.
  apply orb_false_iff in Htr. destruct Htr as [-> ->].
  destruct (Z.eqb_spec k (KEY_DOWN Screen)).
  { destruct (Layout_move_in_column l 1) as (l' & -> & H); auto.
    exists l', None. intuition. }
  destruct (Z.eqb_spec k (KEY_UP Screen)); [|exact Hsame].
  destruct (Layout_move_in_column l (-1)) as (l' & -> & H); auto.
  exists l', None. intuition.
Qed.

Lemma replace_widget_same (columns : list (list Widget)) (c w : Z)
    (wd wd' : Widget) :
  0 <= c -> 0 <= w ->
  widget_at columns c w = Ok wd ->
  is_tab_stop wd' = is_tab_stop wd -> _has_focus wd' = _has_focus wd ->
  tab_shape (alter2 (fun _ => wd') (c, w) columns) = tab_shape columns
  /\ column_flags <$> alter2 (fun _ => wd') (c, w) columns
     = column_flags <$> columns.
Proof.
  intros Hc Hw Hat Ht Hf.
  assert (Hwd : forall col x, columns !! Z.to_nat c = Some col ->
                  col !! Z.to_nat w = Some x -> x = wd).
  { intros col x Hcol Hx. unfold widget_at in Hat.
    rewrite (py_getitem_ok columns c col) in Hat by assumption.
    cbn [bind] in Hat.
    rewrite (py_getitem_ok col w x) in Hat by assumption. congruence. }
  unfold tab_shape, alter2. simpl. split.
  - apply alter_keeps. intros col Hcol. unfold column_shape.
    apply alter_keeps. intros x Hx. rewrite (Hwd col x Hcol Hx). exact Ht.
  - apply alter_keeps. intros col Hcol. unfold column_flags.
    apply alter_keeps. intros x Hx. rewrite (Hwd col x Hcol Hx). exact Hf.
Qed.

Lemma Frame_movement_none (Screen : ScreenT) (f : Frame) (event : Event)
    (back : option Event) :
  traversal Screen event = false ->
  back = None \/ back = Some event ->
  Frame_movement Screen f back = Ok (f, back).
Proof.
  intros Htr [-> | ->]; [reflexivity|].
  destruct event as [k|tag]; [|reflexivity].
  unfold Frame_movement. simpl in Htr.
  apply orb_false_iff in Htr. now destruct Htr as [-> ->].
Qed.

(** Whatever the event, a Frame that has the focus on one tab stop ends
    with the focus on one tab stop, and its tab stops are where they
    were. *)
Lemma Frame_process_event_Focused (Screen : ScreenT) (f f' : Frame)
    (p : Z * Z * Z) (event : Event) (back : option Event) :
  Screen_ok Screen = true ->
  shape_ok (frame_shape f) ->
  Focused f p ->
  Frame_process_event Screen f event = Ok (f', back) ->
  frame_shape f' = frame_shape f /\ exists q, Focused f' q.
Proof.
  intros HS Hok HF Hstep.
  destruct (traversal Screen event) eqn:Htr.
  { destruct event as [k|tag]; [|discriminate]. simpl in Htr.
    destruct (Z.eqb_spec k (KEY_TAB Screen)) as [->|].
    - destruct (Frame_TAB Screen f p HS Hok HF) as (f1 & q & E & H1 & H2 & _).
      rewrite E in Hstep. injection Hstep as <- <-. eauto.
    - destruct (Z.eqb_spec k (KEY_BACK_TAB Screen)) as [->|]; [|discriminate].
      destruct (Frame_BACK_TAB Screen f p HS Hok HF)
        as (f1 & q & E & H1 & H2 & _).
      rewrite E in Hstep. injection Hstep as <- <-. eauto. }
  destruct p as [[i c] w].
  pose proof (Focused_inv f i c w HF)
    as (Hi & Hfocus & l & Hl & Hc & Hw & Hat & Hshl & Hfll).
  pose proof HF as (_ & _ & Hfl). subst c w.
  pose proof (at_stop_bounds l Hat) as (Hlc & Hlw & _).
  unfold Frame_process_event in Hstep. rewrite Hfocus in Hstep.
  rewrite (py_getitem_ok _ i l) in Hstep by (lia || assumption).
  cbn [bind] in Hstep. unfold Layout_process_event in Hstep.
  destruct (widget_at_stop _ _ _ Hat) as (wd & Hwd & _).
  rewrite Hwd in Hstep. cbn [bind] in Hstep.
  destruct (process_event Screen wd event) as [[wd' b]|] eqn:Hev;
    [|discriminate]. cbn [bind] in Hstep.
  destruct (process_event_result _ _ _ _ _ Hev) as (Ht & Hf & Hb).
  rewrite on_live_ok in Hstep by exact Hat. cbn [bind] in Hstep.
  destruct (replace_widget_same (_columns l) (_live_col l) (_live_widget l)
              wd wd') as (Hsh1 & Hfl1); try assumption; try lia.
  remember (set_columns l
              (alter2 (fun _ => wd') (_live_col l, _live_widget l)
                 (_columns l))) as l1 eqn:El1.
  assert (Hlc1 : _live_col l1 = _live_col l) by now subst l1.
  assert (Hlw1 : _live_widget l1 = _live_widget l) by now subst l1.
  assert (Hsh1' : tab_shape (_columns l1) = tab_shape (_columns l))
    by now subst l1.
  assert (Hfl1' : layout_flags l1 = layout_flags l) by now subst l1.
  assert (Hat1 : at_stop l1).
  { unfold at_stop. now rewrite Hsh1', Hlc1, Hlw1. }
  clear El1 Hsh1 Hfl1.
  destruct (Layout_movement_other Screen l1 event b Hat1 Htr Hb)
    as (l' & back' & E & Hb' & Hsh' & Hat' & Hflags).
  rewrite E in Hstep. cbn [bind] in Hstep.
  rewrite (py_setitem_layouts f i l l') in Hstep by (lia || assumption).
  cbn [bind] in Hstep.
  rewrite (Frame_movement_none Screen _ event back' Htr Hb') in Hstep.
  injection Hstep as <- <-.
  rewrite Hsh1' in Hsh'.
  pose proof (frame_shape_insert f _ l' _ Hshl Hsh') as Hshape.
  split; [exact Hshape|].
  exists (i, _live_col l', _live_widget l').
  set (f1 := set_layouts f (<[Z.to_nat i:=l']> (_layouts f))) in *.
  assert (Hfocus1 : _focus f1 = i) by exact Hfocus.
  rewrite <- Hfocus1. apply (Focused_intro f1 l').
  - lia.
  - rewrite Hfocus1. unfold f1. frame_fields.
    apply list_lookup_insert_eq. unfold len in Hi. lia.
  - exact Hat'.
  - rewrite Hshape, Hfocus1. unfold f1. rewrite focus_flags_insert, Hfl.
    rewrite insert_one_flag.
    destruct Hflags as [-> | (-> & -> & ->)].
    + rewrite Hlc1, Hlw1, Hfl1', Hfll, clear_alter2.
      now apply insert_no_flags.
    + rewrite Hlc1, Hlw1, Hfl1', Hfll. now apply insert_no_flags.
Qed.

(** ** Frame.fix *)

Lemma placed_column (column column' : list Widget) :
  Forall2 placed column column' ->
  column_shape column' = column_shape column
  /\ column_flags column' = column_flags column.
Proof.
  induction 1 as [|wd wd' column column' (x & y & o & w & h & ->) _ [IH1 IH2]].
  - auto.
  - unfold column_shape, column_flags in *. rewrite !fmap_cons, IH1, IH2.
    auto.
Qed.

Lemma placed_columns (columns columns' : list (list Widget)) :
  Forall2 (Forall2 placed) columns columns' ->
  tab_shape columns' = tab_shape columns
  /\ column_flags <$> columns' = column_flags <$> columns.
Proof.
  induction 1 as [|c c' cs cs' Hc _ [IH1 IH2]].
  - auto.
  - destruct (placed_column c c' Hc) as [H1 H2].
    unfold tab_shape in *. rewrite !fmap_cons, IH1, IH2, H1, H2. auto.
Qed.

Lemma Layout_fix_keeps (F : FloatT) (canvas : Canvas) (l : Layout)
    (start_y : Z) :
  sizes_match l = true ->
  exists l' y,
    Layout_fix F canvas l start_y = Ok (l', y)
    /\ tab_shape (_columns l') = tab_shape (_columns l)
    /\ layout_flags l' = layout_flags l.
Proof.
  intros Hm. apply Nat.eqb_eq in Hm. unfold Layout_fix.
  destruct (fix_columns_spec F canvas (_column_sizes l) start_y (_columns l)
              0 0 start_y) as (cs' & -> & HP & _);
    [lia|unfold len; lia|].
  cbn [bind]. do 2 eexists. split; [reflexivity|].
  unfold layout_flags. layout_fields. now apply placed_columns.
Qed.

Lemma fix_layouts_keeps (F : FloatT) (canvas : Canvas)
    (layouts : list Layout) :
  forall y,
  forallb sizes_match layouts = true ->
  exists layouts',
    fix_layouts F canvas layouts y = Ok layouts'
    /\ (fun l => tab_shape (_columns l)) <$> layouts'
       = (fun l => tab_shape (_columns l)) <$> layouts
    /\ layout_flags <$> layouts' = layout_flags <$> layouts.
Proof.
  induction layouts as [|l layouts IH]; intros y Hm.
  - exists []. auto.
  - cbn [forallb] in Hm. apply andb_prop in Hm. destruct Hm as [Hl Hm].
    destruct (Layout_fix_keeps F canvas l y Hl) as (l' & y' & E & H1 & H2).
    destruct (IH y' Hm) as (ls' & E' & H1' & H2').
    cbn [fix_layouts]. rewrite E. cbn [bind]. rewrite E'. cbn [bind].
    eexists. split; [reflexivity|].
    rewrite !fmap_cons, H1, H2, H1', H2'. auto.
Qed.

Lemma unfocused_column (column : list Widget) :
  forallb negb (column_flags column) = true ->
  column_flags column = clear_column (column_shape column).
Proof.
  unfold column_flags, clear_column, column_shape.
  induction column as [|wd column IH]; [reflexivity|].
  rewrite !fmap_cons. cbn [forallb]. intros H.
  apply andb_prop in H. destruct H as [Hwd H]. f_equal; [|now apply IH].
  now destruct (_has_focus wd).
Qed.

Lemma unfocused_layout (columns : list (list Widget)) :
  forallb (forallb negb) (column_flags <$> columns) = true ->
  column_flags <$> columns = clear_layout (tab_shape columns).
Proof.
  unfold clear_layout, tab_shape.
  induction columns as [|c columns IH]; [reflexivity|].
  rewrite !fmap_cons. cbn [forallb]. intros H.
  apply andb_prop in H. destruct H as [Hc H]. f_equal; [|now apply IH].
  now apply unfocused_column.
Qed.

Lemma unfocused_no_flags (f : Frame) :
  unfocused f = true -> focus_flags f = no_flags (frame_shape f).
Proof.
  unfold unfocused, focus_flags, no_flags, frame_shape.
  induction (_layouts f) as [|l layouts IH]; [reflexivity|].
  rewrite !fmap_cons. cbn [forallb]. intros H.
  apply andb_prop in H. destruct H as [Hl H]. f_equal; [|now apply IH].
  now apply unfocused_layout.
Qed.

Lemma has_tab_stop_stop (l : Layout) :
  has_tab_stop l = true -> exists r, stop_at (tab_shape (_columns l)) r.
Proof.
  unfold has_tab_stop. intros H. apply existsb_exists in H.
  destruct H as (column & Hin & H). apply existsb_exists in H.
  destruct H as (wd & Hin' & Ht).
  apply list_elem_of_In, list_elem_of_lookup_1 in Hin, Hin'.
  destruct Hin as (c & Hc). destruct Hin' as (w & Hw).
  exists (Z.of_nat c, Z.of_nat w).
  apply (stop_at_intro (_columns l) column); [lia| |].
  - now rewrite Nat2Z.id.
  - apply (stop_in_lookup column _ wd); [lia| |exact Ht].
    now rewrite Nat2Z.id.
Qed.

Lemma all_have_tab_stop_ok (f : Frame) :
  all_have_tab_stop f = true -> shape_ok (frame_shape f).
Proof.
  unfold all_have_tab_stop. intros H j sh Hsh.
  destruct (frame_shape_lookup f j sh Hsh) as (l & Hl & <-).
  apply has_tab_stop_stop. rewrite forallb_forall in H. apply H.
  apply list_elem_of_In. eapply list_elem_of_lookup_2. exact Hl.
Qed.

(** [Frame.fix] on a Frame as constructed: the first tab stop of the first
    Layout gets the focus. *)
Lemma Frame_fix_Focused (F : FloatT) (f0 : Frame) :
  ready_to_fix f0 = true -> all_have_tab_stop f0 = true ->
  exists f q,
    Frame_fix F f0 = Ok f
    /\ frame_shape f = frame_shape f0
    /\ shape_ok (frame_shape f)
    /\ Focused f q
    /\ forall r, frame_stop (frame_shape f) r -> ~ lex3 r q.
Proof.
  intros Hready Hall. unfold ready_to_fix in Hready.
  apply andb_prop in Hready. destruct Hready as [Hready Hun].
  apply andb_prop in Hready. destruct Hready as [Hready Hsizes].
  apply andb_prop in Hready. destruct Hready as [Hfocus Hne].
  apply Z.eqb_eq in Hfocus.
  pose proof (all_have_tab_stop_ok f0 Hall) as Hok.
  pose proof (unfocused_no_flags f0 Hun) as Hfl.
  unfold Frame_fix.
  destruct (fix_layouts_keeps F (_canvas f0) (_layouts f0) 0 Hsizes)
    as (ls' & -> & Hsh & Hflags).
  cbn [bind]. set (f1 := set_layouts f0 ls').
  assert (Hshape1 : frame_shape f1 = frame_shape f0) by exact Hsh.
  assert (Hflags1 : focus_flags f1 = focus_flags f0) by exact Hflags.
  assert (Hfocus1 : _focus f1 = 0) by exact Hfocus.
  assert (Hlen : 0 < len (_layouts f1)).
  { rewrite <- len_frame_shape, Hshape1, len_frame_shape.
    unfold len. destruct (_layouts f0); [discriminate|simpl; lia]. }
  destruct (Frame_focus_layout true f1)
    as (f2 & sh & q & E & Hshape2 & Hshq & Hq & Hfirst & HF).
  { now rewrite Hshape1. }
  { lia. }
  { now rewrite Hshape1, Hflags1. }
  cbn [negb] in E. rewrite E.
  exists f2, (_focus f1, q.1, q.2).
  split; [reflexivity|]. split; [now rewrite Hshape2|].
  split; [now rewrite Hshape2, Hshape1|]. split; [exact HF|].
  rewrite Hfocus1 in *. rewrite Hshape2.
  intros [[rj rc] rw] Hr Hlt. unfold lex3 in Hlt. simpl in Hlt.
  pose proof (frame_stop_inv _ _ _ _ Hr) as (Hrj & _).
  assert (rj = 0) as -> by lia.
  same_layout Hshq Hr. destruct Hlt as [Hlt|[_ Hlt]]; [lia|].
  now apply (Hfirst (rc, rw) Hr).
Qed.

(** ** Reachable states *)

Lemma Frame_process_events_Focused (Screen : ScreenT) (events : list Event) :
  forall f f' p,
  Screen_ok Screen = true -> shape_ok (frame_shape f) -> Focused f p ->
  Frame_process_events Screen f events = Ok f' ->
  frame_shape f' = frame_shape f /\ exists q, Focused f' q.
Proof.
  induction events as [|e events IH]; intros f f' p HS Hok HF Hrun.
  - injection Hrun as <-. eauto.
  - cbn [Frame_process_events] in Hrun.
    destruct (Frame_process_event Screen f e) as [[f1 back]|] eqn:E;
      [|discriminate].
    cbn [bind] in Hrun.
    destruct (Frame_process_event_Focused Screen f f1 p e back HS Hok HF E)
      as (Hsh & q & HF1).
    destruct (IH f1 f' q HS) as (Hsh' & q' & HF'); try assumption.
    { now rewrite Hsh. }
    split; [congruence|eauto].
Qed.

Lemma after_fix_Focused (Screen : ScreenT) (F : FloatT) (f0 f : Frame)
    (events : list Event) :
  Screen_ok Screen = true ->
  ready_to_fix f0 = true -> all_have_tab_stop f0 = true ->
  (let* f1 := Frame_fix F f0 in Frame_process_events Screen f1 events)
  = Ok f ->
  frame_shape f = frame_shape f0
  /\ shape_ok (frame_shape f) /\ exists p, Focused f p.
Proof.
  intros HS Hready Hall Hrun.
  destruct (Frame_fix_Focused F f0 Hready Hall)
    as (f1 & q & E & Hsh & Hok & HF & _).
  rewrite E in Hrun. cbn [bind] in Hrun.
  destruct (Frame_process_events_Focused Screen events f1 f q HS Hok HF Hrun)
    as (Hsh' & p & HFp).
  split; [congruence|]. split; [now rewrite Hsh'|eauto].
Qed.

(** ** Forward then backward *)

Lemma lex3_trichotomy (p q : Z * Z * Z) : lex3 p q \/ p = q \/ lex3 q p.
Proof.
  destruct p as [[a b] c], q as [[a' b'] c']. unfold lex3, lex2. simpl.
  destruct (Z.lt_trichotomy a a') as [?|[->|?]]; [lia| |lia].
  destruct (Z.lt_trichotomy b b') as [?|[->|?]]; [lia| |lia].
  destruct (Z.lt_trichotomy c c') as [?|[->|?]]; [lia| |lia].
  right. left. reflexivity.
Qed.

(** Two tab stops with the same next tab stop are the same. *)
Lemma next_stop_injective (shape : list (list (list bool)))
    (p p' q : Z * Z * Z) :
  frame_stop shape p -> frame_stop shape p' ->
  next_stop shape p q -> next_stop shape p' q -> p = p'.
Proof.
  intros Hp Hp' (_ & H) (_ & H').
  destruct (lex3_trichotomy p p') as [Hlt|[Heq|Hlt]]; [|exact Heq|];
    exfalso.
  - destruct H as [(Hpq & Hbetween)|(Hlast & _)].
    + destruct H' as [(Hpq' & _)|(_ & Hfirst')].
      * now apply (Hbetween p').
      * now apply (Hfirst' p).
    + now apply (Hlast p').
  - destruct H' as [(Hpq' & Hbetween')|(Hlast' & _)].
    + destruct H as [(Hpq & _)|(_ & Hfirst)].
      * now apply (Hbetween' p).
      * now apply (Hfirst p').
    + now apply (Hlast' p).
Qed.

Lemma Focused_unique (f : Frame) (p q : Z * Z * Z) :
  Focused f p -> Focused f q -> p = q.
Proof. intros (_ & Hp & _) (_ & Hq & _). congruence. Qed.

(** C3: in a Frame whose Layouts all hold a tab stop, after [fix] and any
    events, a TAB followed by a BACK_TAB are both consumed and leave the
    focus where it was: the Frame routes events to the same widget [a] and
    the same widget, and no other, has [_has_focus] set.  This holds as
    well when the TAB left the Layout (it went to a widget [b] of another
    Layout): [a] is then the last tab stop of its Layout, and that is where
    the BACK_TAB comes back to. *)
Theorem tab_then_back_tab (Screen : ScreenT) (F : FloatT) (f0 f : Frame)
    (events : list Event) :
  Screen_ok Screen = true ->
  ready_to_fix f0 = true -> all_have_tab_stop f0 = true ->
  (let* f1 := Frame_fix F f0 in Frame_process_events Screen f1 events)
  = Ok f ->
  exists a b f1 f2,
    Focused f a
    /\ Frame_process_event Screen f (KeyboardEvent (KEY_TAB Screen))
       = Ok (f1, None)
    /\ Focused f1 b
    /\ Frame_process_event Screen f1 (KeyboardEvent (KEY_BACK_TAB Screen))
       = Ok (f2, None)
    /\ Focused f2 a
    /\ cursor f2 = cursor f
    /\ focus_flags f2 = focus_flags f
    /\ (b.1.1 <> a.1.1 ->
        forall r, frame_stop (frame_shape f) r -> r.1.1 = a.1.1 ->
                  ~ lex3 a r).
Proof.
  intros HS Hready Hall Hrun.
  destruct (after_fix_Focused Screen F f0 f events HS Hready Hall Hrun)
    as (_ & Hok & a & HF).
  destruct (Frame_TAB Screen f a HS Hok HF) as (f1 & q & E1 & Hsh1 & HF1 & Hn).
  destruct (Frame_BACK_TAB Screen f1 q HS) as (f2 & a' & E2 & Hsh2 & HF2 & Hn');
    [now rewrite Hsh1|exact HF1|].
  assert (a' = a) as ->.
  { apply (next_stop_injective (frame_shape f) a' a q).
    - destruct HF2 as (H & _). now rewrite Hsh2, Hsh1 in H.
    - now destruct HF.
    - now rewrite Hsh1 in Hn'.
    - exact Hn. }
  exists a, q, f1, f2. split; [exact HF|]. split; [exact E1|].
  split; [exact HF1|]. split; [exact E2|]. split; [exact HF2|].
  destruct HF as (_ & Hc & Hfl), HF2 as (_ & Hc2 & Hfl2).
  split; [congruence|]. split; [rewrite Hfl, Hfl2; congruence|].
  intros Hne r Hr Hsame Hlt.
  destruct Hn as (_ & [(Haq & Hbetween)|(Hlast & _)]).
  - apply (Hbetween r Hr Hlt). left.
    destruct Haq as [Haq|[Haq _]]; [lia|congruence].
  - now apply (Hlast r Hr).
Qed.

Lemma tab_then_back_tab_witness :
  exists a b f1 f2,
    Focused two_layouts_fixed a
    /\ Frame_process_event curses_keys two_layouts_fixed
         (KeyboardEvent (KEY_TAB curses_keys)) = Ok (f1, None)
    /\ Focused f1 b
    /\ Frame_process_event curses_keys f1
         (KeyboardEvent (KEY_BACK_TAB curses_keys)) = Ok (f2, None)
    /\ Focused f2 a
    /\ cursor f2 = cursor two_layouts_fixed
    /\ focus_flags f2 = focus_flags two_layouts_fixed
    /\ (b.1.1 <> a.1.1 ->
        forall r, frame_stop (frame_shape two_layouts_fixed) r ->
                  r.1.1 = a.1.1 -> ~ lex3 a r).
Proof.
  apply (tab_then_back_tab curses_keys exact_float two_layouts_frame
           two_layouts_fixed []).
  - reflexivity.
  - reflexivity.
  - reflexivity.
  - vm_compute. reflexivity.
Defined.

(** ** The list of tab stops: members, order, length *)

Lemma elem_of_col_stops (column : list bool) :
  forall w k,
  k ∈ col_stops w column
  <-> w <= k /\ column !! Z.to_nat (k - w) = Some true.
Proof.
  induction column as [|b column IH]; intros w k; cbn [col_stops].
  - rewrite elem_of_nil, lookup_nil. intuition discriminate.
  - rewrite elem_of_app, IH. split.
    + intros [H|[Hk H]].
      * destruct b; [|now apply elem_of_nil in H].
        apply list_elem_of_singleton in H. subst k.
        split; [lia|]. now rewrite Z.sub_diag.
      * split; [lia|].
        replace (Z.to_nat (k - w)) with (S (Z.to_nat (k - (w + 1)))) by lia.
        exact H.
    + intros [Hk H]. destruct (Z.eq_dec k w) as [->|].
      * left. rewrite Z.sub_diag in H. injection H as ->.
        now apply list_elem_of_singleton.
      * right. split; [lia|].
        replace (Z.to_nat (k - w)) with (S (Z.to_nat (k - (w + 1))))
          in H by lia.
        exact H.
Qed.

Lemma sorted_col_stops (column : list bool) :
  forall w, StronglySorted Z.lt (col_stops w column).
Proof.
  induction column as [|b column IH]; intros w; cbn [col_stops].
  - constructor.
  - apply StronglySorted_app_2; [|destruct b; repeat constructor|apply IH].
    intros x y Hx Hy. apply elem_of_col_stops in Hy.
    destruct b; [|now apply elem_of_nil in Hx].
    apply list_elem_of_singleton in Hx. lia.
Qed.

Lemma elem_of_layout_stops (shape : list (list bool)) :
  forall c q,
  q ∈ layout_stops c shape
  <-> c <= q.1
      /\ exists column,
           shape !! Z.to_nat (q.1 - c) = Some column /\ stop_in column q.2.
Proof.
  induction shape as [|column shape IH]; intros c [qc qw];
    cbn [layout_stops]; simpl.
  - rewrite elem_of_nil. split; [tauto|].
    intros (_ & col & H & _). now rewrite lookup_nil in H.
  - rewrite elem_of_app, IH, list_elem_of_fmap. simpl. split.
    + intros [(k & [= -> ->] & Hk)|(Hc & col & Hcol & Hs)].
      * apply elem_of_col_stops in Hk. rewrite Z.sub_0_r in Hk.
        split; [lia|]. exists column. rewrite Z.sub_diag.
        split; [reflexivity|]. exact Hk.
      * split; [lia|]. exists col. split; [|exact Hs].
        replace (Z.to_nat (qc - c)) with (S (Z.to_nat (qc - (c + 1))))
          by lia.
        exact Hcol.
    + intros (Hc & col & Hcol & Hs). destruct (Z.eq_dec qc c) as [->|].
      * left. exists qw. split; [reflexivity|].
        rewrite Z.sub_diag in Hcol. injection Hcol as ->.
        apply elem_of_col_stops. now rewrite Z.sub_0_r.
      * right. split; [lia|]. exists col. split; [|exact Hs].
        replace (Z.to_nat (qc - c)) with (S (Z.to_nat (qc - (c + 1))))
          in Hcol by lia.
        exact Hcol.
Qed.

Lemma sorted_layout_stops (shape : list (list bool)) :
  forall c, StronglySorted lex2 (layout_stops c shape).
Proof.
  induction shape as [|column shape IH]; intros c; cbn [layout_stops].
  - constructor.
  - apply StronglySorted_app_2; [| |apply IH].
    + intros x y Hx Hy. apply elem_of_layout_stops in Hy.
      apply list_elem_of_fmap in Hx. destruct Hx as (k & -> & _).
      left. simpl. lia.
    + apply (StronglySorted_fmap _ Z.lt); [|apply sorted_col_stops].
      intros x y Hxy. right. simpl. lia.
Qed.

Lemma elem_of_shape_stops (shape : list (list (list bool))) :
  forall i p,
  p ∈ shape_stops i shape
  <-> i <= p.1.1
      /\ exists sh,
           shape !! Z.to_nat (p.1.1 - i) = Some sh
           /\ stop_at sh (p.1.2, p.2).
Proof.
  induction shape as [|sh0 shape IH]; intros i [[pj pc] pw];
    cbn [shape_stops]; simpl.
  - rewrite elem_of_nil. split; [tauto|].
    intros (_ & sh & H & _). now rewrite lookup_nil in H.
  - rewrite elem_of_app, IH, list_elem_of_fmap. simpl. split.
    + intros [(q & [= -> -> ->] & Hq)|(Hi & sh & Hsh & Hs)].
      * apply elem_of_layout_stops in Hq. rewrite Z.sub_0_r in Hq.
        split; [lia|]. exists sh0. rewrite Z.sub_diag.
        split; [reflexivity|]. exact Hq.
      * split; [lia|]. exists sh. split; [|exact Hs].
        replace (Z.to_nat (pj - i)) with (S (Z.to_nat (pj - (i + 1))))
          by lia.
        exact Hsh.
    + intros (Hi & sh & Hsh & Hs). destruct (Z.eq_dec pj i) as [->|].
      * left. exists (pc, pw). split; [reflexivity|].
        rewrite Z.sub_diag in Hsh. injection Hsh as ->.
        apply elem_of_layout_stops. now rewrite Z.sub_0_r.
      * right. split; [lia|]. exists sh. split; [|exact Hs].
        replace (Z.to_nat (pj - i)) with (S (Z.to_nat (pj - (i + 1))))
          in Hsh by lia.
        exact Hsh.
Qed.

Lemma sorted_shape_stops (shape : list (list (list bool))) :
  forall i, StronglySorted lex3 (shape_stops i shape).
Proof.
  induction shape as [|sh shape IH]; intros i; cbn [shape_stops].
  - constructor.
  - apply StronglySorted_app_2; [| |apply IH].
    + intros x y Hx Hy. apply elem_of_shape_stops in Hy.
      apply list_elem_of_fmap in Hx. destruct Hx as (q & -> & _).
      left. simpl. lia.
    + apply (StronglySorted_fmap _ lex2); [|apply sorted_layout_stops].
      intros [a b] [a' b'] Hxy. right. simpl. split; [reflexivity|].
      exact Hxy.
Qed.

Lemma elem_of_tab_order (f : Frame) (p : Z * Z * Z) :
  p ∈ tab_order f <-> frame_stop (frame_shape f) p.
Proof.
  unfold tab_order, frame_stop. rewrite elem_of_shape_stops.
  now rewrite Z.sub_0_r.
Qed.

Lemma length_col_stops (column : list Widget) :
  forall w,
  length (col_stops w (column_shape column))
  = length (filter (fun wd => is_tab_stop wd = true) column).
Proof.
  induction column as [|wd column IH]; intros w; [reflexivity|].
  unfold column_shape in *. rewrite fmap_cons. cbn [col_stops].
  rewrite length_app, IH, filter_cons.
  destruct (is_tab_stop wd); case_decide; simpl; congruence.
Qed.

Lemma length_layout_stops (columns : list (list Widget)) :
  forall c,
  length (layout_stops c (tab_shape columns))
  = length (filter (fun wd => is_tab_stop wd = true) (concat columns)).
Proof.
  induction columns as [|column columns IH]; intros c; [reflexivity|].
  unfold tab_shape in *. rewrite fmap_cons. cbn [layout_stops concat].
  rewrite length_app, length_fmap, IH, length_col_stops, filter_app,
    length_app.
  reflexivity.
Qed.

Lemma length_shape_stops (layouts : list Layout) :
  forall i,
  length (shape_stops i ((fun l => tab_shape (_columns l)) <$> layouts))
  = length (filter (fun wd => is_tab_stop wd = true)
              (concat (concat (_columns <$> layouts)))).
Proof.
  induction layouts as [|l layouts IH]; intros i; [reflexivity|].
  rewrite !fmap_cons. cbn [shape_stops concat].
  rewrite length_app, length_fmap, IH, length_layout_stops, concat_app,
    filter_app, length_app.
  reflexivity.
Qed.

(** The tab order lists every tab-stop widget of the Frame once. *)
Lemma length_tab_order (f : Frame) :
  length (tab_order f) = count_tab_stops f.
Proof. apply length_shape_stops. Qed.

Lemma sorted_lookup_lt {A} (R : relation A) (l : list A) :
  StronglySorted R l ->
  forall a b x y,
  l !! a = Some x -> l !! b = Some y -> (a < b)%nat -> R x y.
Proof.
  induction 1 as [|x0 l _ IH Hall]; intros a b x y Ha Hb Hab.
  - now rewrite lookup_nil in Ha.
  - destruct b as [|b]; [lia|]. simpl in Hb. destruct a as [|a].
    + injection Ha as <-. rewrite Forall_forall in Hall.
      apply Hall. eapply list_elem_of_lookup_2. exact Hb.
    + simpl in Ha. apply (IH a b); [assumption|assumption|lia].
Qed.

Lemma lex3_asym (p q : Z * Z * Z) : lex3 p q -> lex3 q p -> False.
Proof.
  destruct p as [[a b] c], q as [[a' b'] c']. unfold lex3, lex2. simpl.
  lia.
Qed.

(** In the tab order, the next tab stop of entry [k] is entry [k + 1], and
    entry 0 after the last. *)
Lemma tab_order_next (f : Frame) (k : nat) (p q : Z * Z * Z) :
  tab_order f !! k = Some p ->
  next_stop (frame_shape f) p q ->
  tab_order f !! ((k + 1) mod length (tab_order f))%nat = Some q.
Proof.
  intros Hk (Hq & Hnext).
  pose proof (sorted_shape_stops (frame_shape f) 0) as Hsorted.
  fold (tab_order f) in Hsorted.
  pose proof (sorted_lookup_lt lex3 _ Hsorted) as Hlt.
  pose proof (lookup_lt_Some _ _ _ Hk) as HkN.
  apply elem_of_tab_order, list_elem_of_lookup_1 in Hq.
  destruct Hq as (j & Hj). pose proof (lookup_lt_Some _ _ _ Hj) as HjN.
  destruct Hnext as [(Hpq & Hbetween)|(Hlast & Hfirst)].
  - assert (k < j)%nat as Hkj.
    { destruct (Nat.lt_trichotomy k j) as [?|[->|?]]; [assumption| |].
      - rewrite Hk in Hj. injection Hj as ->.
        exfalso. now apply (lex3_asym q q).
      - exfalso. apply (lex3_asym p q Hpq). now apply (Hlt j k). }
    assert (j = S k) as ->.
    { destruct (Nat.eq_dec j (S k)); [assumption|exfalso].
      destruct (lookup_lt_is_Some_2 (tab_order f) (S k)) as (m & Hm);
        [lia|].
      apply (Hbetween m).
      - apply elem_of_tab_order. eapply list_elem_of_lookup_2. exact Hm.
      - apply (Hlt k (S k)); [assumption|assumption|lia].
      - apply (Hlt (S k) j); [assumption|assumption|lia]. }
    rewrite Nat.mod_small by lia. now rewrite Nat.add_1_r.
  - assert (S k = length (tab_order f)) as HN.
    { destruct (Nat.eq_dec (S k) (length (tab_order f)));
        [assumption|exfalso].
      destruct (lookup_lt_is_Some_2 (tab_order f) (S k)) as (m & Hm);
        [lia|].
      apply (Hlast m).
      - apply elem_of_tab_order. eapply list_elem_of_lookup_2. exact Hm.
      - apply (Hlt k (S k)); [assumption|assumption|lia]. }
    assert (j = 0)%nat as ->.
    { destruct j as [|j]; [reflexivity|exfalso].
      destruct (lookup_lt_is_Some_2 (tab_order f) 0) as (m & Hm); [lia|].
      apply (Hfirst m).
      - apply elem_of_tab_order. eapply list_elem_of_lookup_2. exact Hm.
      - apply (Hlt 0%nat (S j)); [assumption|assumption|lia]. }
    rewrite Nat.add_1_r, HN, Nat.Div0.mod_same. exact Hj.
Qed.

(** ** Forward all the way round *)

Lemma TAB_step (Screen : ScreenT) (f : Frame) (k : nat) (p : Z * Z * Z) :
  Screen_ok Screen = true -> shape_ok (frame_shape f) ->
  Focused f p -> tab_order f !! k = Some p ->
  exists f' q,
    Frame_process_event Screen f (KeyboardEvent (KEY_TAB Screen))
    = Ok (f', None)
    /\ frame_shape f' = frame_shape f
    /\ Focused f' q
    /\ tab_order f !! ((k + 1) mod length (tab_order f))%nat = Some q.
Proof.
  intros HS Hok HF Hk.
  destruct (Frame_TAB Screen f p HS Hok HF) as (f' & q & E & Hsh & HF' & Hn).
  exists f', q. split; [exact E|]. split; [exact Hsh|].
  split; [exact HF'|]. now apply (tab_order_next f k p q).
Qed.

Lemma tabs_advance (Screen : ScreenT) (m : nat) :
  forall f k p,
  Screen_ok Screen = true -> shape_ok (frame_shape f) ->
  Focused f p -> tab_order f !! k = Some p ->
  exists f' q,
    Frame_process_events Screen f (tabs Screen m) = Ok f'
    /\ frame_shape f' = frame_shape f
    /\ Focused f' q
    /\ tab_order f !! ((k + m) mod length (tab_order f))%nat = Some q.
Proof.
  induction m as [|m IH]; intros f k p HS Hok HF Hk.
  - exists f, p. split; [reflexivity|]. split; [reflexivity|].
    split; [exact HF|].
    rewrite Nat.add_0_r, Nat.mod_small by eauto using lookup_lt_Some.
    exact Hk.
  - destruct (TAB_step Screen f k p HS Hok HF Hk)
      as (f1 & q1 & E & Hsh & HF1 & Hk1).
    assert (Horder : tab_order f1 = tab_order f).
    { unfold tab_order. now rewrite Hsh. }
    destruct (IH f1 ((k + 1) mod length (tab_order f))%nat q1 HS)
      as (f' & q & E' & Hsh' & HF' & Hq).
    { now rewrite Hsh. }
    { exact HF1. }
    { now rewrite Horder. }
    exists f', q. unfold tabs in *. cbn [replicate Frame_process_events].
    rewrite E. cbn [bind]. split; [exact E'|].
    split; [congruence|]. split; [exact HF'|].
    rewrite Horder in Hq. rewrite Nat.Div0.add_mod_idemp_l in Hq.
    now replace (k + S m)%nat with (k + 1 + m)%nat by lia.
Qed.

Lemma Focused_in_order (f : Frame) (p : Z * Z * Z) :
  Focused f p -> exists k, tab_order f !! k = Some p.
Proof.
  intros (Hp & _). now apply list_elem_of_lookup_1, elem_of_tab_order.
Qed.

(** C2: in a Frame whose Layouts all hold a tab stop, after [fix] and any
    events, N presses of TAB, N being the number of tab-stop widgets of
    the whole Frame, are all consumed and bring the focus back to the widget
    it was on: same position routed to, same [_has_focus] flags.  In the
    Frame of a Text in one Layout and a CheckBox and RadioButtons in a
    second one, [fix] focuses the Text, TAB goes to the CheckBox, a second
    TAB to the RadioButtons and a third back to the Text. *)
Theorem tab_wraps_around (Screen : ScreenT) (F : FloatT) (f0 f : Frame)
    (events : list Event) :
  Screen_ok Screen = true ->
  ready_to_fix f0 = true -> all_have_tab_stop f0 = true ->
  (let* f1 := Frame_fix F f0 in Frame_process_events Screen f1 events)
  = Ok f ->
  (exists a f',
     Focused f a
     /\ Frame_process_events Screen f (tabs Screen (count_tab_stops f))
        = Ok f'
     /\ Focused f' a
     /\ cursor f' = cursor f
     /\ focus_flags f' = focus_flags f)
  /\ (let tab := KeyboardEvent (KEY_TAB Screen) in
      kind_at two_layouts_frame (0, 0, 0) = Ok KText
      /\ kind_at two_layouts_frame (1, 0, 0) = Ok KCheckBox
      /\ kind_at two_layouts_frame (1, 0, 1) = Ok KRadioButtons
      /\ exists g0 g1 g2 g3,
           Frame_fix F two_layouts_frame = Ok g0
           /\ Focused g0 (0, 0, 0)
           /\ Frame_process_event Screen g0 tab = Ok (g1, None)
           /\ Focused g1 (1, 0, 0)
           /\ Frame_process_event Screen g1 tab = Ok (g2, None)
           /\ Focused g2 (1, 0, 1)
           /\ Frame_process_event Screen g2 tab = Ok (g3, None)
           /\ Focused g3 (0, 0, 0)).
Proof.
  intros HS Hready Hall Hrun. split.
  - destruct (after_fix_Focused Screen F f0 f events HS Hready Hall Hrun)
      as (_ & Hok & a & HF).
    destruct (Focused_in_order f a HF) as (k & Hk).
    destruct (tabs_advance Screen (count_tab_stops f) f k a HS Hok HF Hk)
      as (f' & q & E & Hsh & HF' & Hq).
    rewrite <- length_tab_order in Hq.
    pose proof (lookup_lt_Some _ _ _ Hk) as HkN.
    replace ((k + length (tab_order f)) mod length (tab_order f))%nat
      with k in Hq.
    2:{ rewrite <- Nat.Div0.add_mod_idemp_r, Nat.Div0.mod_same, Nat.add_0_r.
        now rewrite Nat.mod_small. }
    assert (q = a) as -> by congruence.
    exists a, f'. split; [exact HF|]. split; [exact E|].
    split; [exact HF'|].
    destruct HF as (_ & Hc & Hfl), HF' as (_ & Hc' & Hfl').
    split; [congruence|]. rewrite Hfl, Hfl'. congruence.
  - intros tab. split; [reflexivity|]. split; [reflexivity|].
    split; [reflexivity|].
    destruct (Frame_fix_Focused F two_layouts_frame eq_refl eq_refl)
      as (g0 & q0 & E0 & Hsh0 & Hok0 & HF0 & Hleast).
    assert (Horder0 : tab_order g0 = [(0, 0, 0); (1, 0, 0); (1, 0, 1)]).
    { unfold tab_order. now rewrite Hsh0. }
    assert (q0 = (0, 0, 0)) as ->.
    { destruct (Focused_in_order g0 q0 HF0) as (k0 & Hk0).
      assert (Hfirst : frame_stop (frame_shape g0) (0, 0, 0)).
      { apply elem_of_tab_order. rewrite Horder0. apply list_elem_of_here. }
      rewrite Horder0 in Hk0.
      destruct k0 as [|[|[|k0]]]; simpl in Hk0; try discriminate;
        injection Hk0 as <-; [reflexivity| |];
        exfalso; apply (Hleast _ Hfirst); left; simpl; lia. }
    destruct (TAB_step Screen g0 0 (0, 0, 0) HS Hok0 HF0)
      as (g1 & q1 & E1 & Hsh1 & HF1 & Hq1); [now rewrite Horder0|].
    rewrite Horder0 in Hq1. simpl in Hq1. injection Hq1 as <-.
    assert (Horder1 : tab_order g1 = [(0, 0, 0); (1, 0, 0); (1, 0, 1)]).
    { unfold tab_order. rewrite Hsh1. exact Horder0. }
    destruct (TAB_step Screen g1 1 (1, 0, 0) HS)
      as (g2 & q2 & E2 & Hsh2 & HF2 & Hq2);
      [now rewrite Hsh1|exact HF1|now rewrite Horder1|].
    rewrite Horder1 in Hq2. simpl in Hq2. injection Hq2 as <-.
    assert (Horder2 : tab_order g2 = [(0, 0, 0); (1, 0, 0); (1, 0, 1)]).
    { unfold tab_order. rewrite Hsh2. exact Horder1. }
    destruct (TAB_step Screen g2 2 (1, 0, 1) HS)
      as (g3 & q3 & E3 & Hsh3 & HF3 & Hq3);
      [now rewrite Hsh2, Hsh1|exact HF2|now rewrite Horder2|].
    rewrite Horder2 in Hq3. simpl in Hq3. injection Hq3 as <-.
    exists g0, g1, g2, g3. auto 10.
Qed.

Lemma tab_wraps_around_witness :
  exists a f',
    Focused two_layouts_fixed a
    /\ Frame_process_events curses_keys two_layouts_fixed
         (tabs curses_keys (count_tab_stops two_layouts_fixed)) = Ok f'
    /\ Focused f' a
    /\ cursor f' = cursor two_layouts_fixed
    /\ focus_flags f' = focus_flags two_layouts_fixed.
Proof.
  refine (proj1 (tab_wraps_around curses_keys exact_float two_layouts_frame
                   two_layouts_fixed [] _ _ _ _)).
  - reflexivity.
  - reflexivity.
  - reflexivity.
  - vm_compute. reflexivity.
Defined.

(** ** How many widgets have the focus *)

Lemma count_true_app (l k : list bool) :
  count_true (l ++ k) = (count_true l + count_true k)%nat.
Proof. unfold count_true. now rewrite filter_app, length_app. Qed.

Lemma count_clear_column (column : list bool) :
  count_true (clear_column column) = 0%nat.
Proof.
  unfold count_true, clear_column.
  induction column as [|b column IH]; [reflexivity|].
  rewrite fmap_cons, filter_cons. case_decide; [discriminate|exact IH].
Qed.

Lemma count_clear_layout (sh : list (list bool)) :
  count_true (concat (clear_layout sh)) = 0%nat.
Proof.
  unfold clear_layout. induction sh as [|c sh IH]; [reflexivity|].
  rewrite fmap_cons. cbn [concat].
  now rewrite count_true_app, count_clear_column, IH.
Qed.

Lemma count_no_flags (shape : list (list (list bool))) :
  count_true (concat (concat (no_flags shape))) = 0%nat.
Proof.
  unfold no_flags. induction shape as [|sh shape IH]; [reflexivity|].
  rewrite fmap_cons. cbn [concat].
  now rewrite concat_app, count_true_app, count_clear_layout, IH.
Qed.

Lemma count_one_column (column : list bool) :
  forall w b, column !! w = Some b ->
  count_true (alter (fun _ => true) w (clear_column column)) = 1%nat.
Proof.
  induction column as [|b0 column IH]; intros w b Hw;
    [now rewrite lookup_nil in Hw|].
  destruct w as [|w].
  - unfold clear_column. rewrite fmap_cons.
    change (count_true (true :: clear_column column) = 1%nat).
    change (true :: clear_column column)
      with ([true] ++ clear_column column).
    now rewrite count_true_app, count_clear_column.
  - simpl in Hw. unfold clear_column. rewrite fmap_cons.
    change (count_true ([false] ++ alter (fun _ => true) w
                                     (clear_column column)) = 1%nat).
    rewrite count_true_app, (IH w b Hw). reflexivity.
Qed.

Lemma count_one_layout (sh : list (list bool)) :
  forall c w, stop_at sh (c, w) ->
  count_true (concat (alter2 (fun _ => true) (c, w) (clear_layout sh)))
  = 1%nat.
Proof.
  unfold alter2. cbn [fst snd].
  induction sh as [|col sh IH]; intros c w (Hc & col' & Hcol & Hw & Hb);
    cbn [fst snd] in *.
  - now rewrite lookup_nil in Hcol.
  - unfold clear_layout. rewrite fmap_cons.
    destruct (Z.to_nat c) as [|n] eqn:En.
    + injection Hcol as <-. cbn [alter list_alter concat].
      rewrite count_true_app, (count_one_column col _ true Hb).
      fold (clear_layout sh). now rewrite count_clear_layout.
    + cbn [alter list_alter concat]. rewrite count_true_app.
      rewrite count_clear_column. cbn [lookup list_lookup] in Hcol.
      specialize (IH (Z.of_nat n) w). rewrite Nat2Z.id in IH.
      apply IH. split; [cbn [fst]; lia|]. exists col'. cbn [fst snd].
      rewrite Nat2Z.id. split; [exact Hcol|]. split; assumption.
Qed.

Lemma count_one_flag (shape : list (list (list bool))) :
  forall p, frame_stop shape p ->
  count_true (concat (concat (one_flag shape p))) = 1%nat.
Proof.
  unfold one_flag, alter3.
  induction shape as [|sh shape IH]; intros [[i c] w] (Hi & sh' & Hsh & Hs);
    cbn [fst snd] in *.
  - now rewrite lookup_nil in Hsh.
  - unfold no_flags. rewrite fmap_cons.
    destruct (Z.to_nat i) as [|n] eqn:En.
    + injection Hsh as <-. cbn [alter list_alter concat].
      rewrite concat_app, count_true_app, (count_one_layout sh c w Hs).
      fold (no_flags shape). now rewrite count_no_flags.
    + cbn [alter list_alter concat].
      rewrite concat_app, count_true_app, count_clear_layout.
      cbn [lookup list_lookup] in Hsh.
      specialize (IH (Z.of_nat n, c, w)). cbn [fst snd] in IH.
      rewrite Nat2Z.id in IH. apply IH.
      split; [cbn [fst]; lia|]. exists sh'. cbn [fst snd].
      rewrite Nat2Z.id. split; assumption.
Qed.

(** With the focus on one tab stop, one widget has [_has_focus] set. *)
Lemma Focused_count (f : Frame) (p : Z * Z * Z) :
  Focused f p -> count_focused f = 1%nat.
Proof.
  intros (Hp & _ & Hfl). unfold count_focused. rewrite Hfl.
  now apply count_one_flag.
Qed.

(** Without [reset]: after [fix] and any events delivered to
    [process_event], exactly one widget of the Frame has the focus. *)
Lemma one_focused_without_reset (Screen : ScreenT) (F : FloatT)
    (f0 f : Frame) (events : list Event) :
  Screen_ok Screen = true ->
  ready_to_fix f0 = true -> all_have_tab_stop f0 = true ->
  (let* f1 := Frame_fix F f0 in Frame_process_events Screen f1 events)
  = Ok f ->
  count_focused f = 1%nat.
Proof.
  intros HS Hready Hall Hrun.
  destruct (after_fix_Focused Screen F f0 f events HS Hready Hall Hrun)
    as (_ & _ & p & HF).
  now apply (Focused_count f p).
Qed.

(** C4: [Frame.reset] moves the live position of a Layout back to its first
    tab stop without taking the focus from the widget that has it, so the
    next TAB leaves two widgets focused.  With three Text widgets in one
    column: after [fix], TAB, TAB, [reset] and TAB the second and the third
    widget both have [_has_focus] set. *)
Theorem reset_then_tab_two_focused :
  ready_to_fix three_texts_frame = true
  /\ all_have_tab_stop three_texts_frame = true
  /\ (let tab := CallProcessEvent (KeyboardEvent (KEY_TAB curses_keys)) in
      let* f := Frame_fix exact_float three_texts_frame in
      let* f := Frame_calls curses_keys f [tab; tab; CallReset; tab] in
      Ok (focus_flags f, count_focused f))
     = Ok ([[[false; true; true]]], 2%nat).
Proof.
  split; [reflexivity|]. split; [reflexivity|]. vm_compute. reflexivity.
Qed.

(** * Further properties of the widgets *)

Lemma process_events_app (Screen : ScreenT) (events1 events2 : list Event) :
  forall self,
  process_events Screen self (events1 ++ events2)
  = let* self := process_events Screen self events1 in
    process_events Screen self events2.
Proof.
  induction events1 as [|e events1 IH]; intros self; [reflexivity|].
  cbn [app process_events].
  destruct (process_event Screen self e) as [[self1 back]|err];
    [|reflexivity].
  cbn [bind]. apply IH.
Qed.

(** A character key is none of the control keys. *)
Lemma Screen_ok_printable (Screen : ScreenT) (k : Z) :
  Screen_ok Screen = true -> printable k = true ->
  k <> 10 /\ k <> 13 /\ k <> KEY_BACK Screen /\ k <> KEY_UP Screen
  /\ k <> KEY_DOWN Screen /\ k <> KEY_LEFT Screen /\ k <> KEY_RIGHT Screen
  /\ k <> KEY_HOME Screen /\ k <> KEY_END Screen.
Proof.
  intros HS Hk. screen_facts HS.
  split; [intros ->; discriminate|]. split; [intros ->; discriminate|].
  repeat split; congruence.
Qed.

(** ** Text *)

Lemma Text_step_ok (Screen : ScreenT) (base : Widget) (text : str)
    (value : option str) (column start_column : Z) (event : Event) :
  Text_ok value column ->
  exists value' column' back,
    process_event Screen
      (set_variant base (Text text value column start_column)) event
    = Ok (set_variant base (Text text value' column' start_column), back)
    /\ Text_ok value' column'.
Proof.
  intros Hok. pose proof Hok as (v & -> & Hc).
  unfold process_event. cbn [variant set_variant].
  unfold Text_process_event.
  destruct event as [k|tag]; [|eauto 6].
  destruct (Z.eqb_spec k (KEY_BACK Screen)).
  { destruct (Z.gtb_spec column 0); [|eauto 6].
    cbn [expect bind]. do 3 eexists. split; [reflexivity|].
    eexists. split; [reflexivity|].
    rewrite len_app, len_slice_to by lia.
    pose proof (len_nonneg (py_slice_from v column)). lia. }
  destruct (Z.eqb_spec k (KEY_LEFT Screen)).
  { do 3 eexists. split; [reflexivity|]. exists v. split; [reflexivity|lia]. }
  destruct (Z.eqb_spec k (KEY_RIGHT Screen)).
  { cbn [expect bind]. do 3 eexists. split; [reflexivity|].
    exists v. split; [reflexivity|lia]. }
  destruct (Z.eqb_spec k (KEY_HOME Screen)).
  { do 3 eexists. split; [reflexivity|]. exists v. split; [reflexivity|lia]. }
  destruct (Z.eqb_spec k (KEY_END Screen)).
  { cbn [expect bind]. do 3 eexists. split; [reflexivity|].
    exists v. split; [reflexivity|lia]. }
  destruct ((32 <=? k) && (k <? 256)); [|eauto 6].
  cbn [expect bind]. do 3 eexists. split; [reflexivity|].
  eexists. split; [reflexivity|].
  rewrite !len_app, len_slice_to by lia. unfold chr.
  pose proof (len_nonneg (py_slice_from v column)).
  unfold len at 1. simpl. lia.
Qed.

Lemma Text_steps_ok (Screen : ScreenT) (base : Widget) (text : str)
    (start_column : Z) (events : list Event) :
  forall value column,
  Text_ok value column ->
  exists value' column',
    process_events Screen
      (set_variant base (Text text value column start_column)) events
    = Ok (set_variant base (Text text value' column' start_column))
    /\ Text_ok value' column'.
Proof.
  induction events as [|e events IH]; intros value column Hok.
  - simpl. eauto.
  - destruct (Text_step_ok Screen base text value column start_column e Hok)
      as (v1 & c1 & back & Hstep & Hok1).
    cbn [process_events]. rewrite Hstep. cbn [bind]. now apply IH.
Qed.

(** X1: after [reset] and any sequence of events fed to [process_event], the
    value of a Text is a string and the cursor column lies in
    [0, len value]; no event of the sequence raises, and the scroll offset
    is not touched. *)
Theorem Text_cursor_in_value (Screen : ScreenT) (base : Widget) (text : str)
    (value0 : option str) (column0 start_column : Z) (events : list Event) :
  exists self' v column,
    (let* self :=
       reset (set_variant base (Text text value0 column0 start_column)) in
     process_events Screen self events) = Ok self'
    /\ variant self' = Text text (Some v) column start_column
    /\ 0 <= column <= len v.
Proof.
  unfold reset. cbn [variant set_variant bind]. unfold Text_reset.
  destruct (Text_steps_ok Screen base text start_column events (Some text)
              (len text)) as (v' & c' & Hrun & v & -> & Hc).
  { exists text. split; [reflexivity|]. pose proof (len_nonneg text). lia. }
  change (set_variant (set_variant base ?a) ?b) with (set_variant base b).
  rewrite Hrun. eauto 6.
Qed.

Lemma take_drop_insert {A} (v : list A) (x : A) :
  forall n, (n <= length v)%nat ->
  take (S n) (take n v ++ x :: drop n v) = take n v ++ [x]
  /\ drop (S n) (take n v ++ x :: drop n v) = drop n v
  /\ take n (take n v ++ x :: drop n v) = take n v.
Proof.
  induction v as [|a v IH]; intros [|n] Hn; simpl in *; try lia.
  - auto.
  - auto.
  - destruct (IH n) as (E1 & E2 & E3); [lia|].
    simpl in E1. rewrite E1, E2, E3. auto.
Qed.

(** The slices of a string around a character inserted at [c]. *)
Lemma slice_insert {A} (v : list A) (c : Z) (x : A) :
  0 <= c <= len v ->
  let v' := py_slice_to v c ++ x :: py_slice_from v c in
  py_slice_to v' (c + 1) = py_slice_to v c ++ [x]
  /\ py_slice_from v' (c + 1) = py_slice_from v c
  /\ py_slice_to v' c = py_slice_to v c
  /\ len v' = len v + 1.
Proof.
  intros Hc v'.
  assert (Hlen : len v' = len v + 1).
  { unfold v'. rewrite len_app, len_slice_to by assumption.
    unfold len, py_slice_from. simpl. rewrite length_drop, slice_bound_ok
      by assumption. unfold len in Hc. lia. }
  destruct (take_drop_insert v x (Z.to_nat c)) as (E1 & E2 & E3).
  { unfold len in Hc. lia. }
  split; [|split; [|split; [|exact Hlen]]].
  - unfold py_slice_to at 1. rewrite (slice_bound_ok v') by lia.
    unfold v', py_slice_to, py_slice_from.
    rewrite !slice_bound_ok by lia.
    replace (Z.to_nat (c + 1)) with (S (Z.to_nat c)) by lia. exact E1.
  - unfold py_slice_from at 1. rewrite (slice_bound_ok v') by lia.
    unfold v', py_slice_to, py_slice_from.
    rewrite !slice_bound_ok by lia.
    replace (Z.to_nat (c + 1)) with (S (Z.to_nat c)) by lia. exact E2.
  - unfold py_slice_to at 1. rewrite (slice_bound_ok v') by lia.
    unfold v', py_slice_to, py_slice_from.
    rewrite !slice_bound_ok by lia. exact E3.
Qed.

(** A character key typed into a Text. *)
Lemma Text_insert (Screen : ScreenT) (base : Widget) (text v : str)
    (column start_column k : Z) :
  Screen_ok Screen = true -> printable k = true ->
  process_event Screen
    (set_variant base (Text text (Some v) column start_column))
    (KeyboardEvent k)
  = Ok (set_variant base
          (Text text
             (Some (py_slice_to v column ++ chr k ++ py_slice_from v column))
             (column + 1) start_column), None).
Proof.
  intros HS Hk.
  destruct (Screen_ok_printable Screen k HS Hk)
    as (_ & _ & Hb & _ & _ & Hl & Hr & Hh & He).
  unfold process_event. cbn [variant set_variant].
  unfold Text_process_event.
  destruct (Z.eqb_spec k (KEY_BACK Screen)); [congruence|].
  destruct (Z.eqb_spec k (KEY_LEFT Screen)); [congruence|].
  destruct (Z.eqb_spec k (KEY_RIGHT Screen)); [congruence|].
  destruct (Z.eqb_spec k (KEY_HOME Screen)); [congruence|].
  destruct (Z.eqb_spec k (KEY_END Screen)); [congruence|].
  unfold printable in Hk. rewrite Hk. reflexivity.
Qed.

(** X2: typing character keys into a Text inserts their characters, in
    order, at the cursor, and leaves the cursor after the last of them:
    from the value [v] with the cursor at [column], the keys [ks] give
    [v[:column] + chars + v[column:]] and the column [column + len ks]. *)
Theorem Text_typing (Screen : ScreenT) (base : Widget) (text : str)
    (start_column : Z) (ks : list Z) :
  forall (v : str) (column : Z),
  Screen_ok Screen = true ->
  forallb printable ks = true ->
  0 <= column <= len v ->
  process_events Screen
    (set_variant base (Text text (Some v) column start_column)) (keys ks)
  = Ok (set_variant base
          (Text text
             (Some (py_slice_to v column ++ chars ks
                    ++ py_slice_from v column))
             (column + len ks) start_column)).
Proof.
  induction ks as [|k ks IH]; intros v column HS Hks Hc.
  - cbn [keys fmap list_fmap process_events chars concat app].
    rewrite slice_to_from. unfold len. cbn [length].
    now replace (column + Z.of_nat 0) with column by lia.
  - cbn [forallb] in Hks. apply andb_prop in Hks. destruct Hks as [Hk Hks].
    unfold keys. rewrite fmap_cons. cbn [process_events].
    rewrite Text_insert by assumption. cbn [bind].
    change (set_variant (set_variant base ?a) ?b) with (set_variant base b).
    fold (keys ks). unfold chr at 1. cbn [app].
    destruct (slice_insert v column (ascii_of_N (Z.to_N k)) Hc)
      as (E1 & E2 & _ & E4).
    cbn zeta in E1, E2, E4.
    rewrite IH by (try assumption; lia).
    rewrite E1, E2. unfold chars. rewrite fmap_cons. cbn [concat].
    unfold chr at 2. rewrite <- !app_assoc. cbn [app].
    do 3 f_equal. unfold len. simpl. lia.
Qed.

Lemma Text_typing_witness :
  process_events curses_keys
    (set_variant (Text_init (s "ab") None None)
       (Text (s "ab") (Some (s "ab")) 1 0)) (keys [88; 89])
  = Ok (set_variant (Text_init (s "ab") None None)
          (Text (s "ab")
             (Some (py_slice_to (s "ab") 1 ++ chars [88; 89]
                    ++ py_slice_from (s "ab") 1))
             (1 + len [88; 89]) 0)).
Proof.
  apply (Text_typing curses_keys (Text_init (s "ab") None None) (s "ab") 0
           [88; 89] (s "ab") 1).
  - reflexivity.
  - reflexivity.
  - vm_compute. split; discriminate.
Defined.

(** X3: a character key followed by Backspace gives back the Text as it
    was, value and cursor column, wherever the cursor is in the value. *)
Theorem Text_insert_then_backspace (Screen : ScreenT) (base : Widget)
    (text v : str) (column start_column k : Z) :
  Screen_ok Screen = true -> printable k = true ->
  0 <= column <= len v ->
  let self := set_variant base (Text text (Some v) column start_column) in
  process_events Screen self
    [KeyboardEvent k; KeyboardEvent (KEY_BACK Screen)]
  = Ok self.
Proof.
  intros HS Hk Hc self. unfold self. cbn [process_events].
  rewrite Text_insert by assumption. cbn [bind].
  unfold process_event. cbn [variant set_variant].
  unfold Text_process_event. rewrite Z.eqb_refl.
  destruct (Z.gtb_spec (column + 1) 0); [|lia].
  cbn [expect bind]. unfold chr. cbn [app].
  destruct (slice_insert v column (ascii_of_N (Z.to_N k)) Hc)
    as (_ & E2 & E3 & _).
  cbn zeta in E2, E3.
  replace (column + 1 - 1) with column by lia.
  rewrite E2, E3, slice_to_from. reflexivity.
Qed.

Lemma Text_insert_then_backspace_witness :
  process_events curses_keys
    (set_variant (Text_init (s "ab") None None)
       (Text (s "ab") (Some (s "ab")) 1 0))
    [KeyboardEvent 88; KeyboardEvent (KEY_BACK curses_keys)]
  = Ok (set_variant (Text_init (s "ab") None None)
          (Text (s "ab") (Some (s "ab")) 1 0)).
Proof.
  apply (Text_insert_then_backspace curses_keys
           (Text_init (s "ab") None None) (s "ab") (s "ab") 1 0 88).
  - reflexivity.
  - reflexivity.
  - vm_compute. split; discriminate.
Defined.

(** ** CheckBox *)

Lemma CheckBox_toggle (Screen : ScreenT) (base : Widget) (text : str)
    (value : option bool) (k : Z) :
  toggle_key k = true ->
  process_event Screen (set_variant base (CheckBox text value))
    (KeyboardEvent k)
  = Ok (set_variant base (CheckBox text (Some (py_not value))), None).
Proof.
  intros Hk. apply bool_decide_eq_true in Hk.
  unfold process_event. cbn [variant set_variant].
  unfold CheckBox_process_event.
  replace ((k =? 32) || (k =? 10) || (k =? 13)) with true; [reflexivity|].
  rewrite !elem_of_cons in Hk.
  destruct Hk as [->|[->|[->|Hk]]]; try reflexivity.
  now apply elem_of_nil in Hk.
Qed.

Lemma CheckBox_toggles (Screen : ScreenT) (base : Widget) (text : str)
    (ks : list Z) :
  forall b,
  forallb toggle_key ks = true ->
  process_events Screen (set_variant base (CheckBox text (Some b))) (keys ks)
  = Ok (set_variant base
          (CheckBox text (Some (xorb b (Nat.odd (length ks)))))).
Proof.
  induction ks as [|k ks IH]; intros b Hks.
  - cbn [keys fmap list_fmap process_events length]. now rewrite xorb_false_r.
  - cbn [forallb] in Hks. apply andb_prop in Hks. destruct Hks as [Hk Hks].
    unfold keys. rewrite fmap_cons. cbn [process_events].
    rewrite CheckBox_toggle by assumption. cbn [bind].
    change (set_variant (set_variant base ?a) ?b) with (set_variant base b).
    fold (keys ks). rewrite IH by assumption. cbn [py_not length].
    rewrite Nat.odd_succ, <- Nat.negb_odd.
    now destruct b, (Nat.odd (length ks)).
Qed.

(** X4: a CheckBox is unchecked after [reset], and every press of Space, LF
    or CR toggles it: after [reset] and [n] such presses its value is True
    exactly when [n] is odd, so two presses give back the value. *)
Theorem CheckBox_value_is_parity (Screen : ScreenT) (base : Widget)
    (text : str) (value0 : option bool) (ks : list Z) :
  forallb toggle_key ks = true ->
  exists self',
    (let* self := reset (set_variant base (CheckBox text value0)) in
     process_events Screen self (keys ks)) = Ok self'
    /\ value self' = VBool (Nat.odd (length ks)).
Proof.
  intros Hks. unfold reset. cbn [variant set_variant bind].
  unfold CheckBox_reset.
  change (set_variant (set_variant base ?a) ?b) with (set_variant base b).
  rewrite CheckBox_toggles by assumption.
  eexists. split; [reflexivity|]. reflexivity.
Qed.

Lemma CheckBox_value_is_parity_witness :
  exists self',
    (let* self := reset (CheckBox_init (s "check") None None) in
     process_events curses_keys self (keys [32; 13; 10])) = Ok self'
    /\ value self' = VBool (Nat.odd (length [32; 13; 10])).
Proof.
  apply (CheckBox_value_is_parity curses_keys
           (CheckBox_init (s "check") None None) (s "check") None
           [32; 13; 10]).
  reflexivity.
Defined.

(** ** RadioButtons *)

Lemma RadioButtons_downs (Screen : ScreenT) (base : Widget)
    (options : list (str * PyValue)) (start_column : Z) (m : nat) :
  forall value selection,
  KEY_UP Screen <> KEY_DOWN Screen ->
  RadioButtons_ok options value selection ->
  let selection' := Z.min (selection + Z.of_nat m) (len options - 1) in
  exists value',
    process_events Screen
      (set_variant base (RadioButtons options value selection start_column))
      (replicate m (KeyboardEvent (KEY_DOWN Screen)))
    = Ok (set_variant base
            (RadioButtons options value' selection' start_column))
    /\ RadioButtons_ok options value' selection'.
Proof.
  induction m as [|m IH]; intros value selection Hkeys Hok.
  - cbn [replicate process_events]. exists value. pose proof Hok as [Hs _].
    replace (Z.min (selection + Z.of_nat 0) (len options - 1))
      with selection by lia.
    auto.
  - pose proof Hok as (Hs & o & -> & Ho).
    cbn [replicate process_events].
    unfold process_event at 1. cbn [variant set_variant].
    unfold RadioButtons_process_event.
    destruct (Z.eqb_spec (KEY_DOWN Screen) (KEY_UP Screen)); [congruence|].
    rewrite Z.eqb_refl.
    destruct (py_getitem_in_range options
                (Z.min (selection + 1) (len options - 1)))
      as (o' & Ho' & ->); [lia|].
    cbn [bind].
    change (set_variant (set_variant base ?a) ?b) with (set_variant base b).
    destruct (IH (Some o') (Z.min (selection + 1) (len options - 1)) Hkeys)
      as (v' & Hrun & Hok').
    { split; [lia|]. eauto. }
    cbn zeta in Hrun, Hok'.
    replace (Z.min (Z.min (selection + 1) (len options - 1) + Z.of_nat m)
               (len options - 1))
      with (Z.min (selection + Z.of_nat (S m)) (len options - 1))
      in Hrun, Hok' by lia.
    eauto.
Qed.

Lemma RadioButtons_ups (Screen : ScreenT) (base : Widget)
    (options : list (str * PyValue)) (start_column : Z) (j : nat) :
  forall value selection,
  RadioButtons_ok options value selection ->
  let selection' := Z.max (selection - Z.of_nat j) 0 in
  exists value',
    process_events Screen
      (set_variant base (RadioButtons options value selection start_column))
      (replicate j (KeyboardEvent (KEY_UP Screen)))
    = Ok (set_variant base
            (RadioButtons options value' selection' start_column))
    /\ RadioButtons_ok options value' selection'.
Proof.
  induction j as [|j IH]; intros value selection Hok.
  - cbn [replicate process_events]. exists value. pose proof Hok as [Hs _].
    replace (Z.max (selection - Z.of_nat 0) 0) with selection by lia.
    auto.
  - pose proof Hok as (Hs & o & -> & Ho).
    cbn [replicate process_events].
    unfold process_event at 1. cbn [variant set_variant].
    unfold RadioButtons_process_event. rewrite Z.eqb_refl.
    destruct (py_getitem_in_range options (Z.max (selection - 1) 0))
      as (o' & Ho' & ->); [lia|].
    cbn [bind].
    change (set_variant (set_variant base ?a) ?b) with (set_variant base b).
    destruct (IH (Some o') (Z.max (selection - 1) 0))
      as (v' & Hrun & Hok').
    { split; [lia|]. eauto. }
    cbn zeta in Hrun, Hok'.
    replace (Z.max (Z.max (selection - 1) 0 - Z.of_nat j) 0)
      with (Z.max (selection - Z.of_nat (S j)) 0) in Hrun, Hok' by lia.
    eauto.
Qed.

(** X5: the selection of a RadioButtons does not wrap around at either end.
    After [reset], [m] presses of Down followed by [j] presses of Up leave
    the selection at [max(min(m, n - 1) - j, 0)], for [n] options, and
    [_value] is the option at that index. *)
Theorem RadioButtons_no_wraparound (Screen : ScreenT) (base : Widget)
    (options : list (str * PyValue)) (value0 : option (str * PyValue))
    (selection0 start_column : Z) (m j : nat) :
  KEY_UP Screen <> KEY_DOWN Screen ->
  options <> [] ->
  let downs := replicate m (KeyboardEvent (KEY_DOWN Screen)) in
  let ups := replicate j (KeyboardEvent (KEY_UP Screen)) in
  let selection :=
    Z.max (Z.min (Z.of_nat m) (len options - 1) - Z.of_nat j) 0 in
  exists self' o,
    (let* self :=
       reset (set_variant base
                (RadioButtons options value0 selection0 start_column)) in
     process_events Screen self (downs ++ ups)) = Ok self'
    /\ variant self' = RadioButtons options (Some o) selection start_column
    /\ options !! Z.to_nat selection = Some o.
Proof.
  intros Hkeys Hne downs ups selection.
  destruct (RadioButtons_reset_ok base options value0 selection0
              start_column Hne) as (v1 & -> & Hok1).
  cbn [bind]. rewrite process_events_app.
  destruct (RadioButtons_downs Screen base options start_column m v1 0 Hkeys
              Hok1) as (v2 & Hdown & Hok2).
  cbn zeta in Hdown, Hok2. fold downs in Hdown. rewrite Hdown. cbn [bind].
  destruct (RadioButtons_ups Screen base options start_column j v2 _ Hok2)
    as (v3 & Hup & Hs & o & -> & Ho).
  fold ups in Hup. rewrite Hup.
  replace (0 + Z.of_nat m) with (Z.of_nat m) in Ho by lia.
  exists (set_variant base
            (RadioButtons options (Some o) selection start_column)), o.
  split; [|split; [reflexivity|exact Ho]].
  reflexivity.
Qed.

Lemma RadioButtons_no_wraparound_witness :
  exists self' o,
    (let* self :=
       reset (RadioButtons_init [(s "A", VInt 1); (s "B", VInt 2)]
                None None) in
     process_events curses_keys self
       (replicate 3 (KeyboardEvent (KEY_DOWN curses_keys))
        ++ replicate 1 (KeyboardEvent (KEY_UP curses_keys)))) = Ok self'
    /\ variant self'
       = RadioButtons [(s "A", VInt 1); (s "B", VInt 2)] (Some o)
           (Z.max (Z.min (Z.of_nat 3)
                     (len [(s "A", VInt 1); (s "B", VInt 2)] - 1)
                   - Z.of_nat 1) 0) 0
    /\ [(s "A", VInt 1); (s "B", VInt 2)]
       !! Z.to_nat (Z.max (Z.min (Z.of_nat 3)
                             (len [(s "A", VInt 1); (s "B", VInt 2)] - 1)
                           - Z.of_nat 1) 0) = Some o.
Proof.
  apply (RadioButtons_no_wraparound curses_keys
           (RadioButtons_init [(s "A", VInt 1); (s "B", VInt 2)] None None)
           [(s "A", VInt 1); (s "B", VInt 2)] None 0 0 3 1).
  - discriminate.
  - discriminate.
Defined.

(** ** TextBox *)

Lemma Screen_ok_LEFT_RIGHT (Screen : ScreenT) :
  Screen_ok Screen = true ->
  (KEY_LEFT Screen <> 10 /\ KEY_LEFT Screen <> 13
   /\ KEY_LEFT Screen <> KEY_BACK Screen
   /\ KEY_LEFT Screen <> KEY_UP Screen
   /\ KEY_LEFT Screen <> KEY_DOWN Screen)
  /\ (KEY_RIGHT Screen <> 10 /\ KEY_RIGHT Screen <> 13
      /\ KEY_RIGHT Screen <> KEY_BACK Screen
      /\ KEY_RIGHT Screen <> KEY_UP Screen
      /\ KEY_RIGHT Screen <> KEY_DOWN Screen
      /\ KEY_RIGHT Screen <> KEY_LEFT Screen).
Proof.
  intros HS. screen_facts HS. repeat split; congruence.
Qed.

(** Resolve the chain of key tests once the key is known. *)
Ltac key_chain :=
  repeat first
    [ rewrite Z.eqb_refl
    | match goal with
      | |- context [?a =? ?b] => destruct (Z.eqb_spec a b); [congruence|]
      end ];
  cbn [orb].

(** A character key typed into a TextBox. *)
Lemma TextBox_insert (Screen : ScreenT) (base : Widget) (text : str)
    (ls : list str) (cur : str)
    (line column start_line start_column required_height k : Z) :
  Screen_ok Screen = true -> printable k = true ->
  0 <= line -> ls !! Z.to_nat line = Some cur ->
  process_event Screen
    (set_variant base
       (TextBox text (Some ls) line column start_line start_column
          required_height)) (KeyboardEvent k)
  = Ok (set_variant base
          (TextBox text
             (Some (<[Z.to_nat line:=
                      py_slice_to cur column ++ chr k
                      ++ py_slice_from cur column]> ls))
             line (column + 1) start_line start_column required_height),
        None).
Proof.
  intros HS Hk Hl Hcur.
  pose proof (lookup_len _ _ _ Hl Hcur) as Hlen.
  destruct (Screen_ok_printable Screen k HS Hk)
    as (H10 & H13 & Hb & Hu & Hd & Hle & Hr & Hh & He).
  unfold process_event. cbn [variant set_variant].
  unfold TextBox_process_event. key_chain.
  unfold printable in Hk. rewrite Hk.
  cbn [expect bind].
  rewrite (py_getitem_ok ls line cur) by assumption. cbn [bind].
  setitem ls line. reflexivity.
Qed.

(** X6: a character key followed by Backspace gives back the TextBox as it
    was: the list of lines, the cursor line and the cursor column, for every
    cursor inside the text. *)
Theorem TextBox_insert_then_backspace (Screen : ScreenT) (base : Widget)
    (text : str) (ls : list str) (cur : str)
    (line column start_line start_column required_height k : Z) :
  Screen_ok Screen = true -> printable k = true ->
  0 <= line -> ls !! Z.to_nat line = Some cur -> 0 <= column <= len cur ->
  let self :=
    set_variant base
      (TextBox text (Some ls) line column start_line start_column
         required_height) in
  process_events Screen self
    [KeyboardEvent k; KeyboardEvent (KEY_BACK Screen)]
  = Ok self.
Proof.
  intros HS Hk Hl Hcur Hc self. unfold self. cbn [process_events].
  pose proof (lookup_len _ _ _ Hl Hcur) as Hlen.
  rewrite (TextBox_insert Screen base text ls cur) by assumption.
  cbn [bind].
  destruct (Screen_ok_BACK_HOME Screen HS) as [[Hb1 Hb2] _].
  unfold process_event. cbn [variant set_variant].
  unfold TextBox_process_event.
  destruct (Z.eqb_spec (KEY_BACK Screen) 10); [congruence|].
  destruct (Z.eqb_spec (KEY_BACK Screen) 13); [congruence|].
  cbn [orb]. rewrite Z.eqb_refl.
  destruct (Z.gtb_spec (column + 1) 0); [|lia].
  cbn [expect bind].
  rewrite (py_getitem_ok _ line
             (py_slice_to cur column ++ chr k ++ py_slice_from cur column));
    [|lia|].
  2:{ apply list_lookup_insert_eq. unfold len in Hlen. lia. }
  cbn [bind]. rewrite py_setitem_ok by (rewrite len_insert; lia).
  cbn [bind]. unfold chr. cbn [app].
  destruct (slice_insert cur column (ascii_of_N (Z.to_N k)) Hc)
    as (_ & E2 & E3 & _).
  cbn zeta in E2, E3.
  replace (column + 1 - 1) with column by lia.
  rewrite E2, E3, slice_to_from, list_insert_insert_eq.
  now rewrite (list_insert_id ls (Z.to_nat line) cur) by assumption.
Qed.

Lemma TextBox_insert_then_backspace_witness :
  process_events curses_keys hello_box
    [KeyboardEvent 88; KeyboardEvent (KEY_BACK curses_keys)]
  = Ok hello_box.
Proof.
  apply (TextBox_insert_then_backspace curses_keys
           (TextBox_init (s "hello") 3 None None) (s "hello") [s "hello"]
           (s "hello") 0 2 0 0 3 88).
  - reflexivity.
  - reflexivity.
  - lia.
  - reflexivity.
  - vm_compute. split; discriminate.
Defined.

(** X7: in a TextBox, Right followed by Left gives back the cursor, also
    across the end of a line, unless the cursor is at the very end of the
    text (where Right does not move); Left followed by Right gives it back
    unless the cursor is at the very start.  The lines are not changed. *)
Theorem TextBox_right_then_left (Screen : ScreenT) (base : Widget)
    (text : str) (ls : list str) (cur : str)
    (line column start_line start_column required_height : Z) :
  Screen_ok Screen = true ->
  0 <= line -> ls !! Z.to_nat line = Some cur -> 0 <= column <= len cur ->
  let self :=
    set_variant base
      (TextBox text (Some ls) line column start_line start_column
         required_height) in
  let left := KeyboardEvent (KEY_LEFT Screen) in
  let right := KeyboardEvent (KEY_RIGHT Screen) in
  (~ (line = len ls - 1 /\ column = len cur) ->
   process_events Screen self [right; left] = Ok self)
  /\ (~ (line = 0 /\ column = 0) ->
      process_events Screen self [left; right] = Ok self).
Proof.
  intros HS Hl Hcur Hc self left right.
  pose proof (lookup_len _ _ _ Hl Hcur) as Hlen.
  destruct (Screen_ok_LEFT_RIGHT Screen HS)
    as ((L1 & L2 & L3 & L4 & L5) & (R1 & R2 & R3 & R4 & R5 & R6)).
  assert (Hright : forall l c x,
            0 <= l -> ls !! Z.to_nat l = Some x ->
            process_event Screen
              (set_variant base
                 (TextBox text (Some ls) l c start_line start_column
                    required_height)) right
            = Ok (set_variant base
                    (TextBox text (Some ls)
                       (if c + 1 >? len x
                        then if l <? len ls - 1 then l + 1 else l
                        else l)
                       (if c + 1 >? len x
                        then if l <? len ls - 1 then 0 else len x
                        else c + 1)
                       start_line start_column required_height), None)).
  { intros l c x Hl' Hx.
    unfold process_event, right. cbn [variant set_variant].
    unfold TextBox_process_event. key_chain.
    cbn [expect bind].
    rewrite (py_getitem_ok ls l x) by assumption. cbn [bind].
    destruct (c + 1 >? len x); [|reflexivity].
    destruct (l <? len ls - 1); reflexivity. }
  assert (Hleft : forall l c,
            (c - 1 <? 0) = false ->
            process_event Screen
              (set_variant base
                 (TextBox text (Some ls) l c start_line start_column
                    required_height)) left
            = Ok (set_variant base
                    (TextBox text (Some ls) l (c - 1) start_line
                       start_column required_height), None)).
  { intros l c Hc'.
    unfold process_event, left. cbn [variant set_variant].
    unfold TextBox_process_event. key_chain. now rewrite Hc'. }
  assert (Hwrap : forall l x,
            0 < l -> ls !! Z.to_nat (l - 1) = Some x ->
            process_event Screen
              (set_variant base
                 (TextBox text (Some ls) l 0 start_line start_column
                    required_height)) left
            = Ok (set_variant base
                    (TextBox text (Some ls) (l - 1) (len x) start_line
                       start_column required_height), None)).
  { intros l x Hl' Hx.
    unfold process_event, left. cbn [variant set_variant].
    unfold TextBox_process_event. key_chain.
    destruct (Z.ltb_spec (0 - 1) 0); [|lia].
    destruct (Z.gtb_spec l 0); [|lia].
    cbn [expect bind].
    rewrite (py_getitem_ok ls (l - 1) x) by (assumption || lia).
    reflexivity. }
  split; intros Hnot; unfold self; cbn [process_events].
  - rewrite (Hright line column cur) by assumption. cbn [bind].
    destruct (Z.gtb_spec (column + 1) (len cur)).
    + destruct (Z.ltb_spec line (len ls - 1)); [|lia].
      rewrite (Hwrap (line + 1) cur); [|lia|].
      2:{ now replace (line + 1 - 1) with line by lia. }
      cbn [bind]. replace (line + 1 - 1) with line by lia.
      now replace (len cur) with column by lia.
    + rewrite Hleft by (apply Z.ltb_ge; lia). cbn [bind].
      now replace (column + 1 - 1) with column by lia.
  - destruct (Z.eq_dec column 0) as [->|Hne].
    + assert (0 < line) by lia.
      destruct (py_getitem_in_range ls (line - 1)) as (x & Hx & _); [lia|].
      rewrite (Hwrap line x) by assumption. cbn [bind].
      rewrite (Hright (line - 1) (len x) x) by (assumption || lia).
      cbn [bind].
      destruct (Z.gtb_spec (len x + 1) (len x)); [|lia].
      destruct (Z.ltb_spec (line - 1) (len ls - 1)); [|lia].
      now replace (line - 1 + 1) with line by lia.
    + rewrite Hleft by (apply Z.ltb_ge; lia). cbn [bind].
      rewrite (Hright line (column - 1) cur) by assumption. cbn [bind].
      replace (column - 1 + 1) with column by lia.
      destruct (Z.gtb_spec column (len cur)); [lia|reflexivity].
Qed.

Lemma TextBox_right_then_left_witness :
  (~ (0 = len [s "hello"] - 1 /\ 2 = len (s "hello")) ->
   process_events curses_keys hello_box
     [KeyboardEvent (KEY_RIGHT curses_keys);
      KeyboardEvent (KEY_LEFT curses_keys)] = Ok hello_box)
  /\ (~ (0 = 0 /\ 2 = 0) ->
      process_events curses_keys hello_box
        [KeyboardEvent (KEY_LEFT curses_keys);
         KeyboardEvent (KEY_RIGHT curses_keys)] = Ok hello_box).
Proof.
  apply (TextBox_right_then_left curses_keys
           (TextBox_init (s "hello") 3 None None) (s "hello") [s "hello"]
           (s "hello") 0 2 0 0 3).
  - reflexivity.
  - lia.
  - reflexivity.
  - vm_compute. split; discriminate.
Defined.

Lemma join_split_lines (text : str) : join_lines (split_lines text) = text.
Proof.
  induction text as [|c text IH]; [reflexivity|].
  cbn [split_lines]. destruct (Ascii.eqb_spec c newline) as [->|Hc].
  - cbn [join_lines]. rewrite IH.
    pose proof (split_lines_nonempty text).
    destruct (split_lines text); [congruence|reflexivity].
  - pose proof (split_lines_nonempty text).
    destruct (split_lines text) as [|l ls]; [congruence|].
    cbn [join_lines] in *. destruct ls; rewrite <- IH; reflexivity.
Qed.

Lemma split_lines_no_newline (text : str) :
  Forall (fun l => newline ∉ l) (split_lines text).
Proof.
  induction text as [|c text IH].
  - repeat constructor. apply not_elem_of_nil.
  - cbn [split_lines]. destruct (Ascii.eqb_spec c newline) as [->|Hc].
    + constructor; [apply not_elem_of_nil|assumption].
    + destruct (split_lines text) as [|l ls].
      * repeat constructor. rewrite list_elem_of_singleton. congruence.
      * inversion IH as [|? ? Hl Hls]; subst. constructor; [|assumption].
        rewrite not_elem_of_cons. split; [congruence|assumption].
Qed.

(** X8: [reset] splits the text of a TextBox at the line breaks: no line of
    the value holds a line break, the lines joined by line breaks are the
    text again, and the cursor is at the end of the last line. *)
Theorem TextBox_reset_lines (base : Widget) (text : str)
    (value0 : option (list str))
    (line0 column0 start_line start_column required_height : Z) :
  exists ls last_line,
    reset (set_variant base
             (TextBox text value0 line0 column0 start_line start_column
                required_height))
    = Ok (set_variant base
            (TextBox text (Some ls) (len ls - 1) (len last_line) start_line
               start_column required_height))
    /\ last ls = Some last_line
    /\ join_lines ls = text
    /\ Forall (fun l => newline ∉ l) ls.
Proof.
  unfold reset. cbn [variant set_variant]. unfold TextBox_reset.
  pose proof (split_lines_nonempty text) as Hne.
  assert (0 < len (split_lines text)).
  { unfold len. destruct (split_lines text); [congruence|simpl; lia]. }
  getitem (split_lines text) (len (split_lines text) - 1).
  exists (split_lines text), x. split; [reflexivity|].
  split; [|split].
  - rewrite last_lookup. rewrite <- Hx. f_equal. unfold len. lia.
  - apply join_split_lines.
  - apply split_lines_no_newline.
Qed.

(** X9: [update] on a TextBox whose text area has at least one row and one
    column ([_h >= 3] and [_w - _offset >= 3]) moves the two scroll offsets
    no further than needed: afterwards the cursor line is one of the
    [_h - 2] lines shown and the cursor column one of the [width - 2]
    columns shown, and offsets under which the cursor was already shown
    are kept. *)
Theorem TextBox_update_scroll (base : Widget) (text : str) (ls : list str)
    (cur : str)
    (line column start_line start_column required_height frame_no : Z) :
  let self :=
    set_variant base
      (TextBox text (Some ls) line column start_line start_column
         required_height) in
  let w := _w self - _offset self in
  let h := _h self in
  let first_line :=
    Z.max 0 (Z.max (line - h + 3) (Z.min start_line line)) in
  let first_column :=
    Z.max 0 (Z.max (column - w + 3) (Z.min start_column column)) in
  3 <= w -> 3 <= h ->
  0 <= line -> ls !! Z.to_nat line = Some cur -> 0 <= column <= len cur ->
  update self frame_no
  = Ok (set_variant base
          (TextBox text (Some ls) line column first_line first_column
             required_height))
  /\ first_line <= line < first_line + h - 2
  /\ first_column <= column < first_column + w - 2
  /\ (0 <= start_line <= line /\ line < start_line + h - 2 ->
      first_line = start_line)
  /\ (0 <= start_column <= column /\ column < start_column + w - 2 ->
      first_column = start_column).
Proof.
  intros self w h first_line first_column Hw Hh Hl Hcur Hc.
  split; [|subst first_line first_column; lia].
  unfold update, self. cbn [variant set_variant]. unfold TextBox_update.
  cbn [expect bind _has_focus _w _h _offset set_variant].
  destruct (_has_focus base); [|reflexivity].
  destruct (frame_no mod 10 <? 5); [reflexivity|].
  rewrite (py_getitem_ok ls line cur) by assumption. cbn [bind].
  destruct (Z.ltb_spec column (len cur)); [|reflexivity].
  destruct (py_getitem_in_range cur column) as (c & _ & ->); [lia|].
  reflexivity.
Qed.

Lemma TextBox_update_scroll_witness :
  let self := set_layout hello_box 0 0 0 5 3 in
  update self 0
  = Ok (set_variant self (TextBox (s "hello") (Some [s "hello"]) 0 2 0 0 3))
  /\ 0 <= 0 < 0 + 3 - 2
  /\ 0 <= 2 < 0 + 5 - 2
  /\ (0 <= 0 <= 0 /\ 0 < 0 + 3 - 2 -> 0 = 0)
  /\ (0 <= 0 <= 2 /\ 2 < 0 + 5 - 2 -> 0 = 0).
Proof.
  apply (TextBox_update_scroll
           (set_layout (TextBox_init (s "hello") 3 None None) 0 0 0 5 3)
           (s "hello") [s "hello"] (s "hello") 0 2 0 0 3 0).
  - simpl. lia.
  - simpl. lia.
  - lia.
  - reflexivity.
  - vm_compute. split; discriminate.
Defined.

(** ** Every class *)

Lemma split_lines_last (text : str) :
  exists x,
    0 < len (split_lines text)
    /\ split_lines text !! Z.to_nat (len (split_lines text) - 1) = Some x
    /\ py_getitem (split_lines text) (len (split_lines text) - 1) = Ok x.
Proof.
  pose proof (split_lines_nonempty text) as Hne.
  assert (0 < len (split_lines text)).
  { unfold len. destruct (split_lines text); [congruence|simpl; lia]. }
  destruct (py_getitem_in_range (split_lines text)
              (len (split_lines text) - 1)) as (x & Hx & E); [lia|].
  eauto.
Qed.

Lemma reset_Widget_ok (self self0 : Widget) :
  reset self = Ok self0 -> Widget_ok self0.
Proof.
  destruct self as [n l hf x y w h o ts v]. unfold reset, Widget_ok.
  cbn [variant]. destruct v as [t|d rh|t v c sc|t v|os v sel sc|t v li c sl sc rh].
  - intros [= <-]. exact I.
  - intros [= <-]. exact I.
  - intros [= <-]. cbn. exists t. split; [reflexivity|].
    pose proof (len_nonneg t). lia.
  - intros [= <-]. cbn. eauto.
  - unfold RadioButtons_reset. intros H.
    destruct os as [|op os]; [discriminate|].
    injection H as <-. cbn. split; [unfold len; simpl; lia|]. eauto.
  - unfold TextBox_reset. intros H.
    destruct (split_lines_last t) as (x0 & Hl & Hx & E).
    rewrite E in H. cbn [bind] in H. injection H as <-. cbn.
    exists (split_lines t), x0. pose proof (len_nonneg x0).
    split; [reflexivity|]. split; [lia|]. split; [assumption|lia].
Qed.

Lemma process_event_Widget_ok (Screen : ScreenT) (self : Widget)
    (event : Event) :
  Widget_ok self ->
  exists self' back,
    process_event Screen self event = Ok (self', back) /\ Widget_ok self'.
Proof.
  destruct self as [n l hf x y w h o ts v]. unfold Widget_ok.
  cbn [variant].
  destruct v as [t|d rh|t v c sc|t v|os v sel sc|t v li c sl sc rh];
    intros Hok.
  - do 2 eexists. split; [reflexivity|exact I].
  - do 2 eexists. split; [reflexivity|exact I].
  - destruct (Text_step_ok Screen (mkWidget n l hf x y w h o ts (Label []))
                t v c sc event Hok) as (v' & c' & back & E & Hok').
    do 2 eexists. split; [exact E|exact Hok'].
  - unfold process_event. cbn [variant]. unfold CheckBox_process_event.
    destruct event as [k|tag]; [|eauto].
    destruct ((k =? 32) || (k =? 10) || (k =? 13)); [|eauto].
    do 2 eexists. split; [reflexivity|]. cbn. eauto.
  - destruct (RadioButtons_step_ok Screen
                (mkWidget n l hf x y w h o ts (Label [])) os v sel sc event
                Hok) as (v' & s' & back & E & Hok').
    do 2 eexists. split; [exact E|exact Hok'].
  - destruct (TextBox_step_ok Screen
                (mkWidget n l hf x y w h o ts (Label [])) t v li c sl sc rh
                event Hok) as (v' & l' & c' & back & E & Hok').
    do 2 eexists. split; [exact E|exact Hok'].
Qed.

Lemma process_events_Widget_ok (Screen : ScreenT) (events : list Event) :
  forall self,
  Widget_ok self ->
  exists self', process_events Screen self events = Ok self'
                /\ Widget_ok self'.
Proof.
  induction events as [|e events IH]; intros self Hok.
  - exists self. auto.
  - destruct (process_event_Widget_ok Screen self e Hok)
      as (self1 & back & E & Hok1).
    cbn [process_events]. rewrite E. cbn [bind]. now apply IH.
Qed.

Lemma update_Widget_ok (self : Widget) (frame_no : Z) :
  Widget_ok self ->
  exists self', update self frame_no = Ok self' /\ Widget_ok self'.
Proof.
  destruct self as [n l hf x y w h o ts v]. unfold Widget_ok, update.
  cbn [variant].
  destruct v as [t|d rh|t v c sc|t v|os v sel sc|t v li c sl sc rh];
    intros Hok; try (eexists; split; [reflexivity|exact Hok]).
  - destruct Hok as (s & -> & Hc). unfold Text_update.
    cbn [expect bind _has_focus].
    assert (E : exists r,
               (if hf then
                  if c <? len s
                  then let* ch := py_getitem s c in Ok [ch]
                  else Ok [" "%char]
                else Ok []) = Ok r).
    { destruct hf; [|eauto]. destruct (Z.ltb_spec c (len s)); [|eauto].
      destruct (py_getitem_in_range s c) as (ch & _ & ->); [lia|].
      cbn [bind]. eauto. }
    destruct E as (r & ->). cbn [bind]. eexists. split; [reflexivity|].
    cbn. exists s. auto.
  - destruct Hok as (ls & cur & -> & Hl & Hcur & Hc). unfold TextBox_update.
    cbn [expect bind _has_focus].
    assert (E : exists r,
               (if hf then
                  if frame_no mod 10 <? 5 then Ok [" "%char]
                  else
                    let* cur := py_getitem ls li in
                    if c <? len cur
                    then let* ch := py_getitem cur c in Ok [ch]
                    else Ok [" "%char]
                else Ok []) = Ok r).
    { destruct hf; [|eauto]. destruct (frame_no mod 10 <? 5); [eauto|].
      rewrite (py_getitem_ok ls li cur) by assumption. cbn [bind].
      destruct (Z.ltb_spec c (len cur)); [|eauto].
      destruct (py_getitem_in_range cur c) as (ch & _ & ->); [lia|].
      cbn [bind]. eauto. }
    destruct E as (r & ->). cbn [bind]. eexists. split; [reflexivity|].
    cbn. exists ls, cur. auto.
Qed.

(** X10: once [reset] has returned, a widget of any class never raises:
    every sequence of events is processed, and [update] afterwards reads
    the value and the character under the cursor without raising, whatever
    the frame number (what the canvas does with the text painted is not
    part of the widget). *)
Theorem widget_never_raises_after_reset (Screen : ScreenT)
    (self self0 : Widget) (events : list Event) (frame_no : Z) :
  reset self = Ok self0 ->
  exists self1 self2,
    process_events Screen self0 events = Ok self1
    /\ update self1 frame_no = Ok self2.
Proof.
  intros Hreset. apply reset_Widget_ok in Hreset.
  destruct (process_events_Widget_ok Screen events self0 Hreset)
    as (self1 & Hrun & Hok1).
  destruct (update_Widget_ok self1 frame_no Hok1) as (self2 & Hup & _).
  eauto.
Qed.

Lemma widget_never_raises_after_reset_witness :
  exists self1 self2,
    process_events curses_keys
      (from_ok hello_box (reset (TextBox_init (s "hello") 3 None None)))
      [KeyboardEvent 10; KeyboardEvent (KEY_UP curses_keys)] = Ok self1
    /\ update self1 7 = Ok self2.
Proof.
  apply (widget_never_raises_after_reset curses_keys
           (TextBox_init (s "hello") 3 None None)).
  reflexivity.
Defined.

(** X11: [reset] raises for one kind of widget only, a RadioButtons
    without options, and the exception then is IndexError. *)
Theorem reset_raises_without_options (self : Widget) (e : failure) :
  reset self = Raise e
  <-> e = IndexError
      /\ exists value selection start_column,
           variant self = RadioButtons [] value selection start_column.
Proof.
  destruct self as [n l hf x y w h o ts v]. unfold reset. cbn [variant].
  destruct v as [t|d rh|t v c sc|t v|os v sel sc|t v li c sl sc rh];
    try (split; [discriminate|intros (_ & ? & ? & ? & [=])]).
  - destruct os as [|op os].
    + split.
      * intros [= <-]. eauto 6.
      * intros [-> _]. reflexivity.
    + split; [discriminate|]. intros (_ & ? & ? & ? & [=]).
  - split; [|intros (_ & ? & ? & ? & [=])].
    unfold TextBox_reset.
    destruct (split_lines_last t) as (x0 & _ & _ & ->). discriminate.
Qed.

(** X12: the value of a Text, a TextBox or a CheckBox changes on editing
    keys only: a key that is neither CR, LF, Backspace nor a character key
    (the cursor keys among them) leaves [value] as it was, whatever else
    the widget does with it. *)
Theorem value_changes_on_editing_keys_only (Screen : ScreenT)
    (self self' : Widget) (k : Z) (back : option Event) :
  kind_of self <> KRadioButtons ->
  k <> 10 -> k <> 13 -> k <> KEY_BACK Screen -> printable k = false ->
  process_event Screen self (KeyboardEvent k) = Ok (self', back) ->
  value self' = value self.
Proof.
  intros Hkind H10 H13 Hb Hp.
  assert (H32 : (k =? 32) = false).
  { destruct (Z.eqb_spec k 32) as [->|]; [discriminate|reflexivity]. }
  apply Z.eqb_neq in H10, H13, Hb. unfold printable in Hp.
  unfold process_event, kind_of, value in *.
  destruct (variant self) eqn:Hv; intros H.
  - injection H as <- <-. now rewrite Hv.
  - injection H as <- <-. now rewrite Hv.
  - unfold Text_process_event in H. rewrite Hb, Hp in H.
    destruct _value; cbn [expect bind] in H; result_inv H;
      injection H as <- <-; cbn [variant set_variant]; try reflexivity;
      now rewrite Hv.
  - unfold CheckBox_process_event in H. rewrite H32, H10, H13 in H.
    injection H as <- <-. now rewrite Hv.
  - congruence.
  - unfold TextBox_process_event in H. rewrite H10, H13, Hb, Hp in H.
    cbn [orb] in H.
    destruct _value; cbn [expect bind] in H; result_inv H;
      injection H as <- <-; cbn [variant set_variant]; try reflexivity;
      now rewrite Hv.
Qed.

Lemma value_changes_on_editing_keys_only_witness :
  value (set_variant hello_box
           (TextBox (s "hello") (Some [s "hello"]) 0 1 0 0 3))
  = value hello_box.
Proof.
  apply (value_changes_on_editing_keys_only curses_keys hello_box _
           (KEY_LEFT curses_keys) None).
  - discriminate.
  - discriminate.
  - discriminate.
  - discriminate.
  - reflexivity.
  - reflexivity.
Defined.

(** X13: a Text or a TextBox that was never [reset] has no value to edit:
    a character key typed into it raises TypeError. *)
Theorem typing_before_reset_raises (Screen : ScreenT) (text : str)
    (height : Z) (label name : option str) (k : Z) :
  Screen_ok Screen = true -> printable k = true ->
  process_event Screen (Text_init text label name) (KeyboardEvent k)
  = Raise TypeError
  /\ process_event Screen (TextBox_init text height label name)
       (KeyboardEvent k)
     = Raise TypeError.
Proof.
  intros HS Hk.
  destruct (Screen_ok_printable Screen k HS Hk)
    as (H10 & H13 & Hb & Hu & Hd & Hle & Hr & Hh & He).
  unfold printable in Hk.
  unfold process_event, Text_init, TextBox_init, Widget_init.
  cbn [variant]. unfold Text_process_event, TextBox_process_event.
  split; key_chain; rewrite Hk; reflexivity.
Qed.

Lemma typing_before_reset_raises_witness :
  process_event curses_keys (Text_init (s "hello") None None)
    (KeyboardEvent 88) = Raise TypeError
  /\ process_event curses_keys (TextBox_init (s "hello") 3 None None)
       (KeyboardEvent 88) = Raise TypeError.
Proof.
  apply (typing_before_reset_raises curses_keys (s "hello") 3 None None 88).
  - reflexivity.
  - reflexivity.
Defined.

(** * Further properties of the Layout *)

(** ** Construction *)

(** X14: [Layout] raises exactly when it is given column weights that sum
    to 0 (an empty list of weights is accepted), and the exception is
    ZeroDivisionError. *)
Theorem Layout_init_raises (columns : list Z) (e : failure) :
  Layout_init columns = Raise e
  <-> e = ZeroDivisionError /\ columns <> [] /\ sumZ columns = 0.
Proof.
  unfold Layout_init.
  change (fold_right Z.add 0 columns) with (sumZ columns).
  destruct columns as [|x columns].
  - cbn [bind]. split; [discriminate|]. intros (_ & H & _). congruence.
  - destruct (Z.eqb_spec (sumZ (x :: columns)) 0) as [E|E]; cbn [bind].
    + split.
      * intros [= <-]. split; [reflexivity|].
        split; [discriminate|assumption].
      * intros (-> & _). reflexivity.
    + split; [discriminate|]. intros (_ & _ & H). congruence.
Qed.

Lemma py_index_inv {A} (l : list A) (i : Z) (n : nat) :
  py_index l i = Ok n ->
  - len l <= i < len l /\ n = Z.to_nat (i mod len l)
  /\ (n < length l)%nat.
Proof.
  unfold py_index.
  destruct (Z.leb_spec 0 i), (Z.ltb_spec i (len l)); cbn [andb].
  - intros [= <-]. rewrite Z.mod_small by lia. unfold len in *. lia.
  - destruct (Z.ltb_spec i 0); [lia|discriminate].
  - destruct (Z.ltb_spec i 0); [|lia]. cbn [andb].
    destruct (Z.leb_spec 0 (i + len l)); [|discriminate].
    intros [= <-].
    replace (i mod len l) with (i + len l).
    + unfold len in *. lia.
    + apply Z.mod_unique with (q := -1); lia.
  - destruct (Z.ltb_spec i 0); [|lia]. cbn [andb].
    destruct (Z.leb_spec 0 (i + len l)); [lia|discriminate].
Qed.

Lemma py_index_out {A} (l : list A) (i : Z) :
  ~ (- len l <= i < len l) -> py_index l i = Raise IndexError.
Proof.
  intros H. unfold py_index.
  destruct (Z.leb_spec 0 i), (Z.ltb_spec i (len l)); cbn [andb];
    try lia; destruct (Z.ltb_spec i 0); cbn [andb]; try reflexivity;
    destruct (Z.leb_spec 0 (i + len l)); try reflexivity; lia.
Qed.

Lemma py_index_in {A} (l : list A) (i : Z) :
  - len l <= i < len l -> exists n, py_index l i = Ok n.
Proof.
  intros H. unfold py_index.
  destruct (Z.leb_spec 0 i), (Z.ltb_spec i (len l)); cbn [andb];
    try lia; eauto.
  destruct (Z.ltb_spec i 0); [|lia]. cbn [andb].
  destruct (Z.leb_spec 0 (i + len l)); [eauto|lia].
Qed.

(** What a successful [add_widget] does to the columns. *)
Lemma add_widget_inv (l l' : Layout) (wd : Widget) (c : Z) :
  add_widget l wd c = Ok l' ->
  exists n column,
    - len (_columns l) <= c < len (_columns l)
    /\ n = Z.to_nat (c mod len (_columns l))
    /\ _columns l !! n = Some column
    /\ l' = set_columns l (<[n:=column ++ [wd]]> (_columns l)).
Proof.
  unfold add_widget, py_getitem, py_setitem. intros H.
  destruct (py_index (_columns l) c) as [n|] eqn:E; [|discriminate].
  apply py_index_inv in E. destruct E as (Hc & Hn & Hlt).
  cbn [bind] in H.
  destruct (_columns l !! n) as [column|] eqn:Hcol; [|discriminate].
  cbn [bind] in H. injection H as <-. eauto 6.
Qed.

(** X15: [add_widget] accepts a column index [c] with [-n <= c < n] for a
    Layout of [n] columns, a negative index counting from the last column;
    it appends the widget to that column and changes nothing else.  Any
    other index raises IndexError. *)
Theorem add_widget_column_index (l : Layout) (wd : Widget) (c : Z) :
  let n := len (_columns l) in
  (- n <= c < n ->
   exists column,
     _columns l !! Z.to_nat (c mod n) = Some column
     /\ add_widget l wd c
        = Ok (set_columns l
                (<[Z.to_nat (c mod n):=column ++ [wd]]> (_columns l))))
  /\ (~ (- n <= c < n) -> add_widget l wd c = Raise IndexError).
Proof.
  intros n. split; intros Hc.
  - destruct (py_index_in (_columns l) c Hc) as (k & E).
    pose proof (py_index_inv _ _ _ E) as (_ & Hk & Hlt).
    destruct (lookup_lt_is_Some_2 (_columns l) k Hlt) as [column Hcol].
    fold n in Hk. subst k. exists column. split; [assumption|].
    unfold add_widget, py_getitem, py_setitem. rewrite E. cbn [bind].
    rewrite Hcol. reflexivity.
  - unfold add_widget, py_getitem.
    now rewrite py_index_out by assumption.
Qed.

Lemma forallb_Forall {A} (p : A -> bool) (l : list A) :
  forallb p l = true <-> Forall (fun x => p x = true) l.
Proof.
  induction l as [|x l IH]; cbn [forallb].
  - split; [constructor|reflexivity].
  - rewrite andb_true_iff, IH. split.
    + intros [? ?]. now constructor.
    + intros H. inversion H; subst. auto.
Qed.

Lemma existsb_Exists {A} (p : A -> bool) (l : list A) :
  existsb p l = true <-> Exists (fun x => p x = true) l.
Proof.
  induction l as [|x l IH]; cbn [existsb].
  - split; [discriminate|]. intros H. inversion H.
  - rewrite orb_true_iff, IH. split.
    + intros [?|?]; [now left|now right].
    + intros H. inversion H; subst; auto.
Qed.

Lemma forallb_fmap {A B} (p : B -> bool) (g : A -> B) (l : list A) :
  forallb p (g <$> l) = forallb (fun x => p (g x)) l.
Proof.
  induction l as [|x l IH]; [reflexivity|].
  rewrite fmap_cons. cbn [forallb]. now rewrite IH.
Qed.

(** The Layout as [Layout.__init__] leaves it. *)
Lemma Layout_init_ready (columns : list Z) (l : Layout) :
  Layout_init columns = Ok l ->
  sizes_match l = true
  /\ forallb (forallb negb) (layout_flags l) = true
  /\ has_tab_stop l = false.
Proof.
  unfold Layout_init. intros H.
  match type of H with bind ?m _ = _ => destruct m as [sizes|] eqn:E end;
    [|discriminate].
  cbn [bind] in H. injection H as <-.
  unfold sizes_match, layout_flags, has_tab_stop.
  cbn [_column_sizes _columns].
  split; [|split].
  - apply Nat.eqb_eq. rewrite length_fmap.
    destruct columns as [|x columns]; [now injection E as <-|].
    destruct (_ =? 0); [discriminate|]. injection E as <-.
    cbn [length]. f_equal. apply length_fmap.
  - clear E. induction columns as [|x columns IH]; [reflexivity|].
    rewrite !fmap_cons. cbn [forallb]. exact IH.
  - clear E. induction columns as [|x columns IH]; [reflexivity|].
    rewrite fmap_cons. cbn [existsb]. exact IH.
Qed.

(** What [add_widget] keeps of a Layout. *)
Lemma add_widget_ready (l l' : Layout) (wd : Widget) (c : Z) :
  add_widget l wd c = Ok l' ->
  (sizes_match l = true -> sizes_match l' = true)
  /\ (forallb (forallb negb) (layout_flags l) = true ->
      _has_focus wd = false ->
      forallb (forallb negb) (layout_flags l') = true)
  /\ (has_tab_stop l = true \/ is_tab_stop wd = true ->
      has_tab_stop l' = true).
Proof.
  intros H. apply add_widget_inv in H.
  destruct H as (n & column & _ & _ & Hcol & ->).
  unfold sizes_match, layout_flags, has_tab_stop.
  cbn [_column_sizes _columns set_columns].
  split; [|split].
  - now rewrite length_insert.
  - intros Hq Hwd. rewrite list_fmap_insert.
    rewrite forallb_Forall in *. apply Forall_insert; [assumption|].
    unfold column_flags. rewrite fmap_app, forallb_app.
    rewrite Forall_lookup in Hq.
    fold (column_flags column).
    rewrite (Hq n (column_flags column))
      by (now rewrite list_lookup_fmap, Hcol).
    cbn. now rewrite Hwd.
  - intros Ht. rewrite existsb_Exists in *. rewrite Exists_exists.
    destruct Ht as [Ht|Ht].
    + rewrite Exists_exists in Ht. destruct Ht as (col0 & Hin & Hcol0).
      apply list_elem_of_lookup_1 in Hin. destruct Hin as (j & Hj).
      destruct (Nat.eq_dec j n) as [->|Hne].
      * exists (column ++ [wd]). split.
        -- eapply list_elem_of_lookup_2. apply list_lookup_insert_eq.
           now apply lookup_lt_Some in Hcol.
        -- rewrite existsb_app. replace col0 with column in Hcol0
             by congruence.
           now rewrite Hcol0.
      * exists col0. split; [|assumption].
        apply (list_elem_of_lookup_2 _ j).
        rewrite list_lookup_insert_ne by lia. exact Hj.
    + exists (column ++ [wd]). split.
      * eapply list_elem_of_lookup_2. apply list_lookup_insert_eq.
        now apply lookup_lt_Some in Hcol.
      * rewrite existsb_app. cbn. rewrite Ht. now rewrite !orb_true_r.
Qed.

Lemma add_widgets_ready (widgets : list (Widget * Z)) :
  forall l l',
  add_widgets l widgets = Ok l' ->
  forallb (fun wc : Widget * Z => negb (_has_focus wc.1)) widgets = true ->
  sizes_match l = true ->
  forallb (forallb negb) (layout_flags l) = true ->
  sizes_match l' = true
  /\ forallb (forallb negb) (layout_flags l') = true
  /\ (has_tab_stop l = true
      \/ existsb (fun wc : Widget * Z => is_tab_stop wc.1) widgets = true ->
      has_tab_stop l' = true).
Proof.
  induction widgets as [|[wd c] widgets IH]; intros l l' H Hfresh Hs Hq.
  - injection H as <-. split; [assumption|]. split; [assumption|].
    intros [?|?]; [assumption|discriminate].
  - cbn [add_widgets] in H.
    destruct (add_widget l wd c) as [l1|] eqn:E; [|discriminate].
    cbn [bind] in H. cbn [forallb fst] in Hfresh.
    apply andb_prop in Hfresh. destruct Hfresh as [Hwd Hfresh].
    apply negb_true_iff in Hwd.
    destruct (add_widget_ready l l1 wd c E) as (Hs1 & Hq1 & Ht1).
    destruct (IH l1 l' H Hfresh (Hs1 Hs) (Hq1 Hq Hwd)) as (Hs' & Hq' & Ht').
    split; [assumption|]. split; [assumption|].
    intros Ht. apply Ht'. cbn [existsb fst] in Ht.
    rewrite orb_true_iff in Ht. tauto.
Qed.

Lemma add_layouts_ready (layouts : list (list Z * list (Widget * Z))) :
  forall f f',
  add_layouts f layouts = Ok f' ->
  fresh layouts = true ->
  forallb sizes_match (_layouts f) = true -> unfocused f = true ->
  _focus f' = _focus f
  /\ length (_layouts f') = (length (_layouts f) + length layouts)%nat
  /\ forallb sizes_match (_layouts f') = true
  /\ unfocused f' = true
  /\ (all_have_tab_stop f = true -> with_tab_stops layouts = true ->
      all_have_tab_stop f' = true).
Proof.
  induction layouts as [|[columns widgets] layouts IH];
    intros f f' H Hfresh Hs Hq.
  - injection H as <-. rewrite Nat.add_0_r. auto.
  - cbn [add_layouts] in H.
    destruct (Layout_init columns) as [l0|] eqn:E0; [|discriminate].
    cbn [bind] in H.
    destruct (add_widgets l0 widgets) as [l1|] eqn:E1; [|discriminate].
    cbn [bind] in H.
    unfold fresh in Hfresh. cbn [forallb snd] in Hfresh.
    apply andb_prop in Hfresh. destruct Hfresh as [Hw Hfresh].
    destruct (Layout_init_ready columns l0 E0) as (Hs0 & Hq0 & _).
    destruct (add_widgets_ready widgets l0 l1 E1 Hw Hs0 Hq0)
      as (Hs1 & Hq1 & Ht1).
    destruct (IH (add_layout f l1) f' H Hfresh) as (Hf & Hlen & Hs' & Hq' & Ht').
    { unfold add_layout. cbn [_layouts set_layouts].
      rewrite forallb_app, Hs. cbn [forallb]. now rewrite Hs1. }
    { unfold unfocused, focus_flags, add_layout in *.
      cbn [_layouts set_layouts]. rewrite fmap_app, forallb_app, Hq.
      cbn. now rewrite Hq1. }
    split; [exact Hf|]. split.
    { rewrite Hlen. unfold add_layout. cbn [_layouts set_layouts length].
      rewrite length_app. cbn [length]. lia. }
    split; [assumption|]. split; [assumption|].
    intros Hall Hstops. unfold with_tab_stops in Hstops.
    cbn [forallb snd] in Hstops.
    apply andb_prop in Hstops. destruct Hstops as [Hstop Hstops].
    apply Ht'; [|exact Hstops].
    unfold all_have_tab_stop, add_layout in *. cbn [_layouts set_layouts].
    rewrite forallb_app, Hall. cbn [forallb].
    rewrite Ht1 by (right; exact Hstop). reflexivity.
Qed.

Lemma first_in_order (f : Frame) (q : Z * Z * Z) :
  Focused f q ->
  (forall r, frame_stop (frame_shape f) r -> ~ lex3 r q) ->
  tab_order f !! 0%nat = Some q.
Proof.
  intros HF Hmin. destruct (Focused_in_order f q HF) as ([|k] & Hk);
    [assumption|].
  destruct (lookup_lt_is_Some_2 (tab_order f) 0) as [r Hr].
  { apply lookup_lt_Some in Hk. lia. }
  exfalso. apply (Hmin r).
  - apply elem_of_tab_order. eapply list_elem_of_lookup_2. exact Hr.
  - apply (sorted_lookup_lt lex3 (tab_order f) (sorted_shape_stops _ 0)
             0%nat (S k)); [assumption|assumption|lia].
Qed.

(** X16: a Frame built with [Frame], [Layout], [add_widget] and
    [add_layout] from widgets that never had the focus is in the state
    [fix] is meant for; when every Layout was given a tab stop, [fix] does
    not raise, keeps the tab stops, and gives the focus to the first tab
    stop in declared order and to no other widget. *)
Theorem constructed_frame_fix (F : FloatT) (h w : Z)
    (layouts : list (list Z * list (Widget * Z))) (f0 : Frame) :
  is_empty layouts = false ->
  fresh layouts = true ->
  add_layouts (Frame_init h w) layouts = Ok f0 ->
  ready_to_fix f0 = true
  /\ (with_tab_stops layouts = true ->
      exists f q,
        Frame_fix F f0 = Ok f
        /\ frame_shape f = frame_shape f0
        /\ Focused f q
        /\ tab_order f !! 0%nat = Some q
        /\ count_focused f = 1%nat).
Proof.
  intros Hne Hfresh Hbuild.
  destruct (add_layouts_ready layouts (Frame_init h w) f0 Hbuild Hfresh)
    as (Hf & Hlen & Hs & Hq & Ht); [reflexivity|reflexivity|].
  assert (Hready : ready_to_fix f0 = true).
  { unfold ready_to_fix. rewrite Hf, Hs, Hq. cbn [_focus Frame_init].
    destruct (_layouts f0); [|reflexivity].
    destruct layouts; [discriminate|]. cbn in Hlen. lia. }
  split; [exact Hready|]. intros Hstops.
  destruct (Frame_fix_Focused F f0 Hready) as (f & q & Hfix & Hsh & _ & HF & Hmin).
  { apply Ht; [reflexivity|assumption]. }
  exists f, q. split; [assumption|]. split; [assumption|].
  split; [assumption|]. split.
  - now apply first_in_order.
  - now apply (Focused_count f q).
Qed.

Lemma constructed_frame_fix_witness :
  ready_to_fix two_layouts_frame = true
  /\ (with_tab_stops
        [([1], [(Text_init (s "hello") None None, 0)]);
         ([1], [(CheckBox_init (s "check") None None, 0);
                (RadioButtons_init [(s "A", VInt 1); (s "B", VInt 2)] None
                   None, 0)])] = true ->
      exists f q,
        Frame_fix exact_float two_layouts_frame = Ok f
        /\ frame_shape f = frame_shape two_layouts_frame
        /\ Focused f q
        /\ tab_order f !! 0%nat = Some q
        /\ count_focused f = 1%nat).
Proof.
  apply (constructed_frame_fix exact_float 24 80
           [([1], [(Text_init (s "hello") None None, 0)]);
            ([1], [(CheckBox_init (s "check") None None, 0);
                   (RadioButtons_init [(s "A", VInt 1); (s "B", VInt 2)]
                      None None, 0)])]).
  - reflexivity.
  - reflexivity.
  - reflexivity.
Defined.

(** ** Layout.fix and Frame.fix *)

Lemma no_tab_stop_no_stop (l : Layout) (r : Z * Z) :
  has_tab_stop l = false -> ~ stop_at (tab_shape (_columns l)) r.
Proof.
  intros Hno Hr. apply stop_at_inv in Hr.
  destruct Hr as (_ & Hw & column & Hcol & Hstop).
  assert (has_tab_stop l = true); [|congruence].
  unfold has_tab_stop. apply existsb_Exists, Exists_exists.
  exists column. split; [eapply list_elem_of_lookup_2; exact Hcol|].
  apply existsb_Exists, Exists_exists.
  destruct Hstop as [_ Hstop]. unfold column_shape in Hstop.
  rewrite list_lookup_fmap in Hstop.
  destruct (column !! Z.to_nat r.2) as [wd|] eqn:Hwd; [|discriminate].
  exists wd. split; [eapply list_elem_of_lookup_2; exact Hwd|].
  now injection Hstop.
Qed.

Lemma py_getitem_len {A} (l : list A) :
  py_getitem l (len l) = Raise IndexError.
Proof.
  unfold py_getitem. rewrite py_index_out; [reflexivity|].
  pose proof (len_nonneg l). lia.
Qed.

(** [Layout.focus(force_first=True)] on a Layout without tab stop. *)
Lemma Layout_focus_no_tab_stop (l : Layout) :
  has_tab_stop l = false -> Layout_focus l true false = Raise IndexError.
Proof.
  intros Hno. unfold Layout_focus.
  destruct (find_next_forward (set_live (set_Layout_has_focus l true) 0 (-1)))
    as (c' & w' & -> & [(Hstop & _)|(-> & _)]).
  - cbn [_live_col set_live]. pose proof (len_nonneg (_columns l)).
    cbn [_columns set_live set_Layout_has_focus]. lia.
  - cbn [_live_widget set_live]. lia.
  - exfalso. revert Hstop. now apply (no_tab_stop_no_stop l).
  - cbn [bind]. unfold on_live, modify_widget.
    cbn [_columns _live_col _live_widget set_live set_Layout_has_focus].
    now rewrite py_getitem_len.
Qed.

(** X17: [Frame.fix] needs a tab stop in the first Layout: on a Frame
    without Layouts, or whose first Layout holds no widget that is a tab
    stop (only Labels and Dividers, say), it raises IndexError. *)
Theorem Frame_fix_needs_tab_stop (F : FloatT) (f0 : Frame) :
  _focus f0 = 0 ->
  forallb sizes_match (_layouts f0) = true ->
  first_has_tab_stop f0 = false ->
  Frame_fix F f0 = Raise IndexError.
Proof.
  intros Hfocus Hsizes Hno. unfold Frame_fix.
  destruct (fix_layouts_keeps F (_canvas f0) (_layouts f0) 0 Hsizes)
    as (layouts' & -> & Hshape & _).
  cbn [bind]. unfold on_layout. cbn [_layouts _focus set_layouts].
  rewrite Hfocus. unfold first_has_tab_stop in Hno.
  destruct (_layouts f0) as [|l0 layouts].
  - apply (f_equal length) in Hshape. rewrite !length_fmap in Hshape.
    destruct layouts'; [reflexivity|discriminate].
  - destruct layouts' as [|l0' layouts']; [discriminate|].
    rewrite !fmap_cons in Hshape. injection Hshape as Hl0 _.
    change (py_getitem (l0' :: layouts') 0) with (Ok l0'). cbn [bind].
    rewrite Layout_focus_no_tab_stop; [reflexivity|].
    destruct (has_tab_stop l0') eqn:E; [|reflexivity].
    apply has_tab_stop_stop in E. destruct E as (r & Hr).
    rewrite Hl0 in Hr. exfalso. revert Hr.
    now apply (no_tab_stop_no_stop l0).
Qed.

Lemma Frame_fix_needs_tab_stop_witness :
  Frame_fix exact_float labels_only_frame = Raise IndexError.
Proof.
  apply (Frame_fix_needs_tab_stop exact_float labels_only_frame).
  - reflexivity.
  - reflexivity.
  - reflexivity.
Defined.

Lemma required_height_set_layout (wd : Widget) (x y offset w h o' w' : Z) :
  required_height (set_layout wd x y offset w h) o' w'
  = required_height wd o' w'.
Proof. reflexivity. Qed.

(** The loop over one column leaves a column it does not change. *)
Lemma fix_widgets_again (column : list Widget) (x offset w : Z) :
  forall y column' y',
  fix_widgets column x y offset w = (column', y') ->
  fix_widgets column' x y offset w = (column', y')
  /\ label_width <$> column' = label_width <$> column
  /\ length column' = length column.
Proof.
  induction column as [|wd column IH]; intros y column' y' H.
  - injection H as <- <-. auto.
  - cbn [fix_widgets] in H.
    destruct (fix_widgets column x (y + required_height wd offset w) offset w)
      as [rest y1] eqn:E.
    injection H as <- <-.
    destruct (IH _ _ _ E) as (E1 & E2 & E3).
    cbn [fix_widgets]. rewrite required_height_set_layout, E1.
    split; [reflexivity|]. rewrite !fmap_cons, E2. cbn [length].
    now rewrite E3.
Qed.

Lemma label_offset_again (column column' : list Widget) :
  label_width <$> column' = label_width <$> column ->
  length column' = length column ->
  label_offset column' = label_offset column.
Proof.
  intros E1 E2. unfold label_offset, len. now rewrite E1, E2.
Qed.

Lemma fix_columns_again (F : FloatT) (canvas : Canvas) (sizes : list (Z * Z))
    (start_y : Z) (columns : list (list Widget)) :
  forall i x max_y columns' max_y',
  fix_columns F canvas sizes columns i x start_y max_y
  = Ok (columns', max_y') ->
  fix_columns F canvas sizes columns' i x start_y max_y
  = Ok (columns', max_y').
Proof.
  induction columns as [|column columns IH];
    intros i x max_y columns' max_y' H.
  - injection H as <- <-. reflexivity.
  - cbn [fix_columns] in H.
    destruct (label_offset column) as [offset|] eqn:Eo; [|discriminate].
    cbn [bind] in H.
    destruct (py_getitem sizes i) as [size|] eqn:Es; [|discriminate].
    cbn [bind] in H.
    destruct (fix_widgets column x start_y
                (Z.min offset (third_of_width F (width canvas) size))
                (int_of_width F (width canvas) size))
      as [column1 y1] eqn:Ew.
    match type of H with
    | bind ?m _ = _ => destruct m as [[rest m1]|] eqn:Er
    end; [|discriminate].
    cbn [bind] in H. injection H as <- <-.
    destruct (fix_widgets_again _ _ _ _ _ _ _ Ew) as (E1 & E2 & E3).
    cbn [fix_columns].
    rewrite (label_offset_again column column1 E2 E3), Eo. cbn [bind].
    rewrite Es. cbn [bind]. rewrite E1.
    rewrite (IH _ _ _ _ _ Er). reflexivity.
Qed.

(** X18: [Layout.fix] is idempotent: fixing again, from the same start
    line, the Layout that [fix] returned gives that Layout and the same
    end line once more. *)
Theorem Layout_fix_twice (F : FloatT) (canvas : Canvas) (l l' : Layout)
    (start_y y' : Z) :
  Layout_fix F canvas l start_y = Ok (l', y') ->
  Layout_fix F canvas l' start_y = Ok (l', y').
Proof.
  unfold Layout_fix. intros H.
  match type of H with
  | bind ?m _ = _ => destruct m as [[columns max_y]|] eqn:E
  end; [|discriminate].
  cbn [bind] in H. injection H as <- <-.
  cbn [_columns _column_sizes set_columns].
  rewrite (fix_columns_again _ _ _ _ _ _ _ _ _ _ E). reflexivity.
Qed.

Lemma Layout_fix_twice_witness :
  let canvas := {| width := 80; height := 24 |} in
  let fixed :=
    from_ok (no_layout, 0) (Layout_fix exact_float canvas
                              empty_middle_column 5) in
  Layout_fix exact_float canvas fixed.1 5 = Ok (fixed.1, fixed.2).
Proof.
  apply (Layout_fix_twice exact_float {| width := 80; height := 24 |}
           empty_middle_column).
  reflexivity.
Defined.

Lemma py_getitem_inv {A} (l : list A) (i : Z) (x : A) :
  0 <= i -> py_getitem l i = Ok x -> l !! Z.to_nat i = Some x.
Proof.
  intros Hi. unfold py_getitem, py_index.
  destruct (Z.leb_spec 0 i); [|lia].
  destruct (Z.ltb_spec i (len l)); cbn [andb].
  - cbn [bind]. destruct (l !! Z.to_nat i); [|discriminate]. congruence.
  - destruct (Z.ltb_spec i 0); [lia|]. discriminate.
Qed.

(** Where the loop over one column puts its widgets. *)
Lemma fix_widgets_lookup (column : list Widget) (x offset w : Z) :
  forall y k wd',
  (fix_widgets column x y offset w).1 !! k = Some wd' ->
  exists wd,
    column !! k = Some wd
    /\ wd' = set_layout wd x (column_end y (take k column)) offset w
               (required_height wd 0 0).
Proof.
  induction column as [|wd column IH]; intros y k wd' H.
  - cbn [fix_widgets fst] in H. now rewrite lookup_nil in H.
  - cbn [fix_widgets] in H.
    destruct (fix_widgets column x (y + required_height wd offset w) offset w)
      as [rest y1] eqn:E.
    cbn [fst] in H. destruct k as [|k].
    + injection H as <-. exists wd. split; [reflexivity|].
      rewrite (required_height_args wd offset w).
      unfold column_end, sumZ. cbn. now replace (y + 0) with y by lia.
    + cbn [lookup list_lookup] in H.
      destruct (IH (y + required_height wd offset w) k wd') as (wd0 & Hk & ->).
      { now rewrite E. }
      exists wd0. split; [exact Hk|].
      rewrite (required_height_args wd offset w).
      unfold column_end. rewrite firstn_cons, fmap_cons, sumZ_cons.
      f_equal. lia.
Qed.

Lemma fix_columns_lookup (F : FloatT) (canvas : Canvas) (sizes : list (Z * Z))
    (start_y : Z) (columns : list (list Widget)) :
  forall i x max_y columns' max_y' j column',
  0 <= i ->
  fix_columns F canvas sizes columns i x start_y max_y
  = Ok (columns', max_y') ->
  columns' !! j = Some column' ->
  exists column size offset,
    columns !! j = Some column
    /\ sizes !! (Z.to_nat i + j)%nat = Some size
    /\ label_offset column = Ok offset
    /\ column'
       = (fix_widgets column
            (x + sumZ (int_of_width F (width canvas)
                         <$> take j (drop (Z.to_nat i) sizes)))
            start_y
            (Z.min offset (third_of_width F (width canvas) size))
            (int_of_width F (width canvas) size)).1.
Proof.
  induction columns as [|column columns IH];
    intros i x max_y columns' max_y' j column' Hi H Hj.
  - injection H as <- <-. now rewrite lookup_nil in Hj.
  - cbn [fix_columns] in H.
    destruct (label_offset column) as [offset|] eqn:Eo; [|discriminate].
    cbn [bind] in H.
    destruct (py_getitem sizes i) as [size|] eqn:Es; [|discriminate].
    cbn [bind] in H. apply py_getitem_inv in Es; [|assumption].
    destruct (fix_widgets column x start_y
                (Z.min offset (third_of_width F (width canvas) size))
                (int_of_width F (width canvas) size))
      as [column1 y1] eqn:Ew.
    match type of H with
    | bind ?m _ = _ => destruct m as [[rest m1]|] eqn:Er
    end; [|discriminate].
    cbn [bind] in H. injection H as <- <-.
    destruct j as [|j].
    + injection Hj as <-. exists column, size, offset.
      rewrite Nat.add_0_r, take_0, fmap_nil.
      split; [reflexivity|]. split; [assumption|]. split; [assumption|].
      change (sumZ []) with 0. replace (x + 0) with x by lia.
      now rewrite Ew.
    + cbn [lookup list_lookup] in Hj.
      assert (Hi1 : 0 <= i + 1) by lia.
      destruct (IH _ _ _ _ _ _ _ Hi1 Er Hj)
        as (column0 & size0 & offset0 & Hc0 & Hs0 & Ho0 & ->).
      exists column0, size0, offset0.
      split; [exact Hc0|].
      replace (Z.to_nat (i + 1)) with (S (Z.to_nat i)) in * by lia.
      split; [now rewrite <- Nat.add_succ_comm|].
      split; [assumption|].
      rewrite (drop_S sizes size (Z.to_nat i) Es).
      rewrite firstn_cons, fmap_cons, sumZ_cons.
      do 2 f_equal. lia.
Qed.

(** X19: the geometry [Layout.fix] assigns, widget by widget.  The widget
    [k] of column [j] is placed at the [x] where the widths of the columns
    before [j] end and at the [y] where the heights of the widgets above it
    in the column end, the first one at [start_y]; it gets the width of
    its column, the height it requires, and for its label the widest label
    of the column plus one, capped by a third of the column.  Nothing but
    the geometry of a widget is changed. *)
Theorem Layout_fix_geometry (F : FloatT) (canvas : Canvas) (l l' : Layout)
    (start_y y' : Z) (j k : nat) (column' : list Widget) (wd' : Widget) :
  Layout_fix F canvas l start_y = Ok (l', y') ->
  _columns l' !! j = Some column' -> column' !! k = Some wd' ->
  exists column wd size offset,
    _columns l !! j = Some column /\ column !! k = Some wd
    /\ _column_sizes l !! j = Some size
    /\ label_offset column = Ok offset
    /\ wd' = set_layout wd
               (x_of_column F canvas (_column_sizes l) j)
               (column_end start_y (take k column))
               (Z.min offset (third_of_width F (width canvas) size))
               (int_of_width F (width canvas) size)
               (required_height wd 0 0).
Proof.
  unfold Layout_fix. intros H Hj Hk.
  match type of H with
  | bind ?m _ = _ => destruct m as [[columns max_y]|] eqn:E
  end; [|discriminate].
  cbn [bind] in H. injection H as <- <-.
  cbn [_columns set_columns] in Hj.
  destruct (fix_columns_lookup _ _ _ _ _ _ _ _ _ _ _ _ (Z.le_refl 0) E Hj)
    as (column & size & offset & Hc & Hs & Ho & ->).
  destruct (fix_widgets_lookup _ _ _ _ _ _ _ Hk) as (wd & Hwd & ->).
  exists column, wd, size, offset.
  split; [assumption|]. split; [assumption|].
  split; [exact Hs|]. split; [assumption|].
  unfold x_of_column. rewrite drop_0. reflexivity.
Qed.

Lemma Layout_fix_geometry_witness :
  let canvas := {| width := 80; height := 24 |} in
  let fixed :=
    from_ok (no_layout, 0) (Layout_fix exact_float canvas
                              empty_middle_column 5) in
  exists column wd size offset,
    _columns empty_middle_column !! 2%nat = Some column
    /\ column !! 1%nat = Some wd
    /\ _column_sizes empty_middle_column !! 2%nat = Some size
    /\ label_offset column = Ok offset
    /\ set_layout (CheckBox_init (s "check") None None) 64 6 0 16 1
       = set_layout wd
           (x_of_column exact_float canvas
              (_column_sizes empty_middle_column) 2)
           (column_end 5 (take 1 column))
           (Z.min offset (third_of_width exact_float (width canvas) size))
           (int_of_width exact_float (width canvas) size)
           (required_height wd 0 0).
Proof.
  apply (Layout_fix_geometry exact_float {| width := 80; height := 24 |}
           empty_middle_column
           (from_ok (no_layout, 0)
              (Layout_fix exact_float {| width := 80; height := 24 |}
                 empty_middle_column 5)).1
           5 7 2 1
           [set_layout (Text_init (s "right") None None) 64 5 0 16 1;
            set_layout (CheckBox_init (s "check") None None) 64 6 0 16 1]).
  - reflexivity.
  - reflexivity.
  - reflexivity.
Defined.

(** * Further properties of the focus *)

(** The widget at a tab stop. *)
Lemma widget_at_tab_stop (columns : list (list Widget)) (c w : Z) :
  stop_at (tab_shape columns) (c, w) ->
  exists column wd,
    columns !! Z.to_nat c = Some column /\ column !! Z.to_nat w = Some wd
    /\ is_tab_stop wd = true /\ widget_at columns c w = Ok wd.
Proof.
  intros Hs. apply stop_at_inv in Hs. cbn [fst snd] in Hs.
  destruct Hs as (Hc & Hw & column & Hcol & _ & Hstop).
  unfold column_shape in Hstop. rewrite list_lookup_fmap in Hstop.
  destruct (column !! Z.to_nat w) as [wd|] eqn:Hwd; [|discriminate].
  injection Hstop as Ht. exists column, wd.
  split; [assumption|]. split; [assumption|]. split; [assumption|].
  unfold widget_at. rewrite (py_getitem_ok columns c column)
    by (lia || assumption).
  cbn [bind]. now apply py_getitem_ok.
Qed.

Lemma Focused_widget (f : Frame) (p : Z * Z * Z) :
  Focused f p ->
  exists wd,
    focused_widget f = Ok wd /\ is_tab_stop wd = true
    /\ _has_focus wd = true.
Proof.
  destruct p as [[i c] w]. intros HF.
  destruct (Focused_inv f i c w HF)
    as (Hi & Hfocus & l & Hl & <- & <- & Hat & _ & Hfl).
  destruct (widget_at_tab_stop _ _ _ Hat)
    as (column & wd & Hcol & Hwd & Ht & Hat').
  exists wd. unfold focused_widget. rewrite Hfocus.
  rewrite (py_getitem_ok _ i l) by (lia || assumption). cbn [bind].
  split; [assumption|]. split; [assumption|].
  apply (f_equal (fun m => m !! Z.to_nat (_live_col l))) in Hfl.
  unfold layout_flags, alter2 in Hfl. cbn [fst snd] in Hfl.
  rewrite list_lookup_fmap, Hcol, list_lookup_alter_eq in Hfl.
  cbn [fmap option_fmap option_map] in Hfl.
  destruct (clear_layout (tab_shape (_columns l)) !! Z.to_nat (_live_col l))
    as [flags|]; [|discriminate].
  cbn [fmap option_fmap option_map] in Hfl. injection Hfl as Hfl.
  apply (f_equal (fun m => m !! Z.to_nat (_live_widget l))) in Hfl.
  unfold column_flags in Hfl.
  rewrite list_lookup_fmap, Hwd, list_lookup_alter_eq in Hfl.
  cbn [fmap option_fmap option_map] in Hfl.
  destruct (flags !! Z.to_nat (_live_widget l)); [|discriminate].
  cbn in Hfl. congruence.
Qed.

(** X20: after [fix] and any sequence of events, the widget the Frame
    hands the next event to exists, is a tab stop (so it is no Label and no
    Divider as the constructors make them) and has [_has_focus] set; it is
    the only widget of the Frame with [_has_focus] set. *)
Theorem events_go_to_the_focused_tab_stop (Screen : ScreenT) (F : FloatT)
    (f0 f : Frame) (events : list Event) :
  Screen_ok Screen = true ->
  ready_to_fix f0 = true -> all_have_tab_stop f0 = true ->
  (let* f1 := Frame_fix F f0 in Frame_process_events Screen f1 events)
  = Ok f ->
  exists wd,
    focused_widget f = Ok wd
    /\ is_tab_stop wd = true /\ _has_focus wd = true
    /\ count_focused f = 1%nat.
Proof.
  intros HS Hready Hstops Hrun.
  destruct (after_fix_Focused Screen F f0 f events HS Hready Hstops Hrun)
    as (_ & _ & p & HF).
  destruct (Focused_widget f p HF) as (wd & Hwd & Ht & Hf).
  exists wd. split; [assumption|]. split; [assumption|].
  split; [assumption|]. now apply (Focused_count f p).
Qed.

Lemma events_go_to_the_focused_tab_stop_witness :
  exists wd,
    focused_widget
      (from_ok no_frame
         (let* f1 := Frame_fix exact_float two_layouts_frame in
          Frame_process_events curses_keys f1
            [KeyboardEvent (KEY_TAB curses_keys); KeyboardEvent 32]))
    = Ok wd
    /\ is_tab_stop wd = true /\ _has_focus wd = true
    /\ count_focused
         (from_ok no_frame
            (let* f1 := Frame_fix exact_float two_layouts_frame in
             Frame_process_events curses_keys f1
               [KeyboardEvent (KEY_TAB curses_keys); KeyboardEvent 32]))
       = 1%nat.
Proof.
  apply (events_go_to_the_focused_tab_stop curses_keys exact_float
           two_layouts_frame _
           [KeyboardEvent (KEY_TAB curses_keys); KeyboardEvent 32]).
  - reflexivity.
  - reflexivity.
  - reflexivity.
  - reflexivity.
Defined.

(** ** TAB and BACK_TAB as steps in the tab order *)

Lemma tab_order_lookup_inj (f : Frame) (a b : nat) (x : Z * Z * Z) :
  tab_order f !! a = Some x -> tab_order f !! b = Some x -> a = b.
Proof.
  intros Ha Hb.
  pose proof (sorted_lookup_lt lex3 _ (sorted_shape_stops (frame_shape f) 0))
    as Hlt.
  fold (tab_order f) in Hlt.
  destruct (Nat.lt_trichotomy a b) as [H|[H|H]]; [exfalso|exact H|exfalso].
  - apply (lex3_asym x x); now apply (Hlt a b).
  - apply (lex3_asym x x); now apply (Hlt b a).
Qed.

Lemma tab_order_shape (f f' : Frame) :
  frame_shape f' = frame_shape f -> tab_order f' = tab_order f.
Proof. unfold tab_order. now intros ->. Qed.

(** One press of TAB or BACK_TAB, on the index in the tab order. *)
Lemma traversal_step (Screen : ScreenT) (f : Frame) (k : nat)
    (p : Z * Z * Z) (event : Event) :
  Screen_ok Screen = true -> shape_ok (frame_shape f) ->
  Focused f p -> tab_order f !! k = Some p ->
  traversal Screen event = true ->
  exists f' q,
    Frame_process_event Screen f event = Ok (f', None)
    /\ frame_shape f' = frame_shape f
    /\ Focused f' q
    /\ tab_order f
       !! Z.to_nat ((Z.of_nat k + tab_step Screen event)
                    mod Z.of_nat (length (tab_order f)))
       = Some q.
Proof.
  intros HS Hok HF Hk Htr.
  pose proof (lookup_lt_Some _ _ _ Hk) as HkN.
  destruct (Screen_ok_traversal Screen HS) as (Hkeys & _).
  destruct event as [key|tag]; [|discriminate]. cbn [traversal] in Htr.
  cbn [tab_step].
  destruct (Z.eqb_spec key (KEY_TAB Screen)) as [->|Hne].
  - destruct (TAB_step Screen f k p HS Hok HF Hk)
      as (f' & q & E & Hsh & HF' & Hq).
    exists f', q. split; [exact E|]. split; [exact Hsh|].
    split; [exact HF'|].
    replace (Z.of_nat k + 1) with (Z.of_nat (k + 1)) by lia.
    now rewrite <- Nat2Z.inj_mod, Nat2Z.id.
  - destruct (Z.eqb_spec key (KEY_BACK_TAB Screen)) as [->|];
      [|discriminate].
    destruct (Frame_BACK_TAB Screen f p HS Hok HF)
      as (f' & q & E & Hsh & HF' & Hnext).
    exists f', q. split; [exact E|]. split; [exact Hsh|].
    split; [exact HF'|].
    destruct (Focused_in_order f' q HF') as (j & Hj).
    rewrite (tab_order_shape f f' Hsh) in Hj.
    pose proof (lookup_lt_Some _ _ _ Hj) as HjN.
    pose proof (tab_order_next f j q p Hj Hnext) as Hp.
    pose proof (tab_order_lookup_inj f _ _ p Hp Hk) as Hjk.
    match goal with |- _ !! ?n = _ => replace n with j; [exact Hj|] end.
    destruct (Nat.eq_dec (j + 1)%nat (length (tab_order f))) as [HN|HN].
    + rewrite HN, Nat.Div0.mod_same in Hjk. subst k.
      replace ((Z.of_nat 0 + -1) mod Z.of_nat (length (tab_order f)))
        with (Z.of_nat (length (tab_order f)) - 1); [lia|].
      apply Z.mod_unique with (q := -1); lia.
    + rewrite Nat.mod_small in Hjk by lia. subst k.
      rewrite Z.mod_small by lia. lia.
Qed.

Lemma traversals_advance (Screen : ScreenT) (events : list Event) :
  forall f k p,
  Screen_ok Screen = true -> shape_ok (frame_shape f) ->
  Focused f p -> tab_order f !! k = Some p ->
  forallb (traversal Screen) events = true ->
  exists f' q,
    Frame_process_events Screen f events = Ok f'
    /\ frame_shape f' = frame_shape f
    /\ Focused f' q
    /\ tab_order f
       !! Z.to_nat ((Z.of_nat k + net_tabs Screen events)
                    mod Z.of_nat (length (tab_order f)))
       = Some q.
Proof.
  induction events as [|e events IH]; intros f k p HS Hok HF Hk Htr.
  - exists f, p. split; [reflexivity|]. split; [reflexivity|].
    split; [exact HF|]. pose proof (lookup_lt_Some _ _ _ Hk).
    unfold net_tabs. cbn [fmap list_fmap]. change (sumZ []) with 0.
    rewrite Z.add_0_r, Z.mod_small by lia. now rewrite Nat2Z.id.
  - cbn [forallb] in Htr. apply andb_prop in Htr. destruct Htr as [He Htr].
    pose proof (lookup_lt_Some _ _ _ Hk) as HkN.
    destruct (traversal_step Screen f k p e HS Hok HF Hk He)
      as (f1 & q1 & E & Hsh & HF1 & Hq1).
    pose proof (tab_order_shape f f1 Hsh) as Horder.
    destruct (IH f1
                (Z.to_nat ((Z.of_nat k + tab_step Screen e)
                           mod Z.of_nat (length (tab_order f))))
                q1 HS) as (f' & q & E' & Hsh' & HF' & Hq);
      [now rewrite Hsh|exact HF1|rewrite Horder; exact Hq1|exact Htr|].
    exists f', q. cbn [Frame_process_events]. rewrite E. cbn [bind].
    split; [exact E'|]. split; [congruence|]. split; [exact HF'|].
    rewrite Horder in Hq. rewrite Z2Nat.id in Hq
      by (apply Z.mod_pos_bound; lia).
    rewrite Z.add_mod_idemp_l in Hq by lia.
    unfold net_tabs in *. rewrite fmap_cons, sumZ_cons.
    now rewrite Z.add_assoc.
Qed.

(** X21: TAB and BACK_TAB move the focus by one step, forwards and
    backwards, around the tab stops in declared order.  After [fix], a
    sequence of [t] presses of TAB and [b] presses of BACK_TAB, in any
    order, is consumed without raising and leaves the focus on tab stop
    number [(t - b) mod N], for the [N] tab stops of the Frame counted
    from 0. *)
Theorem tab_keys_count_steps (Screen : ScreenT) (F : FloatT) (f0 : Frame)
    (events : list Event) :
  Screen_ok Screen = true ->
  ready_to_fix f0 = true -> all_have_tab_stop f0 = true ->
  forallb (traversal Screen) events = true ->
  exists f1 f q,
    Frame_fix F f0 = Ok f1
    /\ Frame_process_events Screen f1 events = Ok f
    /\ Focused f q
    /\ tab_order f0
       !! Z.to_nat (net_tabs Screen events
                    mod Z.of_nat (count_tab_stops f0))
       = Some q.
Proof.
  intros HS Hready Hstops Htr.
  destruct (Frame_fix_Focused F f0 Hready Hstops)
    as (f1 & q0 & Hfix & Hsh & Hok & HF & Hmin).
  pose proof (first_in_order f1 q0 HF Hmin) as H0.
  destruct (traversals_advance Screen events f1 0%nat q0 HS Hok HF H0 Htr)
    as (f & q & Hrun & _ & HF' & Hq).
  exists f1, f, q. split; [exact Hfix|]. split; [exact Hrun|].
  split; [exact HF'|].
  rewrite <- length_tab_order, <- (tab_order_shape f0 f1 Hsh).
  exact Hq.
Qed.

Lemma tab_keys_count_steps_witness :
  let tab := KeyboardEvent (KEY_TAB curses_keys) in
  let back_tab := KeyboardEvent (KEY_BACK_TAB curses_keys) in
  exists f1 f q,
    Frame_fix exact_float two_layouts_frame = Ok f1
    /\ Frame_process_events curses_keys f1 [back_tab; back_tab; tab] = Ok f
    /\ Focused f q
    /\ tab_order two_layouts_frame
       !! Z.to_nat (net_tabs curses_keys [back_tab; back_tab; tab]
                    mod Z.of_nat (count_tab_stops two_layouts_frame))
       = Some q.
Proof.
  apply (tab_keys_count_steps curses_keys exact_float two_layouts_frame
           [KeyboardEvent (KEY_BACK_TAB curses_keys);
            KeyboardEvent (KEY_BACK_TAB curses_keys);
            KeyboardEvent (KEY_TAB curses_keys)]).
  - reflexivity.
  - reflexivity.
  - reflexivity.
  - reflexivity.
Defined.

(** ** Events the focused widget does not handle *)

Lemma process_event_refused (Screen : ScreenT) (wd : Widget)
    (event : Event) :
  handled Screen wd event = false ->
  process_event Screen wd event = Ok (wd, Some event).
Proof.
  unfold handled, process_event. intros Hno.
  destruct (variant wd);
    [reflexivity|reflexivity|now apply Text_not_handled
    |now apply (CheckBox_not_handled Screen)
    |now apply RadioButtons_not_handled|now apply TextBox_not_handled].
Qed.

Lemma Layout_widget_refusal (Screen : ScreenT) (l : Layout) (wd : Widget)
    (event : Event) :
  at_stop l ->
  widget_at (_columns l) (_live_col l) (_live_widget l) = Ok wd ->
  handled Screen wd event = false ->
  Layout_process_event Screen l event
  = Layout_movement Screen l (Some event).
Proof.
  intros Hat Hwd Hno. unfold Layout_process_event.
  destruct (widget_at_stop _ _ _ Hat) as (wd' & Hwd' & Hsame).
  assert (wd' = wd) as -> by congruence.
  rewrite Hwd. cbn [bind].
  rewrite (process_event_refused Screen wd event Hno). cbn [bind].
  rewrite on_live_ok by exact Hat. rewrite Hsame, set_columns_same.
  reflexivity.
Qed.

Lemma set_layouts_same (f : Frame) : set_layouts f (_layouts f) = f.
Proof. now destruct f. Qed.

(** X22: an event that the focused widget does not handle and that is none
    of the four movement keys (TAB, BACK_TAB, Down, Up) comes back from
    [Frame.process_event] as it is, and the Frame with all its Layouts and
    widgets is left as it was. *)
Theorem unhandled_event_comes_back (Screen : ScreenT) (F : FloatT)
    (f0 f : Frame) (events : list Event) (wd : Widget) (event : Event) :
  Screen_ok Screen = true ->
  ready_to_fix f0 = true -> all_have_tab_stop f0 = true ->
  (let* f1 := Frame_fix F f0 in Frame_process_events Screen f1 events)
  = Ok f ->
  focused_widget f = Ok wd ->
  handled Screen wd event = false ->
  movement_key Screen event = false ->
  Frame_process_event Screen f event = Ok (f, Some event).
Proof.
  intros HS Hready Hstops Hrun Hwd Hno Hkey.
  destruct (after_fix_Focused Screen F f0 f events HS Hready Hstops Hrun)
    as (_ & _ & [[i c] w] & HF).
  destruct (Focused_inv f i c w HF)
    as (Hi & Hfocus & l & Hl & _ & _ & Hat & _).
  unfold focused_widget in Hwd. unfold Frame_process_event.
  rewrite Hfocus in *.
  rewrite (py_getitem_ok _ i l) in * by (lia || assumption).
  cbn [bind] in *.
  rewrite (Layout_widget_refusal Screen l wd event Hat Hwd Hno).
  assert (Hmove : Layout_movement Screen l (Some event)
                  = Ok (l, Some event)).
  { destruct event as [k|tag]; [|reflexivity].
    cbn [movement_key] in Hkey. apply bool_decide_eq_false in Hkey.
    rewrite !not_elem_of_cons in Hkey.
    destruct Hkey as (H1 & H2 & H3 & H4 & _).
    unfold Layout_movement.
    destruct (Z.eqb_spec k (KEY_TAB Screen)); [congruence|].
    destruct (Z.eqb_spec k (KEY_BACK_TAB Screen)); [congruence|].
    destruct (Z.eqb_spec k (KEY_DOWN Screen)); [congruence|].
    destruct (Z.eqb_spec k (KEY_UP Screen)); [congruence|].
    reflexivity. }
  rewrite Hmove. cbn [bind].
  rewrite (py_setitem_layouts f i l l) by (lia || assumption).
  cbn [bind]. rewrite list_insert_id by assumption.
  rewrite set_layouts_same.
  apply (Frame_movement_none Screen f event (Some event)); [|now right].
  destruct event as [k|tag]; [|reflexivity].
  cbn [movement_key] in Hkey. apply bool_decide_eq_false in Hkey.
  rewrite !not_elem_of_cons in Hkey.
  destruct Hkey as (H1 & H2 & _). cbn [traversal].
  destruct (Z.eqb_spec k (KEY_TAB Screen)); [congruence|].
  destruct (Z.eqb_spec k (KEY_BACK_TAB Screen)); [congruence|].
  reflexivity.
Qed.

Lemma unhandled_event_comes_back_witness :
  let f :=
    from_ok no_frame
      (let* f1 := Frame_fix exact_float two_layouts_frame in
       Frame_process_events curses_keys f1
         [KeyboardEvent (KEY_TAB curses_keys)]) in
  Frame_process_event curses_keys f (KeyboardEvent (KEY_HOME curses_keys))
  = Ok (f, Some (KeyboardEvent (KEY_HOME curses_keys))).
Proof.
  apply (unhandled_event_comes_back curses_keys exact_float
           two_layouts_frame _ [KeyboardEvent (KEY_TAB curses_keys)]
           (from_ok hello_box
              (focused_widget
                 (from_ok no_frame
                    (let* f1 := Frame_fix exact_float two_layouts_frame in
                     Frame_process_events curses_keys f1
                       [KeyboardEvent (KEY_TAB curses_keys)]))))).
  - reflexivity.
  - reflexivity.
  - reflexivity.
  - reflexivity.
  - reflexivity.
  - reflexivity.
  - reflexivity.
Defined.

(** ** Down and Up inside a column *)

(** The search that stays in the column, in both directions. *)
Lemma find_next_stay_exact (l : Layout) (d : Z) :
  d = 1 \/ d = -1 -> at_stop l ->
  exists w' column,
    _find_next_widget l d true = Ok (set_live l (_live_col l) w')
    /\ tab_shape (_columns l) !! Z.to_nat (_live_col l) = Some column
    /\ (if d =? 1 then next_below column (_live_widget l) w'
        else next_above column (_live_widget l) w').
Proof.
  intros Hd Hat. pose proof (at_stop_bounds l Hat) as (Hc & Hw & Hwl).
  pose proof (stop_at_inv _ _ Hat) as (_ & _ & column & Hcol & Hstop).
  cbn [fst snd] in Hcol, Hstop. specialize (Hwl column Hcol).
  unfold _find_next_widget. cbn [find_loop]. unfold in_range at 1.
  destruct (Z.leb_spec 0 (_live_col l)); [|lia].
  destruct (Z.ltb_spec (_live_col l) (len (_columns l))); [|lia].
  cbn [andb].
  rewrite (py_getitem_ok _ _ column) by (lia || assumption). cbn [bind].
  assert (Hshape : tab_shape (_columns l) !! Z.to_nat (_live_col l)
                   = Some (column_shape column)).
  { unfold tab_shape. now rewrite list_lookup_fmap, Hcol. }
  destruct Hd as [-> | ->].
  - destruct (scan_forward column (S (length column)) (_live_widget l + 1))
      as (j & -> & Hj & Hnone & Hend); [lia|unfold len; lia|].
    cbn [bind]. destruct (found_spec column j) as (b & -> & Hb).
    cbn [bind]. change (1 =? 1) with true. cbn iota.
    destruct b.
    + exists j, (column_shape column). split; [reflexivity|].
      split; [exact Hshape|]. split; [now apply Hb|]. left.
      split; [lia|]. intros k Hk. apply Hnone. lia.
    + exists (_live_widget l), (column_shape column).
      split; [reflexivity|]. split; [exact Hshape|].
      split; [exact Hstop|]. right. split; [reflexivity|].
      intros k Hk Hs. destruct (Z.lt_ge_cases k j) as [Hkj|Hkj].
      * apply (Hnone k); [lia|exact Hs].
      * destruct Hend as [Hend|Hend].
        -- apply Hb in Hend. discriminate.
        -- apply stop_in_range in Hs. lia.
  - destruct (scan_backward column (S (length column)) (_live_widget l + -1))
      as (j & -> & Hj & Hnone & Hend); [lia|unfold len in *; lia|].
    cbn [bind]. destruct (found_spec column j) as (b & -> & Hb).
    cbn [bind]. change (-1 =? 1) with false. cbn iota.
    destruct b.
    + exists j, (column_shape column). split; [reflexivity|].
      split; [exact Hshape|]. split; [now apply Hb|]. left.
      split; [lia|]. intros k Hk. apply Hnone. lia.
    + exists (_live_widget l), (column_shape column).
      split; [reflexivity|]. split; [exact Hshape|].
      split; [exact Hstop|]. right. split; [reflexivity|].
      intros k Hk Hs. destruct (Z.lt_ge_cases j k) as [Hkj|Hkj].
      * apply (Hnone k); [lia|exact Hs].
      * destruct Hend as [Hend|Hend].
        -- apply Hb in Hend. discriminate.
        -- apply stop_in_range in Hs. lia.
Qed.

(** Blur, search in the column, focus: the body of the Down and Up
    branches of [Layout.process_event]. *)
Lemma Layout_move_exact (l : Layout) (d : Z) :
  d = 1 \/ d = -1 -> at_stop l ->
  exists l' column,
    (let* self := on_live l Widget_blur in
     let* self := _find_next_widget self d true in
     let* self := on_live self Widget_focus in
     Ok (self, @None Event)) = Ok (l', None)
    /\ tab_shape (_columns l') = tab_shape (_columns l)
    /\ _live_col l' = _live_col l
    /\ tab_shape (_columns l) !! Z.to_nat (_live_col l) = Some column
    /\ (if d =? 1 then next_below column (_live_widget l) (_live_widget l')
        else next_above column (_live_widget l) (_live_widget l'))
    /\ layout_flags l'
       = alter2 (fun _ => true) (_live_col l, _live_widget l')
           (alter2 (fun _ => false) (_live_col l, _live_widget l)
              (layout_flags l)).
Proof.
  intros Hd Hat. rewrite on_live_ok by exact Hat. cbn [bind].
  remember (set_columns l (alter2 Widget_blur (_live_col l, _live_widget l)
                             (_columns l))) as l1 eqn:El1.
  assert (Hsh1 : tab_shape (_columns l1) = tab_shape (_columns l)).
  { subst l1. layout_fields. now apply tab_shape_alter2. }
  assert (Hfl1 : layout_flags l1
                 = alter2 (fun _ => false) (_live_col l, _live_widget l)
                     (layout_flags l)).
  { subst l1. unfold layout_flags. layout_fields. now apply flags_alter2. }
  assert (Hc1 : _live_col l1 = _live_col l) by now subst l1.
  assert (Hw1 : _live_widget l1 = _live_widget l) by now subst l1.
  assert (Hat1 : at_stop l1).
  { unfold at_stop in *. now rewrite Hsh1, Hc1, Hw1. }
  clear El1.
  destruct (find_next_stay_exact l1 d Hd Hat1)
    as (w' & column & -> & Hcol & Hnext).
  rewrite Hsh1, Hc1, Hw1 in *. cbn [bind].
  assert (Hs : stop_at (tab_shape (_columns l1)) (_live_col l, w')).
  { rewrite Hsh1. split; [apply Hat|]. exists column.
    split; [exact Hcol|]. cbn [snd].
    destruct (d =? 1); apply Hnext. }
  rewrite on_live_ok by (unfold at_stop; layout_fields; exact Hs).
  cbn [bind]. exists (set_columns (set_live l1 (_live_col l) w')
                        (alter2 Widget_focus
                           (_live_col (set_live l1 (_live_col l) w'),
                            _live_widget (set_live l1 (_live_col l) w'))
                           (_columns (set_live l1 (_live_col l) w')))),
    column.
  split; [reflexivity|]. layout_fields.
  split; [|split; [reflexivity|split; [exact Hcol|split; [exact Hnext|]]]].
  - rewrite tab_shape_alter2 by reflexivity. exact Hsh1.
  - unfold layout_flags. layout_fields.
    rewrite (flags_alter2 _ (fun _ => true)) by reflexivity.
    f_equal. exact Hfl1.
Qed.

Lemma Screen_ok_DOWN_UP (Screen : ScreenT) :
  Screen_ok Screen = true ->
  (KEY_DOWN Screen <> KEY_TAB Screen
   /\ KEY_DOWN Screen <> KEY_BACK_TAB Screen)
  /\ (KEY_UP Screen <> KEY_TAB Screen
      /\ KEY_UP Screen <> KEY_BACK_TAB Screen
      /\ KEY_UP Screen <> KEY_DOWN Screen).
Proof.
  intros HS. screen_facts HS. repeat split; congruence.
Qed.

(** X23: Down and Up, when the focused widget leaves them to its Layout,
    are always consumed and never leave the column: Down moves the focus
    to the next tab stop below in the same column, Up to the next one
    above, and the focus stays on the widget when there is none.  The
    widget left is blurred and the widget reached is focused. *)
Theorem Layout_down_and_up (Screen : ScreenT) (l : Layout) (wd : Widget) :
  Screen_ok Screen = true ->
  at_stop l ->
  widget_at (_columns l) (_live_col l) (_live_widget l) = Ok wd ->
  exists column,
    tab_shape (_columns l) !! Z.to_nat (_live_col l) = Some column
    /\ (handled Screen wd (KeyboardEvent (KEY_DOWN Screen)) = false ->
        exists l',
          Layout_process_event Screen l (KeyboardEvent (KEY_DOWN Screen))
          = Ok (l', None)
          /\ tab_shape (_columns l') = tab_shape (_columns l)
          /\ _live_col l' = _live_col l
          /\ next_below column (_live_widget l) (_live_widget l')
          /\ layout_flags l'
             = alter2 (fun _ => true) (_live_col l, _live_widget l')
                 (alter2 (fun _ => false) (_live_col l, _live_widget l)
                    (layout_flags l)))
    /\ (handled Screen wd (KeyboardEvent (KEY_UP Screen)) = false ->
        exists l',
          Layout_process_event Screen l (KeyboardEvent (KEY_UP Screen))
          = Ok (l', None)
          /\ tab_shape (_columns l') = tab_shape (_columns l)
          /\ _live_col l' = _live_col l
          /\ next_above column (_live_widget l) (_live_widget l')
          /\ layout_flags l'
             = alter2 (fun _ => true) (_live_col l, _live_widget l')
                 (alter2 (fun _ => false) (_live_col l, _live_widget l)
                    (layout_flags l))).
Proof.
  intros HS Hat Hwd.
  destruct (Screen_ok_DOWN_UP Screen HS) as ((D1 & D2) & (U1 & U2 & U3)).
  destruct (Layout_move_exact l 1) as (ld & column & Ed & Hd); auto.
  destruct (Layout_move_exact l (-1)) as (lu & column' & Eu & Hu); auto.
  destruct Hd as (Hd1 & Hd2 & Hcol & Hd3 & Hd4).
  destruct Hu as (Hu1 & Hu2 & Hcol' & Hu3 & Hu4).
  assert (column' = column) as -> by congruence.
  change (1 =? 1) with true in Hd3. change (-1 =? 1) with false in Hu3.
  cbn iota in Hd3, Hu3.
  exists column. split; [exact Hcol|]. split; intros Hno.
  - exists ld. rewrite (Layout_widget_refusal Screen l wd _ Hat Hwd Hno).
    unfold Layout_movement.
    destruct (Z.eqb_spec (KEY_DOWN Screen) (KEY_TAB Screen)); [congruence|].
    destruct (Z.eqb_spec (KEY_DOWN Screen) (KEY_BACK_TAB Screen));
      [congruence|].
    rewrite Z.eqb_refl. auto.
  - exists lu. rewrite (Layout_widget_refusal Screen l wd _ Hat Hwd Hno).
    unfold Layout_movement.
    destruct (Z.eqb_spec (KEY_UP Screen) (KEY_TAB Screen)); [congruence|].
    destruct (Z.eqb_spec (KEY_UP Screen) (KEY_BACK_TAB Screen));
      [congruence|].
    destruct (Z.eqb_spec (KEY_UP Screen) (KEY_DOWN Screen)); [congruence|].
    rewrite Z.eqb_refl. auto.
Qed.

Lemma Layout_down_and_up_witness :
  exists l',
    Layout_process_event curses_keys three_texts_layout
      (KeyboardEvent (KEY_DOWN curses_keys)) = Ok (l', None)
    /\ _live_col l' = _live_col three_texts_layout.
Proof.
  destruct (Layout_down_and_up curses_keys three_texts_layout
              (from_ok hello_box
                 (widget_at (_columns three_texts_layout)
                    (_live_col three_texts_layout)
                    (_live_widget three_texts_layout))))
    as (column & _ & Hdown & _).
  - reflexivity.
  - split; [vm_compute; discriminate|]. exists [true; true; true].
    split; [reflexivity|]. split; [vm_compute; discriminate|reflexivity].
  - reflexivity.
  - destruct (Hdown eq_refl) as (l' & E & _ & Hc & _).
    exists l'. split; [exact E|exact Hc].
Defined.

(** ** Frame.reset *)



Lemma for_each_Forall2 {A} (g : A -> result A) (l : list A) :
  forall l', for_each g l = Ok l' -> Forall2 (fun x y => g x = Ok y) l l'.
Proof.
  induction l as [|x l IH]; intros l' H.
  - injection H as <-. constructor.
  - cbn [for_each] in H. destruct (g x) as [y|] eqn:E; [|discriminate].
    cbn [bind] in H. destruct (for_each g l) as [l1|]; [|discriminate].
    cbn [bind] in H. injection H as <-. constructor; auto.
Qed.










(** * Redrawing *)

(** ** The initialised state is kept *)

Lemma py_getitem_elem {A} (l : list A) (i : Z) (x : A) :
  py_getitem l i = Ok x -> x ∈ l.
Proof.
  unfold py_getitem. intros H.
  destruct (py_index l i) as [n|]; [|discriminate]. cbn [bind] in H.
  destruct (l !! n) as [y|] eqn:E; [|discriminate]. injection H as ->.
  eapply list_elem_of_lookup_2. exact E.
Qed.

Lemma py_setitem_inv {A} (l l' : list A) (i : Z) (x : A) :
  py_setitem l i x = Ok l' -> exists n, l' = <[n:=x]> l.
Proof.
  unfold py_setitem. intros H.
  destruct (py_index l i) as [n|]; [|discriminate]. cbn [bind] in H.
  injection H as <-. eauto.
Qed.

Lemma Widget_ok_set_has_focus (wd : Widget) (b : bool) :
  Widget_ok wd -> Widget_ok (set_has_focus wd b).
Proof. exact (fun H => H). Qed.

Lemma modify_widget_ok' (columns columns' : list (list Widget)) (c w : Z)
    (g : Widget -> Widget) :
  modify_widget columns c w g = Ok columns' ->
  (forall x, Widget_ok x -> Widget_ok (g x)) ->
  Forall (Forall Widget_ok) columns -> Forall (Forall Widget_ok) columns'.
Proof.
  unfold modify_widget. intros H Hg Hok.
  destruct (py_getitem columns c) as [column|] eqn:Ec; [|discriminate].
  cbn [bind] in H.
  destruct (py_getitem column w) as [wd|] eqn:Ew; [|discriminate].
  cbn [bind] in H.
  destruct (py_setitem column w (g wd)) as [column'|] eqn:Es;
    [|discriminate].
  cbn [bind] in H.
  apply py_getitem_elem in Ec, Ew. apply py_setitem_inv in Es, H.
  destruct Es as (n & ->). destruct H as (m & ->).
  rewrite Forall_forall in Hok. pose proof (Hok column Ec) as Hcol.
  apply Forall_insert; [now apply Forall_forall|].
  apply Forall_insert; [assumption|]. apply Hg.
  rewrite Forall_forall in Hcol. now apply Hcol.
Qed.

Lemma on_live_Layout_ok (l l' : Layout) (g : Widget -> Widget) :
  on_live l g = Ok l' ->
  (forall x, Widget_ok x -> Widget_ok (g x)) ->
  Layout_ok l -> Layout_ok l'.
Proof.
  unfold on_live, Layout_ok. intros H Hg Hok.
  destruct (modify_widget _ _ _ _) as [columns|] eqn:E; [|discriminate].
  cbn [bind] in H. injection H as <-. layout_fields.
  now apply (modify_widget_ok' _ _ _ _ _ E).
Qed.

Lemma find_next_columns (l l' : Layout) (d : Z) (stay : bool) :
  _find_next_widget l d stay = Ok l' -> _columns l' = _columns l.
Proof.
  unfold _find_next_widget. intros H.
  destruct (find_loop _ _ _ _ _ _ _) as [[c w]|]; [|discriminate].
  cbn [bind] in H. now injection H as <-.
Qed.

Lemma find_next_Layout_ok (l l' : Layout) (d : Z) (stay : bool) :
  _find_next_widget l d stay = Ok l' -> Layout_ok l -> Layout_ok l'.
Proof.
  intros H. unfold Layout_ok. now rewrite (find_next_columns _ _ _ _ H).
Qed.

Lemma Layout_focus_Layout_ok (l l' : Layout) (first last : bool) :
  Layout_focus l first last = Ok l' -> Layout_ok l -> Layout_ok l'.
Proof.
  unfold Layout_focus. intros H Hok.
  match type of H with
  | bind ?m _ = _ => destruct m as [l1|] eqn:E
  end; [|discriminate].
  cbn [bind] in H.
  apply (on_live_Layout_ok _ _ _ H); [intros x Hx; exact Hx|].
  destruct first.
  - now apply (find_next_Layout_ok _ _ _ _ E).
  - destruct last.
    + destruct (py_getitem _ _) in E; [|discriminate]. cbn [bind] in E.
      now apply (find_next_Layout_ok _ _ _ _ E).
    + now injection E as <-.
Qed.

Lemma Layout_blur_Layout_ok (l l' : Layout) :
  Layout_blur l = Ok l' -> Layout_ok l -> Layout_ok l'.
Proof.
  unfold Layout_blur. intros H Hok.
  apply (on_live_Layout_ok _ _ _ H); [intros x Hx; exact Hx|exact Hok].
Qed.

(** Forward the invariant through the steps of a movement branch. *)
Ltac keep_ok :=
  repeat match goal with
    | H : on_live ?l _ = Ok ?l', Hl : Layout_ok ?l |- _ =>
        apply on_live_Layout_ok in H; [|intros ? Hx; exact Hx|exact Hl]
    | H : _find_next_widget ?l _ _ = Ok ?l', Hl : Layout_ok ?l |- _ =>
        apply find_next_Layout_ok in H; [|exact Hl]
    | H : _find_next_widget (set_live ?l _ _) _ _ = Ok ?l',
      Hl : Layout_ok ?l |- _ =>
        apply find_next_Layout_ok in H; [|exact Hl]
    end.

Lemma Layout_movement_Layout_ok (Screen : ScreenT) (l l' : Layout)
    (event back : option Event) :
  Layout_movement Screen l event = Ok (l', back) ->
  Layout_ok l -> Layout_ok l'.
Proof.
  unfold Layout_movement. intros H Hok.
  destruct event as [[k|tag]|]; try (now injection H as <- _).
  destruct (k =? KEY_TAB Screen).
  { result_inv H; injection H as <- _; keep_ok; assumption. }
  destruct (k =? KEY_BACK_TAB Screen).
  { result_inv H; injection H as <- _; keep_ok; assumption. }
  destruct (k =? KEY_DOWN Screen).
  { result_inv H; injection H as <- _; keep_ok; assumption. }
  destruct (k =? KEY_UP Screen).
  { result_inv H; injection H as <- _; keep_ok; assumption. }
  now injection H as <- _.
Qed.

Lemma widget_at_ok (columns : list (list Widget)) (c w : Z) (wd : Widget) :
  widget_at columns c w = Ok wd ->
  Forall (Forall Widget_ok) columns -> Widget_ok wd.
Proof.
  unfold widget_at. intros H Hok.
  destruct (py_getitem columns c) as [column|] eqn:Ec; [|discriminate].
  cbn [bind] in H. apply py_getitem_elem in Ec, H.
  rewrite Forall_forall in Hok. specialize (Hok column Ec).
  rewrite Forall_forall in Hok. now apply Hok.
Qed.

Lemma Layout_process_event_Layout_ok (Screen : ScreenT) (l l' : Layout)
    (event : Event) (back : option Event) :
  Layout_process_event Screen l event = Ok (l', back) ->
  Layout_ok l -> Layout_ok l'.
Proof.
  unfold Layout_process_event. intros H Hok.
  destruct (widget_at _ _ _) as [wd|] eqn:Ewd; [|discriminate].
  cbn [bind] in H.
  destruct (process_event Screen wd event) as [[wd' back']|] eqn:Eev;
    [|discriminate].
  cbn [bind] in H.
  destruct (on_live l (fun _ => wd')) as [l1|] eqn:El1; [|discriminate].
  cbn [bind] in H.
  apply (Layout_movement_Layout_ok _ _ _ _ _ H).
  apply (on_live_Layout_ok _ _ _ El1); [|exact Hok].
  intros _ _.
  destruct (process_event_Widget_ok Screen wd event) as (wd2 & b2 & E2 & Hok2).
  { now apply (widget_at_ok _ _ _ _ Ewd). }
  congruence.
Qed.

Lemma on_layout_Frame_ok (f f' : Frame) (i : Z)
    (m : Layout -> result Layout) :
  on_layout f i m = Ok f' ->
  (forall l l', m l = Ok l' -> Layout_ok l -> Layout_ok l') ->
  Frame_ok f -> Frame_ok f'.
Proof.
  unfold on_layout, Frame_ok. intros H Hm Hok.
  destruct (py_getitem (_layouts f) i) as [l|] eqn:El; [|discriminate].
  cbn [bind] in H. destruct (m l) as [l'|] eqn:Em; [|discriminate].
  cbn [bind] in H.
  destruct (py_setitem _ _ _) as [layouts|] eqn:Es; [|discriminate].
  cbn [bind] in H. injection H as <-. frame_fields.
  apply py_setitem_inv in Es. destruct Es as (n & ->).
  apply Forall_insert; [assumption|]. apply (Hm l l' Em).
  apply py_getitem_elem in El. rewrite Forall_forall in Hok. now apply Hok.
Qed.

Lemma Frame_movement_Frame_ok (Screen : ScreenT) (f f' : Frame)
    (event back : option Event) :
  Frame_movement Screen f event = Ok (f', back) ->
  Frame_ok f -> Frame_ok f'.
Proof.
  unfold Frame_movement. intros H Hok.
  destruct event as [[k|tag]|]; try (now injection H as <- _).
  destruct (k =? KEY_TAB Screen).
  { destruct (on_layout f _ Layout_blur) as [f1|] eqn:E1; [|discriminate].
    cbn [bind] in H.
    match type of H with
    | bind ?m _ = _ => destruct m as [f2|] eqn:E2
    end; [|discriminate].
    cbn [bind] in H. injection H as <- _.
    apply (on_layout_Frame_ok _ _ _ _ E2).
    - intros l l'. apply Layout_focus_Layout_ok.
    - change (Frame_ok f1).
      apply (on_layout_Frame_ok _ _ _ _ E1); [|exact Hok].
      intros l l'. apply Layout_blur_Layout_ok. }
  destruct (k =? KEY_BACK_TAB Screen); [|now injection H as <- _].
  destruct (on_layout f _ Layout_blur) as [f1|] eqn:E1; [|discriminate].
  cbn [bind] in H.
  match type of H with
  | bind ?m _ = _ => destruct m as [f2|] eqn:E2
  end; [|discriminate].
  cbn [bind] in H. injection H as <- _.
  apply (on_layout_Frame_ok _ _ _ _ E2).
  - intros l l'. apply Layout_focus_Layout_ok.
  - change (Frame_ok f1).
    apply (on_layout_Frame_ok _ _ _ _ E1); [|exact Hok].
    intros l l'. apply Layout_blur_Layout_ok.
Qed.

Lemma Frame_process_event_Frame_ok (Screen : ScreenT) (f f' : Frame)
    (event : Event) (back : option Event) :
  Frame_process_event Screen f event = Ok (f', back) ->
  Frame_ok f -> Frame_ok f'.
Proof.
  unfold Frame_process_event. intros H Hok.
  destruct (py_getitem (_layouts f) (_focus f)) as [l|] eqn:El;
    [|discriminate].
  cbn [bind] in H.
  destruct (Layout_process_event Screen l event) as [[l' back']|] eqn:Eev;
    [|discriminate].
  cbn [bind] in H.
  destruct (py_setitem _ _ _) as [layouts|] eqn:Es; [|discriminate].
  cbn [bind] in H.
  apply (Frame_movement_Frame_ok _ _ _ _ _ H).
  unfold Frame_ok in *. frame_fields.
  apply py_setitem_inv in Es. destruct Es as (n & ->).
  apply Forall_insert; [assumption|].
  apply (Layout_process_event_Layout_ok _ _ _ _ _ Eev).
  apply py_getitem_elem in El. rewrite Forall_forall in Hok. now apply Hok.
Qed.

Lemma Frame_process_events_Frame_ok (Screen : ScreenT)
    (events : list Event) :
  forall f f',
  Frame_process_events Screen f events = Ok f' -> Frame_ok f -> Frame_ok f'.
Proof.
  induction events as [|e events IH]; intros f f' H Hok.
  - now injection H as <-.
  - cbn [Frame_process_events] in H.
    destruct (Frame_process_event Screen f e) as [[f1 back]|] eqn:E;
      [|discriminate].
    cbn [bind] in H. apply (IH f1 f' H).
    now apply (Frame_process_event_Frame_ok _ _ _ _ _ E).
Qed.

Lemma Layout_reset_Layout_ok (l l' : Layout) :
  Layout_reset l = Ok l' -> Layout_ok l'.
Proof.
  unfold Layout_reset. intros H.
  destruct (for_each (for_each reset) (_columns l)) as [columns|] eqn:E;
    [|discriminate].
  cbn [bind] in H. cbv zeta in H. apply find_next_columns in H.
  unfold Layout_ok. rewrite H. layout_fields.
  apply for_each_Forall2 in E. clear H.
  induction E as [|column column' columns columns' Hc _ IH]; constructor;
    [|exact IH].
  apply for_each_Forall2 in Hc. clear IH.
  induction Hc as [|wd wd' ? ? Hwd _ IH]; constructor; [|exact IH].
  now apply (reset_Widget_ok wd).
Qed.

Lemma Frame_reset_Frame_ok (f f' : Frame) :
  Frame_reset f = Ok f' -> Frame_ok f'.
Proof.
  unfold Frame_reset. intros H.
  destruct (for_each Layout_reset (_layouts f)) as [layouts|] eqn:E;
    [|discriminate].
  cbn [bind] in H. injection H as <-. unfold Frame_ok. frame_fields.
  apply for_each_Forall2 in E.
  induction E as [|l l' ? ? Hl _ IH]; constructor; [|exact IH].
  now apply (Layout_reset_Layout_ok l).
Qed.

(** ** Redrawing changes the scroll offsets only *)

Lemma update_keeps (wd wd' : Widget) (frame_no : Z) :
  update wd frame_no = Ok wd' ->
  is_tab_stop wd' = is_tab_stop wd /\ _has_focus wd' = _has_focus wd
  /\ value wd' = value wd.
Proof.
  unfold update, value. intros H.
  destruct (variant wd) eqn:Hv;
    [ | |unfold Text_update in H| | |unfold TextBox_update in H];
    try (injection H as <-; rewrite Hv; auto).
  - destruct _value; cbn [expect bind] in H; [|discriminate].
    match type of H with
    | bind ?m _ = _ => destruct m
    end; [|discriminate].
    cbn [bind] in H. injection H as <-. auto.
  - destruct _value; cbn [expect bind] in H; [|discriminate].
    match type of H with
    | bind ?m _ = _ => destruct m
    end; [|discriminate].
    cbn [bind] in H. injection H as <-. auto.
Qed.

Lemma update_column (column : list Widget) (frame_no : Z) :
  Forall Widget_ok column ->
  exists column',
    for_each (fun widget => update widget frame_no) column = Ok column'
    /\ column_shape column' = column_shape column
    /\ column_flags column' = column_flags column
    /\ column_values column' = column_values column.
Proof.
  unfold column_shape, column_flags, column_values.
  induction 1 as [|wd column Hwd _ (column' & E & H1 & H2 & H3)].
  - exists []. auto.
  - destruct (update_Widget_ok wd frame_no Hwd) as (wd' & Ewd & _).
    destruct (update_keeps wd wd' frame_no Ewd) as (K1 & K2 & K3).
    exists (wd' :: column'). cbn [for_each]. rewrite Ewd. cbn [bind].
    rewrite E. cbn [bind]. rewrite !fmap_cons, H1, H2, H3, K1, K2, K3.
    auto.
Qed.

Lemma Layout_update_spec (l : Layout) (frame_no : Z) :
  Layout_ok l ->
  exists l',
    Layout_update l frame_no = Ok l'
    /\ tab_shape (_columns l') = tab_shape (_columns l)
    /\ layout_flags l' = layout_flags l
    /\ layout_values l' = layout_values l
    /\ live l' = live l.
Proof.
  unfold Layout_ok, Layout_update, layout_flags, layout_values, tab_shape.
  intros Hok.
  assert (exists columns',
            for_each (for_each (fun widget => update widget frame_no))
              (_columns l) = Ok columns'
            /\ column_shape <$> columns' = column_shape <$> _columns l
            /\ column_flags <$> columns' = column_flags <$> _columns l
            /\ column_values <$> columns' = column_values <$> _columns l)
    as (columns' & -> & H1 & H2 & H3).
  { induction Hok as [|column columns Hc _ (columns' & E & H1 & H2 & H3)].
    - exists []. auto.
    - destruct (update_column column frame_no Hc)
        as (column' & Ec & K1 & K2 & K3).
      exists (column' :: columns'). cbn [for_each]. rewrite Ec. cbn [bind].
      rewrite E. cbn [bind]. rewrite !fmap_cons, H1, H2, H3, K1, K2, K3.
      auto. }
  cbn [bind]. eexists. split; [reflexivity|]. layout_fields. auto.
Qed.

Lemma py_getitem_fmap {A B} (g : A -> B) (l : list A) (i : Z) :
  py_getitem (g <$> l) i = let* x := py_getitem l i in Ok (g x).
Proof.
  unfold py_getitem, py_index, len. rewrite length_fmap.
  destruct (_ && _); cbn [bind].
  - rewrite list_lookup_fmap. now destruct (l !! _).
  - destruct (_ && _); cbn [bind]; [|reflexivity].
    rewrite list_lookup_fmap. now destruct (l !! _).
Qed.

(** The position the Frame routes to, from the live positions. *)
Lemma cursor_live_positions (f : Frame) :
  cursor f
  = let* p := py_getitem (live_positions f) (_focus f) in
    Ok (_focus f, p.1, p.2).
Proof.
  unfold cursor, live_positions. rewrite py_getitem_fmap.
  now destruct (py_getitem (_layouts f) (_focus f)).
Qed.

(** X25: once [Frame.reset] has returned, no widget raises when the Frame
    is redrawn, whatever events were processed in between, and redrawing
    changes nothing but scroll offsets: [_update] keeps the tab stops, the
    [_has_focus] flags, the value of every widget and the position the
    Frame routes events to (the canvas itself is not part of the
    widgets). *)
Theorem update_after_reset (Screen : ScreenT) (f f1 f2 : Frame)
    (events : list Event) (frame_no : Z) :
  Frame_reset f = Ok f1 ->
  Frame_process_events Screen f1 events = Ok f2 ->
  exists f3,
    Frame_update f2 frame_no = Ok f3
    /\ frame_shape f3 = frame_shape f2
    /\ focus_flags f3 = focus_flags f2
    /\ values f3 = values f2
    /\ cursor f3 = cursor f2.
Proof.
  intros Hreset Hrun.
  pose proof (Frame_reset_Frame_ok f f1 Hreset) as Hok1.
  pose proof (Frame_process_events_Frame_ok Screen events f1 f2 Hrun Hok1)
    as Hok.
  unfold Frame_update, frame_shape, focus_flags, values.
  assert (exists layouts',
            for_each (fun layout => Layout_update layout frame_no)
              (_layouts f2) = Ok layouts'
            /\ (fun l => tab_shape (_columns l)) <$> layouts'
               = (fun l => tab_shape (_columns l)) <$> _layouts f2
            /\ layout_flags <$> layouts' = layout_flags <$> _layouts f2
            /\ layout_values <$> layouts' = layout_values <$> _layouts f2
            /\ live <$> layouts' = live <$> _layouts f2)
    as (layouts' & -> & H1 & H2 & H3 & H4).
  { unfold Frame_ok in Hok.
    induction Hok as [|l layouts Hl _ (layouts' & E & H1 & H2 & H3 & H4)].
    - exists []. auto.
    - destruct (Layout_update_spec l frame_no Hl)
        as (l' & El & K1 & K2 & K3 & K4).
      exists (l' :: layouts'). cbn [for_each]. rewrite El. cbn [bind].
      rewrite E. cbn [bind].
      rewrite !fmap_cons, H1, H2, H3, H4, K1, K2, K3, K4. auto. }
  cbn [bind]. eexists. split; [reflexivity|]. frame_fields.
  split; [exact H1|]. split; [exact H2|]. split; [exact H3|].
  rewrite !cursor_live_positions. unfold live_positions. frame_fields.
  now rewrite H4.
Qed.

Lemma update_after_reset_witness :
  let f1 := from_ok no_frame (Frame_reset two_layouts_fixed) in
  let f2 :=
    from_ok no_frame
      (Frame_process_events curses_keys f1
         [KeyboardEvent 88; KeyboardEvent (KEY_TAB curses_keys)]) in
  exists f3,
    Frame_update f2 3 = Ok f3
    /\ frame_shape f3 = frame_shape f2
    /\ focus_flags f3 = focus_flags f2
    /\ values f3 = values f2
    /\ cursor f3 = cursor f2.
Proof.
  apply (update_after_reset curses_keys two_layouts_fixed
           (from_ok no_frame (Frame_reset two_layouts_fixed))
           (from_ok no_frame
              (Frame_process_events curses_keys
                 (from_ok no_frame (Frame_reset two_layouts_fixed))
                 [KeyboardEvent 88; KeyboardEvent (KEY_TAB curses_keys)]))
           [KeyboardEvent 88; KeyboardEvent (KEY_TAB curses_keys)] 3).
  - vm_compute. reflexivity.
  - vm_compute. reflexivity.
Defined.

(** * Typing a text into a TextBox *)

Lemma split_lines_snoc (t : str) (c : ascii) :
  split_lines (t ++ [c])
  = if Ascii.eqb c newline then split_lines t ++ [[]]
    else append_char (split_lines t) c.
Proof.
  induction t as [|a t IH].
  - cbn [app split_lines]. now destruct (Ascii.eqb c newline).
  - cbn [app split_lines]. rewrite IH.
    pose proof (split_lines_nonempty t) as Hne.
    destruct (Ascii.eqb a newline), (Ascii.eqb c newline).
    + reflexivity.
    + cbn [append_char]. now destruct (split_lines t).
    + destruct (split_lines t); [congruence|reflexivity].
    + destruct (split_lines t) as [|l [|l' ls]]; [congruence| |];
        reflexivity.
Qed.

Lemma append_char_insert (ls : list str) (c : ascii) :
  forall last_line,
  ls !! (length ls - 1)%nat = Some last_line ->
  <[(length ls - 1)%nat:=last_line ++ [c]]> ls = append_char ls c
  /\ length (append_char ls c) = length ls
  /\ append_char ls c !! (length ls - 1)%nat = Some (last_line ++ [c]).
Proof.
  induction ls as [|l ls IH]; intros last_line H; [discriminate|].
  destruct ls as [|l' ls].
  - injection H as <-. auto.
  - assert (Hidx : (length (l :: l' :: ls) - 1
                    = S (length (l' :: ls) - 1))%nat)
      by (cbn [length]; lia).
    rewrite Hidx in *. cbn [lookup list_lookup] in H.
    destruct (IH last_line H) as (E1 & E2 & E3).
    change (append_char (l :: l' :: ls) c)
      with (l :: append_char (l' :: ls) c).
    split; [|split].
    + change (<[S (length (l' :: ls) - 1):=last_line ++ [c]]>
                (l :: l' :: ls))
        with (l :: <[(length (l' :: ls) - 1)%nat:=last_line ++ [c]]>
                     (l' :: ls)).
      now rewrite E1.
    + cbn [length] in *. lia.
    + exact E3.
Qed.

Lemma slice_to_all {A} (l : list A) : py_slice_to l (len l) = l.
Proof.
  unfold py_slice_to. rewrite slice_bound_ok
    by (pose proof (len_nonneg l); lia).
  unfold len. rewrite Nat2Z.id. apply firstn_all.
Qed.

Lemma slice_from_all {A} (l : list A) : py_slice_from l (len l) = [].
Proof.
  unfold py_slice_from. rewrite slice_bound_ok
    by (pose proof (len_nonneg l); lia).
  unfold len. rewrite Nat2Z.id. apply drop_all.
Qed.

(** One key of a text typed at the end of the last line. *)
Lemma TextBox_type_at_end (Screen : ScreenT) (base : Widget)
    (ls : list str) (last_line : str) (c : ascii)
    (start_line start_column required_height : Z) :
  Screen_ok Screen = true -> typeable c = true ->
  ls !! (length ls - 1)%nat = Some last_line ->
  let ls' :=
    if Ascii.eqb c newline then ls ++ [[]] else append_char ls c in
  exists last_line',
    process_event Screen
      (set_variant base
         (TextBox [] (Some ls) (len ls - 1) (len last_line) start_line
            start_column required_height)) (KeyboardEvent (key_of c))
    = Ok (set_variant base
            (TextBox [] (Some ls') (len ls' - 1) (len last_line')
               start_line start_column required_height), None)
    /\ ls' !! (length ls' - 1)%nat = Some last_line'.
Proof.
  intros HS Hc Hlast ls'.
  pose proof (lookup_lt_Some _ _ _ Hlast) as Hlen.
  assert (Hn : Z.to_nat (len ls - 1) = (length ls - 1)%nat)
    by (unfold len; lia).
  unfold typeable in Hc. unfold key_of. subst ls'.
  destruct (Ascii.eqb c newline).
  - (* Enter *)
    exists []. split.
    + unfold process_event. cbn [variant set_variant].
      unfold TextBox_process_event. cbn [Z.eqb orb Pos.eqb].
      cbn [expect bind].
      rewrite (py_getitem_ok ls (len ls - 1) last_line)
        by (rewrite ?Hn; (unfold len; lia) || assumption).
      cbn [bind].
      replace (len ls - 1 + 1) with (len ls) by lia.
      assert (Hins : py_insert ls (len ls)
                       (py_slice_from last_line (len last_line))
                     = ls ++ [[]]).
      { rewrite py_insert_ok by (pose proof (len_nonneg ls); lia).
        rewrite slice_from_all. unfold len.
        now rewrite Nat2Z.id, firstn_all, drop_all. }
      rewrite Hins.
      rewrite (py_getitem_ok _ (len ls - 1) last_line);
        [|unfold len; lia|rewrite Hn, lookup_app_l by lia; exact Hlast].
      cbn [bind].
      rewrite py_setitem_ok by (rewrite len_app; unfold len; simpl; lia).
      cbn [bind].
      rewrite slice_to_all, Hn, list_insert_id
        by (rewrite lookup_app_l by lia; exact Hlast).
      change (set_variant (set_variant base ?a) ?b) with (set_variant base b).
      do 3 f_equal. rewrite len_app. unfold len. simpl. f_equal; lia.
    + rewrite length_app. cbn [length].
      rewrite lookup_app_r by lia.
      now replace (length ls + 1 - 1 - length ls)%nat with 0%nat by lia.
  - (* a character *)
    cbn [orb] in Hc.
    destruct (append_char_insert ls c last_line Hlast) as (E1 & E2 & E3).
    exists (last_line ++ [c]). split; [|now rewrite E2].
    rewrite (TextBox_insert Screen base [] ls last_line)
      by (assumption || (unfold len; lia) || (rewrite Hn; assumption)).
    rewrite slice_to_all, slice_from_all, Hn. unfold chr.
    rewrite N2Z.id, ascii_N_embedding. rewrite app_nil_r, E1.
    do 3 f_equal.
    replace (len (append_char ls c)) with (len ls)
      by (unfold len; now rewrite E2).
    replace (len (last_line ++ [c])) with (len last_line + 1)
      by (rewrite len_app; unfold len; simpl; lia).
    reflexivity.
Qed.

Lemma TextBox_type_text (Screen : ScreenT) (base : Widget)
    (start_line start_column required_height : Z) (t : str) :
  forall (done : str) (last_line : str),
  Screen_ok Screen = true -> forallb typeable t = true ->
  split_lines done !! (length (split_lines done) - 1)%nat = Some last_line ->
  exists last_line',
    process_events Screen
      (set_variant base
         (TextBox [] (Some (split_lines done)) (len (split_lines done) - 1)
            (len last_line) start_line start_column required_height))
      (keys (key_of <$> t))
    = Ok (set_variant base
            (TextBox [] (Some (split_lines (done ++ t)))
               (len (split_lines (done ++ t)) - 1) (len last_line')
               start_line start_column required_height))
    /\ split_lines (done ++ t)
       !! (length (split_lines (done ++ t)) - 1)%nat = Some last_line'.
Proof.
  induction t as [|c t IH]; intros done last_line HS Ht Hlast.
  - exists last_line. rewrite app_nil_r. split; [reflexivity|exact Hlast].
  - cbn [forallb] in Ht. apply andb_prop in Ht. destruct Ht as [Hc Ht].
    destruct (TextBox_type_at_end Screen base (split_lines done) last_line c
                start_line start_column required_height HS Hc Hlast)
      as (last1 & E & Hlast1).
    cbv zeta in E, Hlast1. rewrite <- split_lines_snoc in E, Hlast1.
    destruct (IH (done ++ [c]) last1 HS Ht Hlast1) as (last2 & E2 & Hlast2).
    rewrite <- app_assoc in E2, Hlast2. cbn [app] in E2, Hlast2.
    exists last2. split; [|exact Hlast2].
    unfold keys. rewrite !fmap_cons. cbn [process_events].
    rewrite E. cbn [bind]. exact E2.
Qed.

(** X26: typing a text into an empty TextBox reproduces it.  After [reset]
    of a TextBox without text, the keys of a text (LF for a line break,
    the character code for any other character) leave the TextBox with the
    value and the cursor that [reset] gives a TextBox initialised with that
    text: the lines of the text, and the cursor at the end of the last
    line. *)
Theorem typing_reproduces_text (Screen : ScreenT) (base : Widget) (t : str)
    (value0 : option (list str))
    (line0 column0 start_line start_column required_height : Z) :
  Screen_ok Screen = true -> forallb typeable t = true ->
  exists (ls : list str) (last_line : str),
    (let* self :=
       reset (set_variant base
                (TextBox [] value0 line0 column0 start_line start_column
                   required_height)) in
     process_events Screen self (keys (key_of <$> t)))
    = Ok (set_variant base
            (TextBox [] (Some ls) (len ls - 1) (len last_line) start_line
               start_column required_height))
    /\ reset (set_variant base
                (TextBox t value0 line0 column0 start_line start_column
                   required_height))
       = Ok (set_variant base
               (TextBox t (Some ls) (len ls - 1) (len last_line) start_line
                  start_column required_height)).
Proof.
  intros HS Ht.
  destruct (TextBox_type_text Screen base start_line start_column
              required_height t [] [] HS Ht eq_refl)
    as (last_line & E & Hlast).
  cbn [app] in E, Hlast.
  exists (split_lines t), last_line. split.
  - unfold reset. cbn [variant set_variant]. unfold TextBox_reset.
    cbn [split_lines]. change (py_getitem [[]] (len [[]] - 1))
      with (@Ok str []). cbn [bind].
    change (set_variant (set_variant base ?a) ?b) with (set_variant base b).
    exact E.
  - unfold reset. cbn [variant set_variant]. unfold TextBox_reset.
    destruct (split_lines_last t) as (x & Hpos & Hx & ->). cbn [bind].
    change (set_variant (set_variant base ?a) ?b) with (set_variant base b).
    replace (Z.to_nat (len (split_lines t) - 1))
      with (length (split_lines t) - 1)%nat in Hx by (unfold len; lia).
    now replace x with last_line by congruence.
Qed.

Lemma typing_reproduces_text_witness :
  exists (ls : list str) (last_line : str),
    (let* self := reset (TextBox_init [] 3 None None) in
     process_events curses_keys self
       (keys (key_of <$> (s "one" ++ [newline] ++ s "two"))))
    = Ok (set_variant (TextBox_init [] 3 None None)
            (TextBox [] (Some ls) (len ls - 1) (len last_line) 0 0 3))
    /\ reset (TextBox_init (s "one" ++ [newline] ++ s "two") 3 None None)
       = Ok (set_variant (TextBox_init [] 3 None None)
               (TextBox (s "one" ++ [newline] ++ s "two") (Some ls)
                  (len ls - 1) (len last_line) 0 0 3)).
Proof.
  apply (typing_reproduces_text curses_keys (TextBox_init [] 3 None None)
           (s "one" ++ [newline] ++ s "two") None 0 0 0 0 3).
  - reflexivity.
  - reflexivity.
Defined.

(** * Frame.fix, Layout by Layout *)

Lemma fix_columns_end (F : FloatT) (canvas : Canvas) (sizes : list (Z * Z))
    (start_y : Z) (columns : list (list Widget)) :
  forall i x max_y columns' max_y',
  fix_columns F canvas sizes columns i x start_y max_y
  = Ok (columns', max_y') ->
  max_y' = fold_left Z.max (column_end start_y <$> columns) max_y.
Proof.
  induction columns as [|column columns IH];
    intros i x max_y columns' max_y' H.
  - now injection H as _ <-.
  - cbn [fix_columns] in H.
    destruct (label_offset column) as [offset|]; [|discriminate].
    cbn [bind] in H.
    destruct (py_getitem sizes i) as [size|]; [|discriminate].
    cbn [bind] in H.
    destruct (fix_widgets_spec column x
                (Z.min offset (third_of_width F (width canvas) size))
                (int_of_width F (width canvas) size) start_y)
      as (column1 & E & _).
    rewrite E in H.
    match type of H with
    | bind ?m _ = _ => destruct m as [[rest m1]|] eqn:Er
    end; [|discriminate].
    cbn [bind] in H. injection H as _ <-.
    rewrite fmap_cons. cbn [fold_left]. exact (IH _ _ _ _ _ Er).
Qed.

(** X27: [Frame.fix] lays the Layouts out one below the other: the first
    one from line 0, each of the others from the line where the one before
    it ends, which is the end of its longest column. *)
Theorem fix_layouts_stacks (F : FloatT) (canvas : Canvas)
    (layouts layouts' : list Layout) (y0 : Z) (i : nat) (l' : Layout) :
  fix_layouts F canvas layouts y0 = Ok layouts' ->
  layouts' !! i = Some l' ->
  exists l y,
    layouts !! i = Some l
    /\ layout_starts y0 layouts !! i = Some y
    /\ Layout_fix F canvas l y = Ok (l', layout_end y l).
Proof.
  revert layouts' y0 i.
  induction layouts as [|l layouts IH]; intros layouts' y0 i H Hi.
  - injection H as <-. now rewrite lookup_nil in Hi.
  - cbn [fix_layouts] in H.
    destruct (Layout_fix F canvas l y0) as [[l1 y1]|] eqn:El;
      [|discriminate].
    cbn [bind] in H.
    destruct (fix_layouts F canvas layouts y1) as [rest|] eqn:Er;
      [|discriminate].
    cbn [bind] in H. injection H as <-.
    assert (Hy1 : y1 = layout_end y0 l).
    { unfold Layout_fix in El.
      match type of El with
      | bind ?m _ = _ => destruct m as [[columns m1]|] eqn:E
      end; [|discriminate].
      cbn [bind] in El. injection El as _ <-.
      exact (fix_columns_end _ _ _ _ _ _ _ _ _ _ E). }
    subst y1. destruct i as [|i].
    + injection Hi as <-. exists l, y0. auto.
    + cbn [lookup list_lookup] in Hi.
      destruct (IH rest _ i Er Hi) as (l2 & y2 & H1 & H2 & H3).
      exists l2, y2. auto.
Qed.

Lemma fix_layouts_stacks_witness :
  exists l y,
    _layouts two_layouts_frame !! 1%nat = Some l
    /\ layout_starts 0 (_layouts two_layouts_frame) !! 1%nat = Some y
    /\ Layout_fix exact_float (_canvas two_layouts_frame) l y
       = Ok (from_ok no_layout
               (py_getitem
                  (from_ok []
                     (fix_layouts exact_float (_canvas two_layouts_frame)
                        (_layouts two_layouts_frame) 0)) 1),
             layout_end y l).
Proof.
  apply (fix_layouts_stacks exact_float (_canvas two_layouts_frame)
           (_layouts two_layouts_frame)
           (from_ok []
              (fix_layouts exact_float (_canvas two_layouts_frame)
                 (_layouts two_layouts_frame) 0)) 0 1).
  - reflexivity.
  - reflexivity.
Defined.
